(** * Qms front-end widgets: the time range picker and the key-value JSON editor

    Shallow embedding of [static/js/time_range_picker.js] and
    [static/assets/kvjson/kvjson.js], with the parts of the host (ECMA-262
    strings, [Date], [JSON], plain objects) that the two scripts call. *)

From Stdlib Require Import ZArith NArith List Bool Lia String Ascii.
Import ListNotations.
Local Open Scope Z_scope.
Local Open Scope list_scope.

(** * Host strings

    A JavaScript string is a sequence of UTF-16 code units. *)

Definition jsstring := list N.

Definition str (s : string) : jsstring :=
  map N_of_ascii (list_ascii_of_string s).

Fixpoint eqb_str (a b : jsstring) : bool :=
  match a, b with
  | [], [] => true
  | x :: a', y :: b' => (x =? y)%N && eqb_str a' b'
  | _, _ => false
  end.

(** WhiteSpace and LineTerminator code points, the ones [trim] removes. *)
Definition isWhiteSpace (c : N) : bool :=
  ((9 <=? c) && (c <=? 13) || (c =? 32) || (c =? 160) || (c =? 5760)
   || (8192 <=? c) && (c <=? 8202)
   || (c =? 8232) || (c =? 8233) || (c =? 8239) || (c =? 8287)
   || (c =? 12288) || (c =? 65279))%N.

Fixpoint trimStart (s : jsstring) : jsstring :=
  match s with
  | c :: s' => if isWhiteSpace c then trimStart s' else s
  | [] => []
  end.

Definition trimEnd (s : jsstring) : jsstring := rev (trimStart (rev s)).

Definition trim (s : jsstring) : jsstring := trimEnd (trimStart s).

(** [toLowerCase], on the code units whose lower case is an ASCII letter:
    A-Z and KELVIN SIGN (U+212A).  Every other code unit maps to code units
    that are not all ASCII and is left in place: it cannot make a string
    equal to one of the ASCII labels this program compares with. *)
Definition lowerUnit (c : N) : N :=
  (if (65 <=? c) && (c <=? 90) then c + 32
   else if c =? 8490 then 107
   else c)%N.

Definition toLowerCase (s : jsstring) : jsstring := map lowerUnit s.

(** [s.replace(a, b)] with a one-unit string pattern: the first occurrence
    only. *)
Fixpoint replaceFirst (a b : N) (s : jsstring) : jsstring :=
  match s with
  | [] => []
  | c :: s' => if (c =? a)%N then b :: s' else c :: replaceFirst a b s'
  end.

(** Number::toString on integers (decimal digits, no exponent below 1e21). *)
Fixpoint digitsAux (fuel : nat) (n : N) (acc : jsstring) : jsstring :=
  match fuel with
  | O => acc
  | S f =>
      if (n <? 10)%N then (48 + n)%N :: acc
      else digitsAux f (n / 10)%N ((48 + n mod 10)%N :: acc)
  end.

Definition digitsOfN (n : N) : jsstring :=
  digitsAux (S (N.to_nat (N.log2 n))) n [].

Definition intToString (z : Z) : jsstring :=
  if z <? 0 then 45%N :: digitsOfN (Z.abs_N z) else digitsOfN (Z.to_N z).

(** * Host dates (ECMA-262, Date objects)

    A valid Date is its time value, a number of milliseconds.  The scripts
    only read and write local-time fields; the zone is taken with a fixed
    offset, so the time value is counted on the local wall clock (the spec:
    no timezone-aware calendar engine).  An invalid Date (time value NaN) is
    [None] where the scripts can meet one.  TimeClip is not applied: the
    numbers stay time values for every reading of the clock from the epoch
    to a month before the last time value ([computeQuickRange_inTimeRange]
    below). *)

Module DateModel.

Definition msPerDay : Z := 86400000.
Definition msPerHour : Z := 3600000.
Definition msPerMinute : Z := 60000.
Definition msPerSecond : Z := 1000.

Definition Day (t : Z) : Z := t / msPerDay.
Definition TimeWithinDay (t : Z) : Z := t mod msPerDay.

Definition DaysInYear (y : Z) : Z :=
  if negb (y mod 4 =? 0) then 365
  else if negb (y mod 100 =? 0) then 366
  else if negb (y mod 400 =? 0) then 365
  else 366.

Definition DayFromYear (y : Z) : Z :=
  365 * (y - 1970) + (y - 1969) / 4 - (y - 1901) / 100 + (y - 1601) / 400.

(** The largest [y] with [DayFromYear y <= d]: an estimate from the mean
    length of the Gregorian year, corrected by at most one. *)
Definition YearFromDay (d : Z) : Z :=
  let y0 := 1970 + (400 * d) / 146097 in
  if d <? DayFromYear y0 then y0 - 1
  else if DayFromYear (y0 + 1) <=? d then y0 + 1
  else y0.

Definition InLeapYear (y : Z) : Z := DaysInYear y - 365.

Definition DayWithinYear (d : Z) : Z := d - DayFromYear (YearFromDay d).

(** Day number, within its year, of the first day of month [m] (0..11). *)
Definition monthStart (leap m : Z) : Z :=
  match m with
  | 0 => 0
  | 1 => 31
  | 2 => 59 + leap
  | 3 => 90 + leap
  | 4 => 120 + leap
  | 5 => 151 + leap
  | 6 => 181 + leap
  | 7 => 212 + leap
  | 8 => 243 + leap
  | 9 => 273 + leap
  | 10 => 304 + leap
  | _ => 334 + leap
  end.

Definition MonthFromDay (d : Z) : Z :=
  let leap := InLeapYear (YearFromDay d) in
  let w := DayWithinYear d in
  if w <? 31 then 0
  else if w <? 59 + leap then 1
  else if w <? 90 + leap then 2
  else if w <? 120 + leap then 3
  else if w <? 151 + leap then 4
  else if w <? 181 + leap then 5
  else if w <? 212 + leap then 6
  else if w <? 243 + leap then 7
  else if w <? 273 + leap then 8
  else if w <? 304 + leap then 9
  else if w <? 334 + leap then 10
  else 11.

Definition DateFromDay (d : Z) : Z :=
  DayWithinYear d
  - monthStart (InLeapYear (YearFromDay d)) (MonthFromDay d) + 1.

Definition WeekDay (d : Z) : Z := (d + 4) mod 7.

Definition MakeTime (h m s ms : Z) : Z :=
  h * msPerHour + m * msPerMinute + s * msPerSecond + ms.

Definition MakeDay (year month date : Z) : Z :=
  let ym := year + month / 12 in
  let mn := month mod 12 in
  DayFromYear ym + monthStart (InLeapYear ym) mn + date - 1.

Definition MakeDate (day time : Z) : Z := day * msPerDay + time.

(** The methods of a Date object; a setter returns the new time value. *)
Definition getFullYear (t : Z) : Z := YearFromDay (Day t).
Definition getMonth (t : Z) : Z := MonthFromDay (Day t).
Definition getDate (t : Z) : Z := DateFromDay (Day t).
Definition getDay (t : Z) : Z := WeekDay (Day t).
Definition getHours (t : Z) : Z := (t / msPerHour) mod 24.
Definition getMinutes (t : Z) : Z := (t / msPerMinute) mod 60.
Definition getSeconds (t : Z) : Z := (t / msPerSecond) mod 60.
Definition getMilliseconds (t : Z) : Z := t mod msPerSecond.

Definition setHours (t h m s ms : Z) : Z :=
  MakeDate (Day t) (MakeTime h m s ms).

Definition setDate (t date : Z) : Z :=
  MakeDate (MakeDay (getFullYear t) (getMonth t) date) (TimeWithinDay t).

(** [new Date(year, month, date)]: a year from 0 to 99 means 1900 + year. *)
Definition newDateYMD (year month date : Z) : Z :=
  let yr := if (0 <=? year) && (year <=? 99) then 1900 + year else year in
  MakeDate (MakeDay yr month date) (MakeTime 0 0 0 0).

(** The time values of ECMA-262: TimeClip turns any other number into
    NaN. *)
Definition maxTime : Z := 8640000000000000.

Definition inTimeRange (t : Z) : Prop := - maxTime <= t <= maxTime.

End DateModel.
Import DateModel.

(** * time_range_picker.js: utility functions *)

Definition pad2 (n : Z) : jsstring :=
  if n <? 10 then str "0" ++ intToString n else intToString n.

Definition formatDate (d : Z) : jsstring :=
  intToString (getFullYear d) ++ str "-" ++ pad2 (getMonth d + 1)
  ++ str "-" ++ pad2 (getDate d).

Definition formatDateTime (d : Z) : jsstring :=
  formatDate d ++ str " " ++ pad2 (getHours d) ++ str ":"
  ++ pad2 (getMinutes d) ++ str ":" ++ pad2 (getSeconds d).

(** * time_range_picker.js: quick ranges

    [now] is the reading of the clock that the source takes with
    [new Date()]; [key] is the attribute value, [None] for [null]. *)

Definition computeQuickRange (now : Z) (key : option jsstring) : Z * Z :=
  let key := toLowerCase (trim (match key with Some k => k | None => [] end)) in
  let from := now in
  let to := now in
  if eqb_str key (str "today") then
    let from := setHours now 0 0 0 0 in
    let to := setHours now 23 59 59 999 in
    (from, to)
  else if eqb_str key (str "yesterday") then
    let from := now in
    let from := setDate from (getDate from - 1) in
    let from := setHours from 0 0 0 0 in
    let to := from in
    let to := setHours to 23 59 59 999 in
    (from, to)
  else if eqb_str key (str "this_week") || eqb_str key (str "this week") then
    let dayOfWeek := getDay now in
    let dayOfWeek := if dayOfWeek =? 0 then 7 else dayOfWeek in
    let from := now in
    let from := setDate from (getDate from - (dayOfWeek - 1)) in
    let from := setHours from 0 0 0 0 in
    let to := setHours now 23 59 59 999 in
    (from, to)
  else if eqb_str key (str "this_month") || eqb_str key (str "this month") then
    let from := newDateYMD (getFullYear now) (getMonth now) 1 in
    let from := setHours from 0 0 0 0 in
    let to := newDateYMD (getFullYear now) (getMonth now + 1) 0 in
    let to := setHours to 23 59 59 999 in
    (from, to)
  else if eqb_str key (str "last_12_hours") then
    let from := now - 12 * 60 * 60 * 1000 in
    (from, to)
  else if eqb_str key (str "last_24_hours") then
    let from := now - 24 * 60 * 60 * 1000 in
    (from, to)
  else if eqb_str key (str "last_2_days") then
    let to := setHours now 23 59 59 999 in
    let from := now in
    let from := setDate from (getDate from - 1) in
    let from := setHours from 0 0 0 0 in
    (from, to)
  else if eqb_str key (str "last_7_days") then
    let to := setHours now 23 59 59 999 in
    let from := now in
    let from := setDate from (getDate from - 6) in
    let from := setHours from 0 0 0 0 in
    (from, to)
  else
    let from := setHours now 0 0 0 0 in
    let to := setHours now 23 59 59 999 in
    (from, to).

(** * time_range_picker.js: the controller

    The state the handlers share: the three variables of the closure, the
    DOM nodes they read and write, and what the page has shown or sent
    ([alert] calls, form submissions), oldest first. *)

(** The calendar widget (Litepicker 2), an external library.  An instance
    holds the range it was last given with [setDateRange].  It emits
    [selected] when the user completes a selection and whenever
    [setDateRange] is called, handing the listeners copies of its two
    dates. *)
Record Litepicker := mkLitepicker { shownRange : option (Z * Z) }.

(** How the form was submitted: [requestSubmit()] or [submit()]. *)
Inductive Submission := RequestSubmit | Submit.

Record Picker := mkPicker {
  currentFrom : option Z;
  currentTo : option Z;
  picker : option Litepicker;
  fromInput : jsstring;
  toInput : jsstring;
  hiddenFrom : jsstring;
  hiddenTo : jsstring;
  summaryLabel : jsstring;
  panelHidden : bool;
  panelBlock : bool;
  overlayHidden : bool;
  panelLeft : option Z;
  panelTop : option Z;
  alerts : list jsstring;
  submitted : list Submission
}.

Definition set_currentFrom (v : option Z) (s : Picker) : Picker :=
  mkPicker v (currentTo s) (picker s) (fromInput s) (toInput s)
    (hiddenFrom s) (hiddenTo s) (summaryLabel s) (panelHidden s)
    (panelBlock s) (overlayHidden s) (panelLeft s) (panelTop s) (alerts s)
    (submitted s).

Definition set_currentTo (v : option Z) (s : Picker) : Picker :=
  mkPicker (currentFrom s) v (picker s) (fromInput s) (toInput s)
    (hiddenFrom s) (hiddenTo s) (summaryLabel s) (panelHidden s)
    (panelBlock s) (overlayHidden s) (panelLeft s) (panelTop s) (alerts s)
    (submitted s).

Definition set_picker (v : option Litepicker) (s : Picker) : Picker :=
  mkPicker (currentFrom s) (currentTo s) v (fromInput s) (toInput s)
    (hiddenFrom s) (hiddenTo s) (summaryLabel s) (panelHidden s)
    (panelBlock s) (overlayHidden s) (panelLeft s) (panelTop s) (alerts s)
    (submitted s).

Definition set_fromInput (v : jsstring) (s : Picker) : Picker :=
  mkPicker (currentFrom s) (currentTo s) (picker s) v (toInput s)
    (hiddenFrom s) (hiddenTo s) (summaryLabel s) (panelHidden s)
    (panelBlock s) (overlayHidden s) (panelLeft s) (panelTop s) (alerts s)
    (submitted s).

Definition set_toInput (v : jsstring) (s : Picker) : Picker :=
  mkPicker (currentFrom s) (currentTo s) (picker s) (fromInput s) v
    (hiddenFrom s) (hiddenTo s) (summaryLabel s) (panelHidden s)
    (panelBlock s) (overlayHidden s) (panelLeft s) (panelTop s) (alerts s)
    (submitted s).

Definition set_hiddenFrom (v : jsstring) (s : Picker) : Picker :=
  mkPicker (currentFrom s) (currentTo s) (picker s) (fromInput s)
    (toInput s) v (hiddenTo s) (summaryLabel s) (panelHidden s)
    (panelBlock s) (overlayHidden s) (panelLeft s) (panelTop s) (alerts s)
    (submitted s).

Definition set_hiddenTo (v : jsstring) (s : Picker) : Picker :=
  mkPicker (currentFrom s) (currentTo s) (picker s) (fromInput s)
    (toInput s) (hiddenFrom s) v (summaryLabel s) (panelHidden s)
    (panelBlock s) (overlayHidden s) (panelLeft s) (panelTop s) (alerts s)
    (submitted s).

Definition set_summaryLabel (v : jsstring) (s : Picker) : Picker :=
  mkPicker (currentFrom s) (currentTo s) (picker s) (fromInput s)
    (toInput s) (hiddenFrom s) (hiddenTo s) v (panelHidden s) (panelBlock s)
    (overlayHidden s) (panelLeft s) (panelTop s) (alerts s) (submitted s).

Definition set_panelHidden (v : bool) (s : Picker) : Picker :=
  mkPicker (currentFrom s) (currentTo s) (picker s) (fromInput s)
    (toInput s) (hiddenFrom s) (hiddenTo s) (summaryLabel s) v
    (panelBlock s) (overlayHidden s) (panelLeft s) (panelTop s) (alerts s)
    (submitted s).

Definition set_panelBlock (v : bool) (s : Picker) : Picker :=
  mkPicker (currentFrom s) (currentTo s) (picker s) (fromInput s)
    (toInput s) (hiddenFrom s) (hiddenTo s) (summaryLabel s) (panelHidden s)
    v (overlayHidden s) (panelLeft s) (panelTop s) (alerts s) (submitted s).

Definition set_overlayHidden (v : bool) (s : Picker) : Picker :=
  mkPicker (currentFrom s) (currentTo s) (picker s) (fromInput s)
    (toInput s) (hiddenFrom s) (hiddenTo s) (summaryLabel s) (panelHidden s)
    (panelBlock s) v (panelLeft s) (panelTop s) (alerts s) (submitted s).

Definition set_panelLeft (v : option Z) (s : Picker) : Picker :=
  mkPicker (currentFrom s) (currentTo s) (picker s) (fromInput s)
    (toInput s) (hiddenFrom s) (hiddenTo s) (summaryLabel s) (panelHidden s)
    (panelBlock s) (overlayHidden s) v (panelTop s) (alerts s) (submitted s).

Definition set_panelTop (v : option Z) (s : Picker) : Picker :=
  mkPicker (currentFrom s) (currentTo s) (picker s) (fromInput s)
    (toInput s) (hiddenFrom s) (hiddenTo s) (summaryLabel s) (panelHidden s)
    (panelBlock s) (overlayHidden s) (panelLeft s) v (alerts s)
    (submitted s).

Definition set_alerts (v : list jsstring) (s : Picker) : Picker :=
  mkPicker (currentFrom s) (currentTo s) (picker s) (fromInput s)
    (toInput s) (hiddenFrom s) (hiddenTo s) (summaryLabel s) (panelHidden s)
    (panelBlock s) (overlayHidden s) (panelLeft s) (panelTop s) v
    (submitted s).

Definition set_submitted (v : list Submission) (s : Picker) : Picker :=
  mkPicker (currentFrom s) (currentTo s) (picker s) (fromInput s)
    (toInput s) (hiddenFrom s) (hiddenTo s) (summaryLabel s) (panelHidden s)
    (panelBlock s) (overlayHidden s) (panelLeft s) (panelTop s) (alerts s) v.

(** What [positionPanel] measures when it runs, in pixels: the rectangle of
    the summary button, the window, and the size of the panel. *)
Record Geometry := mkGeometry {
  btnLeft : Z;
  btnBottom : Z;
  scrollX : Z;
  scrollY : Z;
  innerWidth : Z;
  innerHeight : Z;
  panelWidth : Z;
  panelHeight : Z
}.

(** What happens on the page, with what the handler reads from outside:
    the measures of the page, the attribute of the quick-range button and the
    clock, the two endpoints ([dateInstance], or [None] for a missing one)
    that the calendar reports. *)
Inductive Event :=
| SummaryClick (g : Geometry)
| CloseClick
| OverlayClick
| QuickClick (key : option jsstring) (now : Z)
| Selected (date1 date2 : option Z)
| ApplyClick.

Definition isEmpty (s : jsstring) : bool :=
  match s with [] => true | _ => false end.

(** [" → "] *)
Definition arrow : jsstring := [32; 8594; 32]%N.

Section Controller.

(** The host: [new Date(string)] ([None] for an invalid Date), whether
    [window.Litepicker] is there and whether forms have [requestSubmit]. *)
Variable newDateString : jsstring -> option Z.
Variable litepickerLoaded : bool.
Variable hasRequestSubmit : bool.

Definition parseDT (s : jsstring) : option Z :=
  match newDateString (replaceFirst 32 84 s) with
  | Some dt => Some dt
  | None =>
      match newDateString s with
      | Some d => Some (setHours d 0 0 0 0)
      | None => None
      end
  end.

Definition initFromHidden (s : Picker) : Picker :=
  let s := if isEmpty (hiddenFrom s) then s
           else set_currentFrom (parseDT (hiddenFrom s)) s in
  let s := if isEmpty (hiddenTo s) then s
           else set_currentTo (parseDT (hiddenTo s)) s in
  match currentFrom s, currentTo s with
  | Some f, Some t =>
      let s := set_fromInput (formatDateTime f) s in
      let s := set_toInput (formatDateTime t) s in
      set_summaryLabel (formatDateTime f ++ arrow ++ formatDateTime t) s
  | _, _ => s
  end.

Definition positionPanel (g : Geometry) (s : Picker) : Picker :=
  let left := scrollX g + btnLeft g in
  let top := scrollY g + btnBottom g + 8 in
  let left := if innerWidth g - 10 <? left + panelWidth g
              then innerWidth g - panelWidth g - 10 else left in
  let maxTop := scrollY g + innerHeight g - panelHeight g - 10 in
  let top := if maxTop <? top then maxTop else top in
  let top := if top <? 20 then 20 else top in
  set_panelTop (Some top) (set_panelLeft (Some left) s).

(** The handler of the calendar's [selected] event, which [openPanel]
    binds right after it has built the calendar. *)
Definition onSelected (date1 date2 : option Z) (s : Picker) : Picker :=
  match date1, date2 with
  | Some d1, Some d2 =>
      let d1 := setHours d1 0 0 0 0 in
      let d2 := setHours d2 23 59 59 999 in
      let s := set_currentFrom (Some d1) s in
      let s := set_currentTo (Some d2) s in
      let s := set_fromInput (formatDateTime d1) s in
      set_toInput (formatDateTime d2) s
  | _, _ => s
  end.

(** [instance.setDateRange(from, to)] inside [setup]: the constructor runs
    [setup] before [openPanel] binds the handler of [selected], so the
    calendar takes the range and no handler of the page runs. *)
Definition setupDateRange (from to : Z) (s : Picker) : Picker :=
  set_picker (Some (mkLitepicker (Some (from, to)))) s.

(** [picker.setDateRange(from, to)] on the calendar of the page.  Litepicker
    takes the range and emits [selected] with copies of the two dates before
    it returns, which runs the handler above. *)
Definition setDateRange (from to : Z) (s : Picker) : Picker :=
  onSelected (Some from) (Some to)
    (set_picker (Some (mkLitepicker (Some (from, to)))) s).

Definition openPanel (g : Geometry) (s : Picker) : Picker :=
  let s := set_overlayHidden false s in
  let s := set_panelHidden false s in
  let s := set_panelBlock true s in
  let s := positionPanel g s in
  let s :=
    match picker s with
    | None =>
        if litepickerLoaded then
          match currentFrom s, currentTo s with
          | Some f, Some t => setupDateRange f t s
          | _, _ => set_picker (Some (mkLitepicker None)) s
          end
        else s
    | Some _ => s
    end in
  match picker s, currentFrom s, currentTo s with
  | Some _, Some f, Some t => setDateRange f t s
  | _, _, _ => s
  end.

Definition closePanel (s : Picker) : Picker :=
  set_overlayHidden true (set_panelHidden true s).

(** The click handler of a quick-range button. *)
Definition quickRangeClick (key : option jsstring) (now : Z) (s : Picker)
  : Picker :=
  let '(from, to) := computeQuickRange now key in
  let s := set_currentFrom (Some from) s in
  let s := set_currentTo (Some to) s in
  let s := set_fromInput (formatDateTime from) s in
  let s := set_toInput (formatDateTime to) s in
  match picker s with
  | Some _ => setDateRange from to s
  | None => s
  end.

Definition alert (msg : jsstring) (s : Picker) : Picker :=
  set_alerts (alerts s ++ [msg]) s.

(** The click handler of the apply button. *)
Definition applyClick (s : Picker) : Picker :=
  if isEmpty (fromInput s) || isEmpty (toInput s) then
    alert (str "Please enter valid 'From' and 'To'.") s
  else
    let from := newDateString (replaceFirst 32 84 (fromInput s)) in
    let to := newDateString (replaceFirst 32 84 (toInput s)) in
    match from, to with
    | Some from, Some to =>
        if to <? from then alert (str "'From' must be before 'To'.") s
        else
          let s := set_currentFrom (Some from) s in
          let s := set_currentTo (Some to) s in
          let s := set_hiddenFrom (formatDateTime from) s in
          let s := set_hiddenTo (formatDateTime to) s in
          let s := set_summaryLabel (hiddenFrom s ++ arrow ++ hiddenTo s) s in
          let s := closePanel s in
          if hasRequestSubmit
          then set_submitted (submitted s ++ [RequestSubmit]) s
          else set_submitted (submitted s ++ [Submit]) s
    | _, _ => alert (str "Invalid date/time.") s
    end.

(** Whether the apply handler gets past its three checks. *)
Definition applyAccepts (s : Picker) : Prop :=
  fromInput s <> [] /\ toInput s <> []
  /\ exists from to,
       newDateString (replaceFirst 32 84 (fromInput s)) = Some from
       /\ newDateString (replaceFirst 32 84 (toInput s)) = Some to
       /\ from <= to.

(** The calendar exists, and reports selections, only once [openPanel] has
    built it. *)
Definition step (s : Picker) (e : Event) : Picker :=
  match e with
  | SummaryClick g => openPanel g s
  | CloseClick | OverlayClick => closePanel s
  | QuickClick key now => quickRangeClick key now s
  | Selected date1 date2 =>
      match picker s with
      | Some _ => onSelected date1 date2 s
      | None => s
      end
  | ApplyClick => applyClick s
  end.

End Controller.

(** A host parser for the witnesses: the date-time forms of ECMA-262 that
    the widget itself writes, [YYYY-MM-DDTHH:MM:SS] and [YYYY-MM-DD]. *)
Definition digitVal (c : N) : option Z :=
  if ((48 <=? c) && (c <=? 57))%N then Some (Z.of_N c - 48) else None.

Definition twoDigits (a b : N) : option Z :=
  match digitVal a, digitVal b with
  | Some x, Some y => Some (10 * x + y)
  | _, _ => None
  end.

Definition fourDigits (a b c d : N) : option Z :=
  match twoDigits a b, twoDigits c d with
  | Some x, Some y => Some (100 * x + y)
  | _, _ => None
  end.

Definition DaysInMonth (leap m : Z) : Z :=
  match m with
  | 1 => 28 + leap
  | 3 | 5 | 8 | 10 => 30
  | _ => 31
  end.

Definition isoDay (y1 y2 y3 y4 m1 m2 d1 d2 : N) : option Z :=
  match fourDigits y1 y2 y3 y4, twoDigits m1 m2, twoDigits d1 d2 with
  | Some y, Some m, Some d =>
      if (1 <=? m) && (m <=? 12) && (1 <=? d)
         && (d <=? DaysInMonth (InLeapYear y) (m - 1))
      then Some (MakeDay y (m - 1) d) else None
  | _, _, _ => None
  end.

Definition isoTime (h1 h2 mi1 mi2 s1 s2 : N) : option Z :=
  match twoDigits h1 h2, twoDigits mi1 mi2, twoDigits s1 s2 with
  | Some h, Some mi, Some s =>
      if (h <=? 23) && (mi <=? 59) && (s <=? 59)
      then Some (MakeTime h mi s 0) else None
  | _, _, _ => None
  end.

Definition isoDateString (s : jsstring) : option Z :=
  match s with
  | [y1; y2; y3; y4; 45; m1; m2; 45; d1; d2]%N =>
      match isoDay y1 y2 y3 y4 m1 m2 d1 d2 with
      | Some day => Some (MakeDate day 0)
      | None => None
      end
  | [y1; y2; y3; y4; 45; m1; m2; 45; d1; d2; 84; h1; h2; 58; mi1; mi2; 58;
     s1; s2]%N =>
      match isoDay y1 y2 y3 y4 m1 m2 d1 d2, isoTime h1 h2 mi1 mi2 s1 s2 with
      | Some day, Some time => Some (MakeDate day time)
      | _, _ => None
      end
  | _ => None
  end.

(** * Host JSON (ECMA-262, the JSON object)

    A Number is kept as the exact decimal [± mantissa × 10^exponent] that
    its literal denotes, without trailing zeros in the mantissa; the
    rounding of a literal to the nearest binary64 value is not modelled, so
    that a number here is the number of the host for the values that
    binary64 holds exactly, such as those of [safeInteger] further down. *)

Record number := mkNumber {
  negative : bool;
  mantissa : N;
  exponent : Z
}.

Unset Elimination Schemes.
Inductive value :=
| JNull
| JBool (b : bool)
| JNumber (n : number)
| JString (s : jsstring)
| JArray (elems : list value)
| JObject (props : list (jsstring * value)).
Set Elimination Schemes.

Module JSON.

Definition isDigit (c : N) : bool := ((48 <=? c) && (c <=? 57))%N.

Definition isNumChar (c : N) : bool :=
  (isDigit c || (c =? 45) || (c =? 43) || (c =? 46) || (c =? 101)
   || (c =? 69))%N.

Definition isJsonWs (c : N) : bool :=
  ((c =? 32) || (c =? 9) || (c =? 10) || (c =? 13))%N.

Fixpoint skipWs (s : jsstring) : jsstring :=
  match s with
  | c :: r => if isJsonWs c then skipWs r else s
  | [] => []
  end.

(** ** Numbers *)

Fixpoint stripZeros (fuel : nat) (m : N) (e : Z) : N * Z :=
  match fuel with
  | O => (m, e)
  | S f =>
      if (m =? 0)%N then (0%N, 0)
      else if (m mod 10 =? 0)%N then stripZeros f (m / 10)%N (e + 1)
      else (m, e)
  end.

Definition makeNumber (neg : bool) (m : N) (e : Z) : number :=
  let '(m', e') := stripZeros (S (N.to_nat (N.log2 m))) m e in
  mkNumber (neg && negb (m' =? 0)%N) m' e'.

Fixpoint spanDigits (s : jsstring) : jsstring * jsstring :=
  match s with
  | c :: r =>
      if isDigit c then let '(a, b) := spanDigits r in (c :: a, b)
      else ([], s)
  | [] => ([], [])
  end.

Fixpoint spanNum (s : jsstring) : jsstring * jsstring :=
  match s with
  | c :: r =>
      if isNumChar c then let '(a, b) := spanNum r in (c :: a, b)
      else ([], s)
  | [] => ([], [])
  end.

Definition digitsToN (ds : jsstring) : N :=
  fold_left (fun acc c => (10 * acc + (c - 48))%N) ds 0%N.

(** The exponent part of a number token, after the digits of the fraction:
    nothing, or [e] or [E], a sign and digits up to the end. *)
Definition exponentPart (s : jsstring) : option Z :=
  match s with
  | [] => Some 0
  | c :: r =>
      if ((c =? 101) || (c =? 69))%N then
        let '(neg, r) :=
          match r with
          | d :: r' =>
              if (d =? 45)%N then (true, r')
              else if (d =? 43)%N then (false, r')
              else (false, r)
          | [] => (false, r)
          end in
        match spanDigits r with
        | ((_ :: _) as ds, []) =>
            let e := Z.of_N (digitsToN ds) in
            Some (if neg then - e else e)
        | _ => None
        end
      else None
  end.

(** The digits of a number token after its sign: an integer part without a
    leading zero, then a fraction and an exponent that may be missing. *)
Definition unsignedNumber (neg : bool) (r : jsstring) : option number :=
  match spanDigits r with
  | ([], _) => None
  | ((d :: ds) as ip, r1) =>
      if (d =? 48)%N && negb (isEmpty ds) then None
      else
        match r1 with
        | c :: r2 =>
            if (c =? 46)%N then
              match spanDigits r2 with
              | ([], _) => None
              | (fp, r3) =>
                  match exponentPart r3 with
                  | Some e =>
                      Some (makeNumber neg (digitsToN (ip ++ fp))
                              (e - Z.of_nat (List.length fp)))
                  | None => None
                  end
              end
            else
              match exponentPart r1 with
              | Some e => Some (makeNumber neg (digitsToN ip) e)
              | None => None
              end
        | [] => Some (makeNumber neg (digitsToN ip) 0)
        end
  end.

(** The value of a token of the JSON number grammar; [None] for any other
    text. *)
Definition numberOfToken (tok : jsstring) : option number :=
  match tok with
  | c :: r => if (c =? 45)%N then unsignedNumber true r
              else unsignedNumber false tok
  | [] => None
  end.

(** Number::toString, radix 10, on a number that is not zero: the digits
    [ds] of the mantissa placed around the decimal point, which stands after
    [n] digits. *)
Definition placeDigits (ds : jsstring) (n : Z) : jsstring :=
  let k := Z.of_nat (List.length ds) in
  if (k <=? n) && (n <=? 21) then
    ds ++ repeat 48%N (Z.to_nat (n - k))
  else if (0 <? n) && (n <=? 21) then
    firstn (Z.to_nat n) ds ++ str "." ++ skipn (Z.to_nat n) ds
  else if (-6 <? n) && (n <=? 0) then
    str "0." ++ repeat 48%N (Z.to_nat (- n)) ++ ds
  else
    let e := n - 1 in
    let es := (if e <? 0 then str "-" else str "+") ++ digitsOfN (Z.abs_N e) in
    match ds with
    | [] => []
    | [d] => d :: str "e" ++ es
    | d :: r => d :: str "." ++ r ++ str "e" ++ es
    end.

Definition NumberToString (x : number) : jsstring :=
  if (mantissa x =? 0)%N then str "0"
  else
    let ds := digitsOfN (mantissa x) in
    (if negative x then str "-" else [])
    ++ placeDigits ds (Z.of_nat (List.length ds) + exponent x).

(** Where a number token ends: at the end of the text or before a code
    unit that no number contains. *)
Definition delimited (r : jsstring) : bool :=
  match r with
  | [] => true
  | c :: _ => negb (isNumChar c)
  end.

Definition endsDigits (r : jsstring) : bool :=
  match r with
  | [] => true
  | c :: _ => negb (isDigit c)
  end.

(** ** Strings *)

Definition hexVal (c : N) : option N :=
  (if (48 <=? c) && (c <=? 57) then Some (c - 48)
   else if (97 <=? c) && (c <=? 102) then Some (c - 87)
   else if (65 <=? c) && (c <=? 70) then Some (c - 55)
   else None)%N.

Definition hexDigit (n : N) : N := (if n <? 10 then 48 + n else 87 + n)%N.

Definition hex4 (c : N) : jsstring :=
  [hexDigit (c / 4096 mod 16); hexDigit (c / 256 mod 16);
   hexDigit (c / 16 mod 16); hexDigit (c mod 16)]%N.

Definition hex4Val (a b c d : N) : option N :=
  match hexVal a, hexVal b, hexVal c, hexVal d with
  | Some x, Some y, Some z, Some w =>
      Some (((x * 16 + y) * 16 + z) * 16 + w)%N
  | _, _, _, _ => None
  end.

(** The code unit of a one-letter escape. *)
Definition unescape (e : N) : option N :=
  (if e =? 34 then Some 34
   else if e =? 92 then Some 92
   else if e =? 47 then Some 47
   else if e =? 98 then Some 8
   else if e =? 102 then Some 12
   else if e =? 110 then Some 10
   else if e =? 114 then Some 13
   else if e =? 116 then Some 9
   else None)%N.

Definition consChar (c : N) (p : option (jsstring * jsstring))
  : option (jsstring * jsstring) :=
  match p with
  | Some (t, rest) => Some (c :: t, rest)
  | None => None
  end.

(** The characters of a string token after its opening quote, up to the
    closing quote, and the text that follows. *)
Fixpoint parseChars (s : jsstring) : option (jsstring * jsstring) :=
  match s with
  | [] => None
  | c :: r =>
      if (c =? 34)%N then Some ([], r)
      else if (c =? 92)%N then
        match r with
        | [] => None
        | e :: r1 =>
            if (e =? 117)%N then
              match r1 with
              | a :: b :: c' :: d :: r2 =>
                  match hex4Val a b c' d, parseChars r2 with
                  | Some u, Some (t, rest) => Some (u :: t, rest)
                  | _, _ => None
                  end
              | _ => None
              end
            else
              match unescape e, parseChars r1 with
              | Some u, Some (t, rest) => Some (u :: t, rest)
              | _, _ => None
              end
        end
      else if (c <? 32)%N then None
      else
        match parseChars r with
        | Some (t, rest) => Some (c :: t, rest)
        | None => None
        end
  end.

Definition isHighSurrogate (c : N) : bool := ((55296 <=? c) && (c <=? 56319))%N.
Definition isLowSurrogate (c : N) : bool := ((56320 <=? c) && (c <=? 57343))%N.

Definition escapeU (c : N) : jsstring := [92; 117]%N ++ hex4 c.

(** QuoteJSONString on one code unit that is not half of a pair. *)
Definition quoteUnit (c : N) : jsstring :=
  (if c =? 8 then [92; 98]
   else if c =? 9 then [92; 116]
   else if c =? 10 then [92; 110]
   else if c =? 12 then [92; 102]
   else if c =? 13 then [92; 114]
   else if c =? 34 then [92; 34]
   else if c =? 92 then [92; 92]
   else if c <? 32 then escapeU c
   else if isHighSurrogate c || isLowSurrogate c then escapeU c
   else [c])%N.

Fixpoint quoteChars (s : jsstring) : jsstring :=
  match s with
  | [] => []
  | c :: r =>
      if isHighSurrogate c then
        match r with
        | d :: r' =>
            if isLowSurrogate d then c :: d :: quoteChars r'
            else quoteUnit c ++ quoteChars r
        | [] => quoteUnit c
        end
      else quoteUnit c ++ quoteChars r
  end.

Definition quote (s : jsstring) : jsstring :=
  34%N :: quoteChars s ++ [34%N].

(** ** Objects: own properties in the order of OrdinaryOwnPropertyKeys,
    array indices in ascending order, then the other keys as created. *)

Definition arrayIndex (k : jsstring) : option N :=
  match k with
  | [] => None
  | c :: r =>
      if forallb isDigit k && negb ((c =? 48)%N && negb (isEmpty r))
         && (List.length k <=? 10)%nat && (digitsToN k <? 4294967295)%N
      then Some (digitsToN k) else None
  end.

Definition hasProp (k : jsstring) (ps : list (jsstring * value)) : bool :=
  existsb (fun p => eqb_str k (fst p)) ps.

Fixpoint getProp (k : jsstring) (ps : list (jsstring * value)) : option value :=
  match ps with
  | [] => None
  | (k', v) :: r => if eqb_str k k' then Some v else getProp k r
  end.

Fixpoint replaceProp (k : jsstring) (v : value) (ps : list (jsstring * value))
  : list (jsstring * value) :=
  match ps with
  | [] => []
  | (k', v') :: r =>
      if eqb_str k k' then (k', v) :: r else (k', v') :: replaceProp k v r
  end.

Fixpoint insertIndexed (i : N) (k : jsstring) (v : value)
  (ps : list (jsstring * value)) : list (jsstring * value) :=
  match ps with
  | [] => [(k, v)]
  | (k', v') :: r =>
      match arrayIndex k' with
      | Some j =>
          if (j <? i)%N then (k', v') :: insertIndexed i k v r
          else (k, v) :: ps
      | None => (k, v) :: ps
      end
  end.

(** CreateDataProperty on an ordinary object. *)
Definition defineProp (k : jsstring) (v : value) (ps : list (jsstring * value))
  : list (jsstring * value) :=
  if hasProp k ps then replaceProp k v ps
  else
    match arrayIndex k with
    | Some i => insertIndexed i k v ps
    | None => ps ++ [(k, v)]
    end.

(** ** JSON.parse *)

Definition literal (name : jsstring) (v : value) (s : jsstring)
  : option (value * jsstring) :=
  if eqb_str (firstn (List.length name) s) name
  then Some (v, skipn (List.length name) s) else None.

Fixpoint parseJsonValue (fuel : nat) (s : jsstring)
  : option (value * jsstring) :=
  match fuel with
  | O => None
  | S f =>
      match skipWs s with
      | [] => None
      | c :: r =>
          if (c =? 123)%N then
            match skipWs r with
            | [] => None
            | c' :: r' =>
                if (c' =? 125)%N then Some (JObject [], r')
                else parseMembers f (c' :: r') []
            end
          else if (c =? 91)%N then
            match skipWs r with
            | [] => None
            | c' :: r' =>
                if (c' =? 93)%N then Some (JArray [], r')
                else parseElements f (c' :: r') []
            end
          else if (c =? 34)%N then
            match parseChars r with
            | Some (t, rest) => Some (JString t, rest)
            | None => None
            end
          else if (c =? 110)%N then literal (str "null") JNull (c :: r)
          else if (c =? 116)%N then literal (str "true") (JBool true) (c :: r)
          else if (c =? 102)%N then literal (str "false") (JBool false) (c :: r)
          else
            let '(tok, rest) := spanNum (c :: r) in
            match numberOfToken tok with
            | Some n => Some (JNumber n, rest)
            | None => None
            end
      end
  end
with parseElements (fuel : nat) (s : jsstring) (acc : list value)
  : option (value * jsstring) :=
  match fuel with
  | O => None
  | S f =>
      match parseJsonValue f s with
      | Some (v, r) =>
          match skipWs r with
          | [] => None
          | c :: r' =>
              if (c =? 44)%N then parseElements f r' (v :: acc)
              else if (c =? 93)%N then Some (JArray (rev (v :: acc)), r')
              else None
          end
      | None => None
      end
  end
with parseMembers (fuel : nat) (s : jsstring) (acc : list (jsstring * value))
  : option (value * jsstring) :=
  match fuel with
  | O => None
  | S f =>
      match skipWs s with
      | [] => None
      | q :: r =>
          if (q =? 34)%N then
            match parseChars r with
            | Some (k, r1) =>
                match skipWs r1 with
                | [] => None
                | c1 :: r2 =>
                    if (c1 =? 58)%N then
                      match parseJsonValue f r2 with
                      | Some (v, r3) =>
                          match skipWs r3 with
                          | [] => None
                          | c3 :: r4 =>
                              if (c3 =? 44)%N
                              then parseMembers f r4 (defineProp k v acc)
                              else if (c3 =? 125)%N
                              then Some (JObject (defineProp k v acc), r4)
                              else None
                          end
                      | None => None
                      end
                    else None
                end
            | None => None
            end
          else None
      end
  end.

(** [JSON.parse(text)]; [None] when it throws a SyntaxError. *)
Definition parse (text : jsstring) : option value :=
  match parseJsonValue (S (List.length text)) text with
  | Some (v, rest) => if isEmpty (skipWs rest) then Some v else None
  | None => None
  end.

(** ** JSON.stringify, without indentation *)

Fixpoint joinComma (l : list jsstring) : jsstring :=
  match l with
  | [] => []
  | [x] => x
  | x :: r => x ++ 44%N :: joinComma r
  end.

Fixpoint stringify (v : value) : jsstring :=
  match v with
  | JNull => str "null"
  | JBool true => str "true"
  | JBool false => str "false"
  | JNumber n => NumberToString n
  | JString s => quote s
  | JArray l => 91%N :: joinComma (map stringify l) ++ [93%N]
  | JObject ps =>
      123%N
      :: joinComma
           (map (fun p => quote (fst p) ++ 58%N :: stringify (snd p)) ps)
      ++ [125%N]
  end.

(** The fuel [parseJsonValue] needs to read back the text of a value. *)
Fixpoint need (v : value) : nat :=
  match v with
  | JArray l => S (fold_right (fun x n => S (Nat.max (need x) n)) O l)
  | JObject ps =>
      S (fold_right (fun p n => S (Nat.max (need (snd p)) n)) O ps)
  | _ => 1
  end.

Definition isObject (v : value) : bool :=
  match v with
  | JObject _ => true
  | _ => false
  end.

(** The first code unit of the text of a value. *)
Definition startsValue (c : N) : bool :=
  (isDigit c || (c =? 45) || (c =? 34) || (c =? 91) || (c =? 123)
   || (c =? 110) || (c =? 116) || (c =? 102))%N.

Definition needElems (l : list value) : nat :=
  fold_right (fun x n => S (Nat.max (need x) n)) O l.

Definition needMembers (ps : list (jsstring * value)) : nat :=
  fold_right (fun p n => S (Nat.max (need (snd p)) n)) O ps.

Definition memberText (p : jsstring * value) : jsstring :=
  quote (fst p) ++ 58%N :: stringify (snd p).

(** A value is read back from its text, with enough fuel, before any text
    that cannot continue a number. *)
Definition readsBack (v : value) : Prop :=
  forall fuel rest,
    (need v <= fuel)%nat -> delimited rest = true ->
    exists v',
      parseJsonValue fuel (stringify v ++ rest) = Some (v', rest)
      /\ isObject v' = isObject v.

End JSON.

(** * kvjson.js: the key-value editor *)

Definition parseValue (text : jsstring) : value :=
  if isEmpty text then JString []
  else
    match JSON.parse text with
    | Some v => v
    | None => JString text
    end.

Definition toDisplay (val : value) : jsstring :=
  match val with
  | JString s => s
  | _ => JSON.stringify val
  end.

(** One row of the table: the texts of its two inputs. *)
Record Row := mkRow {
  keyInput : jsstring;
  valInput : jsstring
}.

(** The text an input gets from [value="..."] in the markup that [buildRow]
    writes: the attribute ends at the first double quote, and a text input
    drops line breaks from its value.  Character references are left as
    they are written, and the markup after an early quote is not followed:
    this is what the page does for the texts that [plainText] and
    [plainMarkup] describe further down. *)
Fixpoint attrText (s : jsstring) : jsstring :=
  match s with
  | [] => []
  | c :: r => if (c =? 34)%N then [] else c :: attrText r
  end.

Definition inputValue (s : jsstring) : jsstring :=
  filter (fun c => negb ((c =? 10) || (c =? 13))%N) (attrText s).

Definition buildRow (key : jsstring) (val : value) : Row :=
  mkRow (inputValue key) (inputValue (toDisplay val)).

(** One editor: the hidden input, the rows of the table, and whether [init]
    has attached the listeners.  A page can hold several editors; each has
    its own hidden input and rows, and the submit listener of their form
    resyncs them one after the other. *)
Record Widget := mkWidget {
  hidden : jsstring;
  rows : list Row;
  listening : bool
}.

(** How a call ends: it returns, or an uncaught TypeError leaves the page
    in the state reached so far. *)
Inductive Outcome :=
| Done (w : Widget)
| TypeError (w : Widget).

Definition stateOf (o : Outcome) : Widget :=
  match o with Done w | TypeError w => w end.

(** The object [data] of [syncHidden]: a plain object, with its own
    properties and its prototype, which starts as [Object.prototype] and
    which an assignment to [__proto__] can replace. *)
Inductive Prototype :=
| ObjectPrototype
| NullPrototype
| ValuePrototype (v : value).

Record DataObject := mkData {
  own : list (jsstring * value);
  proto : Prototype
}.

(** Whether a property is found on the prototype chain before
    [Object.prototype]. *)
Definition inheritedBefore (k : jsstring) (p : Prototype) : bool :=
  match p with
  | ValuePrototype (JObject ps) => JSON.hasProp k ps
  | ValuePrototype (JArray l) =>
      eqb_str k (str "length")
      || match JSON.arrayIndex k with
         | Some i => (i <? N.of_nat (List.length l))%N
         | None => false
         end
  | _ => false
  end.

(** [data.hasOwnProperty(key)]: the method is looked up on [data] and its
    chain; every value a key can hold comes from [parseValue] and is not a
    function, so the call throws unless the lookup reaches
    [Object.prototype.hasOwnProperty].  [None] is the TypeError. *)
Definition hasOwnProperty (data : DataObject) (key : jsstring) : option bool :=
  if JSON.hasProp (str "hasOwnProperty") (own data)
     || inheritedBefore (str "hasOwnProperty") (proto data)
  then None
  else
    match proto data with
    | NullPrototype => None
    | _ => Some (JSON.hasProp key (own data))
    end.

(** [data[key] = val] (OrdinarySet).  Every inherited data property is
    writable, so the assignment creates or updates an own property, except
    when it reaches the accessor [Object.prototype.__proto__], whose setter
    replaces the prototype by an object or [null] and ignores other
    values. *)
Definition setProperty (data : DataObject) (key : jsstring) (val : value)
  : DataObject :=
  if JSON.hasProp key (own data) || inheritedBefore key (proto data)
  then mkData (JSON.defineProp key val (own data)) (proto data)
  else if eqb_str key (str "__proto__") then
    match proto data with
    | NullPrototype => mkData (JSON.defineProp key val (own data)) (proto data)
    | _ =>
        match val with
        | JObject _ | JArray _ => mkData (own data) (ValuePrototype val)
        | JNull => mkData (own data) NullPrototype
        | _ => data
        end
    end
  else mkData (JSON.defineProp key val (own data)) (proto data).

(** The callback of [rows.forEach] in [syncHidden], over the rows left;
    [None] when [data.hasOwnProperty] throws. *)
Fixpoint forEachRow (rs : list Row) (data : DataObject) : option DataObject :=
  match rs with
  | [] => Some data
  | r :: rest =>
      let key := trim (keyInput r) in
      let valRaw := valInput r in
      if isEmpty key then forEachRow rest data
      else
        match hasOwnProperty data key with
        | None => None
        | Some true => forEachRow rest data
        | Some false =>
            forEachRow rest (setProperty data key (parseValue valRaw))
        end
  end.

Definition set_hidden (v : jsstring) (w : Widget) : Widget :=
  mkWidget v (rows w) (listening w).

Definition set_rows (v : list Row) (w : Widget) : Widget :=
  mkWidget (hidden w) v (listening w).

Definition syncHidden (w : Widget) : Outcome :=
  match forEachRow (rows w) (mkData [] ObjectPrototype) with
  | Some data => Done (set_hidden (JSON.stringify (JObject (own data))) w)
  | None => TypeError w
  end.

(** [Object.keys(data)] with [data[k]] for each key; [None] when [data] is
    [null] and [Object.keys] throws. *)
Definition unitStrings (s : jsstring) : list value :=
  map (fun c => JString [c]) s.

Definition indexed (l : list value) : list (jsstring * value) :=
  combine (map (fun i => digitsOfN (N.of_nat i)) (seq 0 (List.length l))) l.

Definition entries (data : value) : option (list (jsstring * value)) :=
  match data with
  | JObject ps => Some ps
  | JArray l => Some (indexed l)
  | JString s => Some (indexed (unitStrings s))
  | JNumber _ | JBool _ => Some []
  | JNull => None
  end.

Definition loadInitial (w : Widget) : Outcome :=
  let data :=
    match JSON.parse (if isEmpty (hidden w) then str "{}" else hidden w) with
    | Some v => v
    | None => JObject []
    end in
  let w := set_rows [] w in
  match entries data with
  | Some es => Done (set_rows (map (fun e => buildRow (fst e) (snd e)) es) w)
  | None => TypeError w
  end.

Definition addRow (w : Widget) (key : jsstring) (val : value) : Outcome :=
  syncHidden (set_rows (rows w ++ [buildRow key val]) w).

Definition init (w : Widget) : Outcome :=
  match loadInitial w with
  | TypeError w => TypeError w
  | Done w =>
      let w := mkWidget (hidden w) (rows w) true in
      match rows w with
      | [] => addRow w [] (JString [])
      | _ :: _ => Done w
      end
  end.

(** What happens to an editor: typing in the key or the value input of row
    [i] (the text the input then holds), a click on the remove button of row
    [i], a click on the add button, and the call of [syncHidden] on the
    editor by the submit listener of a form.  That listener is bound once for
    each form, by the first [init] that finds the form, and goes over every
    element of class [kvjson-widget] of the document, which the editors are
    taken to be, whether or not [init] has run for them; the pass ends at
    the first editor on which [syncHidden] throws. *)
Inductive Field := KeyField | ValField.

Inductive KvEvent :=
| InputEvent (i : nat) (f : Field) (text : jsstring)
| RemoveClick (i : nat)
| AddClick
| FormSubmit.

Fixpoint editRow (i : nat) (f : Field) (text : jsstring) (rs : list Row)
  : list Row :=
  match rs, i with
  | [], _ => []
  | r :: rest, O =>
      match f with
      | KeyField => mkRow text (valInput r) :: rest
      | ValField => mkRow (keyInput r) text :: rest
      end
  | r :: rest, S j => r :: editRow j f text rest
  end.

Fixpoint removeRow (i : nat) (rs : list Row) : list Row :=
  match rs, i with
  | [], _ => []
  | _ :: rest, O => rest
  | r :: rest, S j => r :: removeRow j rest
  end.

(** [onChange], [onClick] and the submit listener.  The text of an input
    changes whether or not a listener runs; the listeners of [input] and
    [click] are those that [init] attaches to the editor, the submit listener
    is that of the form. *)
Definition handle (w : Widget) (e : KvEvent) : Outcome :=
  match e with
  | InputEvent i f text =>
      let w := set_rows (editRow i f text (rows w)) w in
      if listening w then syncHidden w else Done w
  | RemoveClick i =>
      if listening w && (i <? List.length (rows w))%nat
      then syncHidden (set_rows (removeRow i (rows w)) w)
      else Done w
  | AddClick => if listening w then addRow w [] (JString []) else Done w
  | FormSubmit => syncHidden w
  end.

(** The page after a sequence of events: an uncaught error ends one handler,
    not the page. *)
Definition run (w : Widget) (es : list KvEvent) : Widget :=
  fold_left (fun w e => stateOf (handle w e)) es w.

(** The hidden input holds the text of a JSON object. *)
Definition holdsObject (w : Widget) : Prop :=
  exists ps, JSON.parse (hidden w) = Some (JObject ps).

(** The initial texts of the hidden input after which [init] leaves the
    text of an object: all but the texts of [null], of an array with
    elements and of a string with characters. *)
Definition startsWell (h : jsstring) : Prop :=
  match JSON.parse (if isEmpty h then str "{}" else h) with
  | Some JNull | Some (JArray (_ :: _)) | Some (JString (_ :: _)) => False
  | _ => True
  end.

(** The document of resync as the specification words it: over the rows in
    order, trim the key, skip an empty key, skip a key already accepted,
    decode the value. *)
Definition resyncStep (doc : list (jsstring * value)) (r : Row)
  : list (jsstring * value) :=
  let key := trim (keyInput r) in
  if isEmpty key then doc
  else if JSON.hasProp key doc then doc
  else doc ++ [(key, parseValue (valInput r))].

Definition resyncSpec (rs : list Row) : list (jsstring * value) :=
  fold_left resyncStep rs [].

(** The keys on which a plain object serves as a dictionary: all but the
    two names that [syncHidden] itself looks up or assigns through
    [Object.prototype]. *)
Definition plainKey (r : Row) : bool :=
  negb (eqb_str (trim (keyInput r)) (str "hasOwnProperty"))
  && negb (eqb_str (trim (keyInput r)) (str "__proto__")).

(** A double quote, and a text between double quotes. *)
Definition dq : jsstring := [34%N].
Definition quoted (s : string) : jsstring := dq ++ str s ++ dq.

(** The document [{"a":1,"b":"x"}] of the round trip. *)
Definition docAB : value :=
  JObject [(str "a", JNumber (mkNumber false 1 0));
           (str "b", JString (str "x"))].

(** A page for the examples: the two visible inputs as given, the hidden
    fields holding an earlier range, the panel open. *)
Definition examplePicker (fromText toText : jsstring) : Picker :=
  mkPicker None None None fromText toText
    (str "2024-05-01 00:00:00") (str "2024-05-02 00:00:00")
    (str "2024-05-01 00:00:00" ++ arrow ++ str "2024-05-02 00:00:00")
    false true false None None [] [].

(** * Notions for the statements about the handlers *)

(** What [trimStart] leaves does not start with white space. *)
Definition startsClean (s : jsstring) : bool :=
  match s with
  | [] => true
  | c :: _ => negb (isWhiteSpace c)
  end.

(** The key as [computeQuickRange] compares it. *)
Definition normalKey (key : option jsstring) : jsstring :=
  toLowerCase (trim (match key with Some k => k | None => [] end)).

(** [P] on the [n] integers from [z] on. *)
Fixpoint allFrom (n : nat) (z : Z) (P : Z -> bool) : bool :=
  match n with
  | O => true
  | S n' => P z && allFrom n' (z + 1) P
  end.

(** [pad2 n] is two digits that read as [n]; [intToString y] is four digits
    that read as [y]. *)
Definition padsTwo (n : Z) : bool :=
  match pad2 n with
  | [a; b] => match twoDigits a b with Some m => m =? n | None => false end
  | _ => false
  end.

Definition printsFour (y : Z) : bool :=
  match intToString y with
  | [a; b; c; d] =>
      match fourDigits a b c d with Some m => m =? y | None => false end
  | _ => false
  end.

(** The labels of the [switch] of [computeQuickRange]. *)
Definition quickRangeLabels : list jsstring :=
  [str "today"; str "yesterday"; str "this_week"; str "this week";
   str "this_month"; str "this month"; str "last_12_hours";
   str "last_24_hours"; str "last_2_days"; str "last_7_days"].

(** Whether an event is a click on the apply button. *)
Definition isApplyClick (e : Event) : bool :=
  match e with ApplyClick => true | _ => false end.

(** The host reads the date-time form that the widget writes,
    [YYYY-MM-DDTHH:MM:SS], as ECMA-262 has it: a local time. *)
Definition readsDateTimes (newDateString : jsstring -> option Z) : Prop :=
  forall x v,
    List.length x = 19%nat -> isoDateString x = Some v ->
    newDateString x = Some v.

(** What [syncHidden] reads of a row: its trimmed key and its value text;
    and whether the key is there. *)
Definition entryOf (r : Row) : jsstring * jsstring :=
  (trim (keyInput r), valInput r).

Definition filled (r : Row) : bool := negb (isEmpty (trim (keyInput r))).

(** A number that binary64 holds exactly and that [Number::toString] prints
    digit by digit: zero, or an integer below [2^53] in magnitude, here with
    the mantissa free of trailing zeros as [JSON.makeNumber] leaves it. *)
Definition safeInteger (n : number) : bool :=
  if (mantissa n =? 0)%N then negb (negative n) && (exponent n =? 0)
  else
    negb (mantissa n mod 10 =? 0)%N && (0 <=? exponent n)
    && (mantissa n * 10 ^ Z.to_N (exponent n) <? 2 ^ 53)%N.

(** A text that a text input holds exactly as [buildRow] writes it into the
    attribute: no double quote, which ends the attribute, no line break,
    which the input drops, no ampersand, which can start a character
    reference, and no NUL, which the parser replaces. *)
Definition plainText (s : jsstring) : bool :=
  forallb (fun c => negb ((c =? 0) || (c =? 10) || (c =? 13) || (c =? 34)
                          || (c =? 38))%N) s.

(** A text that may hold a double quote: what follows the quote is read as
    further markup of the input, which stays without effect on the input and
    on the table when the text has no [<], [=] or [>], besides no ampersand
    and no NUL. *)
Definition plainMarkup (s : jsstring) : bool :=
  forallb (fun c => negb ((c =? 0) || (c =? 38) || (c =? 60) || (c =? 61)
                          || (c =? 62))%N) s.

(** A key that a row shows and resync reads back as it is: not empty, no
    white space around it, a plain text, neither of the two names of
    [Object.prototype] that [syncHidden] meets, and no array index, which an
    object lists before its other keys. *)
Definition cleanKey (k : jsstring) : bool :=
  negb (isEmpty k) && eqb_str (trim k) k && plainText k
  && negb (eqb_str k (str "hasOwnProperty"))
  && negb (eqb_str k (str "__proto__"))
  && match JSON.arrayIndex k with Some _ => false | None => true end.

(** The value that resync decodes from the row that [buildRow] makes for a
    value. *)
Definition reloaded (val : value) : value :=
  parseValue (valInput (buildRow [] val)).

(** The numbers of a value are safe integers, so that the exact decimals
    kept here are the values of the host. *)
Fixpoint exactNumbers (v : value) : bool :=
  match v with
  | JNumber n => safeInteger n
  | JArray l => forallb exactNumbers l
  | JObject ps => forallb (fun p => exactNumbers (snd p)) ps
  | _ => true
  end.

(** A value whose row is followed exactly: its numbers and those of the
    value read back are safe integers, and the text shown is a plain text
    or, when it can hold a double quote, plain markup. *)
Definition plainValue (v : value) : bool :=
  exactNumbers v && exactNumbers (reloaded v)
  && match v with
     | JString s => plainText s || plainMarkup s
     | _ => plainMarkup (JSON.stringify v)
     end.

(** * Facts about the host dates *)

Lemma DaysInYear_cases y : DaysInYear y = 365 \/ DaysInYear y = 366.
Proof. unfold DaysInYear. repeat destruct (negb _); auto. Qed.

Lemma DayFromYear_step y : DayFromYear (y + 1) = DayFromYear y + DaysInYear y.
Proof.
  unfold DayFromYear, DaysInYear.
  destruct (Z.eqb_spec (y mod 4) 0); destruct (Z.eqb_spec (y mod 100) 0);
    destruct (Z.eqb_spec (y mod 400) 0); cbn [negb];
    Z.div_mod_to_equations; lia.
Qed.

Lemma DayFromYear_mono a b : a <= b -> DayFromYear a <= DayFromYear b.
Proof.
  intros H. unfold DayFromYear. Z.div_mod_to_equations. lia.
Qed.

Lemma YearFromDay_spec d :
  DayFromYear (YearFromDay d) <= d < DayFromYear (YearFromDay d + 1).
Proof.
  unfold YearFromDay.
  set (y0 := 1970 + 400 * d / 146097).
  assert (H1 : DayFromYear (y0 - 1) <= d).
  { unfold y0, DayFromYear. Z.div_mod_to_equations. lia. }
  assert (H2 : d < DayFromYear (y0 + 2)).
  { unfold y0, DayFromYear. Z.div_mod_to_equations. lia. }
  destruct (Z.ltb_spec d (DayFromYear y0)).
  - replace (y0 - 1 + 1) with y0 by lia. lia.
  - destruct (Z.leb_spec (DayFromYear (y0 + 1)) d).
    + replace (y0 + 1 + 1) with (y0 + 2) by lia. lia.
    + lia.
Qed.

Lemma YearFromDay_unique d y :
  DayFromYear y <= d < DayFromYear (y + 1) -> YearFromDay d = y.
Proof.
  intros H. pose proof (YearFromDay_spec d) as S.
  destruct (Z.lt_trichotomy (YearFromDay d) y) as [L | [E | G]]; [ | exact E | ].
  - pose proof (DayFromYear_mono (YearFromDay d + 1) y ltac:(lia)). lia.
  - pose proof (DayFromYear_mono (y + 1) (YearFromDay d) ltac:(lia)). lia.
Qed.

Lemma InLeapYear_cases y : InLeapYear y = 0 \/ InLeapYear y = 1.
Proof. unfold InLeapYear. destruct (DaysInYear_cases y); lia. Qed.

Lemma DayWithinYear_range d :
  0 <= DayWithinYear d < 365 + InLeapYear (YearFromDay d).
Proof.
  unfold DayWithinYear, InLeapYear. pose proof (YearFromDay_spec d) as S.
  rewrite DayFromYear_step in S. lia.
Qed.

Lemma MonthFromDay_range d : 0 <= MonthFromDay d <= 11.
Proof.
  unfold MonthFromDay. repeat destruct (_ <? _); lia.
Qed.

(** The twelve months, one goal each. *)
Ltac each_month m :=
  let C := fresh "C" in
  assert (C : m = 0 \/ m = 1 \/ m = 2 \/ m = 3 \/ m = 4 \/ m = 5 \/ m = 6
              \/ m = 7 \/ m = 8 \/ m = 9 \/ m = 10 \/ m = 11) by lia;
  repeat (destruct C as [C | C]); subst m.

Lemma DaysInMonth_pos leap m :
  0 <= m <= 11 -> 0 <= leap <= 1 -> 28 <= DaysInMonth leap m <= 31.
Proof. intros Hm Hl. each_month m; cbn [DaysInMonth]; lia. Qed.

Lemma fields_MakeDay y m date :
  0 <= m <= 11 -> 1 <= date <= DaysInMonth (InLeapYear y) m ->
  YearFromDay (MakeDay y m date) = y
  /\ MonthFromDay (MakeDay y m date) = m
  /\ DateFromDay (MakeDay y m date) = date.
Proof.
  intros Hm Hd. unfold MakeDay.
  rewrite Z.div_small, Z.mod_small by lia. rewrite Z.add_0_r.
  pose proof (InLeapYear_cases y) as L.
  set (leap := InLeapYear y) in *.
  assert (W : 0 <= monthStart leap m + date - 1 < 365 + leap).
  { clear - Hm Hd L. each_month m; cbn [monthStart DaysInMonth] in Hd |- *; lia. }
  assert (Y : YearFromDay (DayFromYear y + monthStart leap m + date - 1) = y).
  { apply YearFromDay_unique. rewrite DayFromYear_step.
    unfold InLeapYear in leap. lia. }
  split; [exact Y|].
  unfold DateFromDay, MonthFromDay, DayWithinYear. rewrite Y. fold leap.
  replace (DayFromYear y + monthStart leap m + date - 1 - DayFromYear y)
    with (monthStart leap m + date - 1) by lia.
  clear - Hm Hd L.
  each_month m; cbn [monthStart DaysInMonth] in Hd |- *;
    repeat match goal with
    | |- context [?a <? ?b] => destruct (Z.ltb_spec a b); try lia
    end; cbn [monthStart]; split; lia.
Qed.

Lemma MakeDay_of_day d k :
  MakeDay (YearFromDay d) (MonthFromDay d) (DateFromDay d + k) = d + k.
Proof.
  unfold MakeDay. pose proof (MonthFromDay_range d) as R.
  rewrite Z.div_small, Z.mod_small by lia.
  rewrite Z.add_0_r. unfold DateFromDay, DayWithinYear. lia.
Qed.

Lemma Day_MakeDate d t : 0 <= t < msPerDay -> Day (MakeDate d t) = d.
Proof.
  intros H. unfold Day, MakeDate, msPerDay in *.
  Z.div_mod_to_equations. lia.
Qed.

Lemma TimeWithinDay_MakeDate d t :
  0 <= t < msPerDay -> TimeWithinDay (MakeDate d t) = t.
Proof.
  intros H. unfold TimeWithinDay, MakeDate, msPerDay in *.
  Z.div_mod_to_equations. lia.
Qed.

Lemma TimeWithinDay_range t : 0 <= TimeWithinDay t < msPerDay.
Proof. unfold TimeWithinDay, msPerDay. apply Z.mod_pos_bound. lia. Qed.

Lemma setDate_shift t k :
  setDate t (getDate t + k) = t + k * msPerDay.
Proof.
  unfold setDate, getFullYear, getMonth, getDate. rewrite MakeDay_of_day.
  unfold MakeDate, Day, TimeWithinDay, msPerDay. Z.div_mod_to_equations. lia.
Qed.

Lemma setHours_start t : setHours t 0 0 0 0 = Day t * msPerDay.
Proof. unfold setHours, MakeDate, MakeTime. lia. Qed.

Lemma setHours_end t : setHours t 23 59 59 999 = Day t * msPerDay + 86399999.
Proof.
  unfold setHours, MakeDate, MakeTime, msPerHour, msPerMinute, msPerSecond.
  lia.
Qed.

Lemma Day_bounds t : Day t * msPerDay <= t <= Day t * msPerDay + 86399999.
Proof. unfold Day, msPerDay. Z.div_mod_to_equations. lia. Qed.

Lemma Day_shift t k : Day (t + k * msPerDay) = Day t + k.
Proof. unfold Day, msPerDay. rewrite Z.div_add by lia. reflexivity. Qed.

Lemma MakeDay_day0_next y m :
  0 <= m <= 11 ->
  MakeDay y (m + 1) 0 = MakeDay y m (DaysInMonth (InLeapYear y) m).
Proof.
  intros Hm. unfold MakeDay.
  rewrite (Z.div_small m), (Z.mod_small m) by lia.
  destruct (Z.eq_dec m 11) as [E | N].
  - subst m. change ((11 + 1) / 12) with 1. change ((11 + 1) mod 12) with 0.
    rewrite DayFromYear_step, !Z.add_0_r. unfold InLeapYear.
    cbn [monthStart DaysInMonth]. lia.
  - rewrite (Z.div_small (m + 1)), (Z.mod_small (m + 1)) by lia.
    rewrite !Z.add_0_r.
    each_month m; try lia;
      match goal with
      | |- context [monthStart _ (?a + 1)] =>
          let v := eval compute in (a + 1) in change (a + 1) with v
      end; cbn [monthStart DaysInMonth]; lia.
Qed.

Lemma MakeDay_month12 y d : MakeDay y 12 d = MakeDay (y + 1) 0 d.
Proof.
  unfold MakeDay. change (12 / 12) with 1. change (12 mod 12) with 0.
  change (0 / 12) with 0. change (0 mod 12) with 0.
  replace (y + 1 + 0) with (y + 1) by lia. reflexivity.
Qed.

Lemma WeekDay_range d : 0 <= WeekDay d <= 6.
Proof. unfold WeekDay. pose proof (Z.mod_pos_bound (d + 4) 7). lia. Qed.

(** ** Quick ranges *)

Ltac eval_keys :=
  repeat match goal with
  | |- context [eqb_str ?a ?b] =>
      let v := eval vm_compute in (eqb_str a b) in
      change (eqb_str a b) with v
  end; cbn [orb].

Lemma setDate_back t k :
  setDate t (getDate t - k) = t - k * msPerDay.
Proof.
  replace (getDate t - k) with (getDate t + - k) by lia.
  rewrite setDate_shift. lia.
Qed.

Lemma Day_back t k : Day (t - k * msPerDay) = Day t - k.
Proof.
  replace (t - k * msPerDay) with (t + - k * msPerDay) by lia.
  rewrite Day_shift. lia.
Qed.

Lemma daysBack_le now k :
  0 <= k ->
  setHours (setDate now (getDate now - k)) 0 0 0 0
  <= setHours now 23 59 59 999.
Proof.
  intros Hk. rewrite setDate_back, setHours_start, setHours_end, Day_back.
  unfold msPerDay. nia.
Qed.

Lemma sameDay_le t : setHours t 0 0 0 0 <= setHours t 23 59 59 999.
Proof. rewrite setHours_start, setHours_end. lia. Qed.

Lemma endOfDay_ge t : t <= setHours t 23 59 59 999.
Proof. rewrite setHours_end. pose proof (Day_bounds t). lia. Qed.

Lemma Day_newDateYMD y m d :
  Day (newDateYMD y m d)
  = MakeDay (if (0 <=? y) && (y <=? 99) then 1900 + y else y) m d.
Proof.
  unfold newDateYMD. apply Day_MakeDate. unfold MakeTime, msPerDay. lia.
Qed.

Lemma month_le y m :
  0 <= m <= 11 ->
  setHours (newDateYMD y m 1) 0 0 0 0
  <= setHours (newDateYMD y (m + 1) 0) 23 59 59 999.
Proof.
  intros Hm. rewrite setHours_start, setHours_end, !Day_newDateYMD.
  set (yr := if (0 <=? y) && (y <=? 99) then 1900 + y else y).
  rewrite MakeDay_day0_next by exact Hm.
  pose proof (InLeapYear_cases yr).
  pose proof (DaysInMonth_pos (InLeapYear yr) m Hm ltac:(lia)).
  unfold MakeDay, msPerDay. nia.
Qed.

Lemma DateFromDay_range d :
  1 <= DateFromDay d
  <= DaysInMonth (InLeapYear (YearFromDay d)) (MonthFromDay d).
Proof.
  pose proof (DayWithinYear_range d) as R.
  pose proof (InLeapYear_cases (YearFromDay d)) as L.
  unfold DateFromDay, MonthFromDay.
  set (leap := InLeapYear (YearFromDay d)) in *.
  set (w := DayWithinYear d) in *. clearbody w leap.
  repeat match goal with
  | |- context [?a <? ?b] => destruct (Z.ltb_spec a b)
  end; cbn [monthStart DaysInMonth]; lia.
Qed.

Lemma YearFromDay_epoch d : 0 <= d -> 1970 <= YearFromDay d.
Proof.
  intros H. pose proof (YearFromDay_spec d) as S.
  destruct (Z.le_gt_cases 1970 (YearFromDay d)) as [G | G]; [exact G|].
  pose proof (DayFromYear_mono (YearFromDay d + 1) 1970 ltac:(lia)) as M.
  change (DayFromYear 1970) with 0 in M. lia.
Qed.

(** For a reading of the clock from the epoch to a month before the last
    time value, both ends of every quick range are time values, which
    TimeClip leaves as they are. *)
Lemma computeQuickRange_inTimeRange now key :
  0 <= now <= maxTime - 31 * msPerDay ->
  inTimeRange (fst (computeQuickRange now key))
  /\ inTimeRange (snd (computeQuickRange now key)).
Proof.
  intros Hn. unfold inTimeRange, maxTime, msPerDay in *.
  pose proof (Day_bounds now) as B. unfold msPerDay in B.
  assert (E : setHours now 23 59 59 999 = Day now * 86400000 + 86399999)
    by apply setHours_end.
  assert (Bk : forall k, 0 <= k <= 7 ->
             setHours (setDate now (getDate now - k)) 0 0 0 0
             = (Day now - k) * 86400000).
  { intros k Hk. rewrite setDate_back, setHours_start, Day_back. reflexivity. }
  unfold computeQuickRange. set (k := toLowerCase _).
  destruct (eqb_str k (str "today")).
  { cbv zeta. cbn [fst snd]. rewrite E, setHours_start. unfold msPerDay. lia. }
  destruct (eqb_str k (str "yesterday")).
  { cbv zeta. cbn [fst snd]. rewrite setHours_end, (Bk 1) by lia.
    replace (Day ((Day now - 1) * 86400000)) with (Day now - 1)
      by (unfold Day, msPerDay; rewrite Z.div_mul; lia).
    unfold msPerDay. lia. }
  destruct (eqb_str k (str "this_week") || eqb_str k (str "this week")).
  { cbv zeta. cbn [fst snd]. rewrite E.
    pose proof (WeekDay_range (Day now)) as W. fold (getDay now) in W.
    rewrite Bk by (destruct (Z.eqb_spec (getDay now) 0); lia).
    destruct (Z.eqb_spec (getDay now) 0); lia. }
  destruct (eqb_str k (str "this_month") || eqb_str k (str "this month")).
  { cbv zeta. cbn [fst snd].
    rewrite setHours_start, setHours_end, !Day_newDateYMD.
    assert (D0 : 0 <= Day now) by (unfold Day, msPerDay; apply Z.div_pos; lia).
    pose proof (YearFromDay_epoch (Day now) D0) as Y. fold (getFullYear now) in Y.
    replace ((0 <=? getFullYear now) && (getFullYear now <=? 99)) with false
      by (symmetry; apply andb_false_iff; rewrite Z.leb_gt, Z.leb_gt; lia).
    rewrite MakeDay_day0_next by apply MonthFromDay_range.
    pose proof (DateFromDay_range (Day now)) as DR.
    pose proof (MakeDay_of_day (Day now) (1 - DateFromDay (Day now))) as M1.
    replace (DateFromDay (Day now) + (1 - DateFromDay (Day now))) with 1 in M1
      by lia.
    pose proof (MakeDay_of_day (Day now)
                  (DaysInMonth (InLeapYear (YearFromDay (Day now)))
                     (MonthFromDay (Day now)) - DateFromDay (Day now))) as M2.
    replace (DateFromDay (Day now)
             + (DaysInMonth (InLeapYear (YearFromDay (Day now)))
                  (MonthFromDay (Day now)) - DateFromDay (Day now)))
      with (DaysInMonth (InLeapYear (YearFromDay (Day now)))
              (MonthFromDay (Day now))) in M2 by lia.
    unfold getFullYear, getMonth. rewrite M1, M2.
    pose proof (DaysInMonth_pos (InLeapYear (YearFromDay (Day now)))
                  (MonthFromDay (Day now)) (MonthFromDay_range _)
                  ltac:(pose proof (InLeapYear_cases (YearFromDay (Day now)));
                        lia)) as P.
    unfold msPerDay. lia. }
  destruct (eqb_str k (str "last_12_hours")); [cbv zeta; cbn [fst snd]; lia|].
  destruct (eqb_str k (str "last_24_hours")); [cbv zeta; cbn [fst snd]; lia|].
  destruct (eqb_str k (str "last_2_days")).
  { cbv zeta. cbn [fst snd]. rewrite E, (Bk 1) by lia. lia. }
  destruct (eqb_str k (str "last_7_days")).
  { cbv zeta. cbn [fst snd]. rewrite E, (Bk 6) by lia. lia. }
  cbv zeta. cbn [fst snd]. rewrite E, setHours_start. unfold msPerDay. lia.
Qed.

(** C3. For every key, recognized or not, and every reading [now] of the
    clock, the range that [computeQuickRange] returns has [from <= to]; the
    range is a function of [now] and the key alone. *)
Theorem computeQuickRange_ordered now key :
  fst (computeQuickRange now key) <= snd (computeQuickRange now key)
  /\ forall r1 r2,
       r1 = computeQuickRange now key -> r2 = computeQuickRange now key ->
       r1 = r2.
Proof.
  split; [| intros r1 r2 -> ->; reflexivity].
  unfold computeQuickRange.
  set (k := toLowerCase _).
  destruct (eqb_str k (str "today"));
    [cbv zeta; cbn [fst snd]; apply sameDay_le|].
  destruct (eqb_str k (str "yesterday"));
    [cbv zeta; cbn [fst snd]; apply endOfDay_ge|].
  destruct (eqb_str k (str "this_week") || eqb_str k (str "this week")).
  { cbv zeta. cbn [fst snd]. apply daysBack_le.
    pose proof (WeekDay_range (Day now)). unfold getDay.
    destruct (Z.eqb_spec (WeekDay (Day now)) 0); lia. }
  destruct (eqb_str k (str "this_month") || eqb_str k (str "this month")).
  { cbv zeta. cbn [fst snd]. apply month_le. apply MonthFromDay_range. }
  destruct (eqb_str k (str "last_12_hours")); [cbv zeta; cbn [fst snd]; lia|].
  destruct (eqb_str k (str "last_24_hours")); [cbv zeta; cbn [fst snd]; lia|].
  destruct (eqb_str k (str "last_2_days"));
    [cbv zeta; cbn [fst snd]; apply daysBack_le; lia|].
  destruct (eqb_str k (str "last_7_days"));
    [cbv zeta; cbn [fst snd]; apply daysBack_le; lia|].
  cbv zeta. cbn [fst snd]. apply sameDay_le.
Qed.

Lemma computeQuickRange_ordered_witness :
  let now := 1707568496000 in
  let key := Some (str "last_7_days") in
  fst (computeQuickRange now key) <= snd (computeQuickRange now key)
  /\ (1707004800000, 1707609599999) = computeQuickRange now key.
Proof.
  cbv zeta. split.
  - apply (computeQuickRange_ordered 1707568496000 (Some (str "last_7_days"))).
  - apply (proj2 (computeQuickRange_ordered 1707568496000
                    (Some (str "last_7_days")))); reflexivity.
Defined.


Lemma quick_this_week now :
  computeQuickRange now (Some (str "this_week"))
  = (setHours (setDate now (getDate now
                            - ((if getDay now =? 0 then 7 else getDay now) - 1)))
       0 0 0 0,
     setHours now 23 59 59 999).
Proof. unfold computeQuickRange. eval_keys. reflexivity. Qed.

Lemma quick_this_month now :
  computeQuickRange now (Some (str "this_month"))
  = (setHours (newDateYMD (getFullYear now) (getMonth now) 1) 0 0 0 0,
     setHours (newDateYMD (getFullYear now) (getMonth now + 1) 0) 23 59 59 999).
Proof. unfold computeQuickRange. eval_keys. reflexivity. Qed.

(** C8. ["this_week"] gives the range from 00:00:00.000 of the Monday of
    the week of [now], at most six days back, to the end of the day of [now];
    when [now] falls on a Sunday the range starts six days before, not on
    that day. *)
Theorem computeQuickRange_this_week now :
  let from := fst (computeQuickRange now (Some (str "this_week"))) in
  let to := snd (computeQuickRange now (Some (str "this_week"))) in
  getDay from = 1
  /\ TimeWithinDay from = 0
  /\ Day from = Day now - (getDay now + 6) mod 7
  /\ Day now - 6 <= Day from <= Day now
  /\ to = setHours now 23 59 59 999
  /\ to = Day now * msPerDay + 86399999
  /\ (getDay now = 0 -> Day from = Day now - 6 /\ from < setHours now 0 0 0 0).
Proof.
  cbv zeta. rewrite quick_this_week. cbn [fst snd].
  rewrite setDate_back, !setHours_start, setHours_end, Day_back.
  set (k := (if getDay now =? 0 then 7 else getDay now) - 1).
  assert (Hk : k = (getDay now + 6) mod 7 /\ 0 <= k <= 6).
  { unfold k, getDay. pose proof (WeekDay_range (Day now)).
    destruct (Z.eqb_spec (WeekDay (Day now)) 0) as [E | E].
    - rewrite E. cbn. lia.
    - split; [|lia]. Z.div_mod_to_equations. lia. }
  destruct Hk as [Hk Hr].
  assert (HD : Day ((Day now - k) * msPerDay) = Day now - k).
  { unfold Day at 1. unfold msPerDay. apply Z.div_mul. lia. }
  repeat split.
  - unfold getDay. rewrite HD. rewrite Hk. unfold getDay, WeekDay.
    Z.div_mod_to_equations. lia.
  - unfold TimeWithinDay, msPerDay. apply Z.mod_mul. lia.
  - rewrite HD. congruence.
  - rewrite HD. lia.
  - rewrite HD. lia.
  - rewrite HD. rewrite Hk, H. reflexivity.
  - rewrite Hk, H. change ((0 + 6) mod 7) with 6. unfold msPerDay. lia.
Qed.

Lemma computeQuickRange_this_week_witness :
  let now := 1707654896000 in
  let from := fst (computeQuickRange now (Some (str "this_week"))) in
  getDay now = 0
  /\ Day from = Day now - 6 /\ from < setHours now 0 0 0 0.
Proof.
  cbv zeta. split; [reflexivity|].
  apply (computeQuickRange_this_week 1707654896000). reflexivity.
Defined.


(** The first day of a month, day 0 of the next month, which is its last
    day, and the day after. *)
Lemma month_ends y m :
  0 <= m <= 11 ->
  let first := MakeDay y m 1 in
  let last := MakeDay y (m + 1) 0 in
  (YearFromDay first = y /\ MonthFromDay first = m /\ DateFromDay first = 1)
  /\ (YearFromDay last = y /\ MonthFromDay last = m
      /\ DateFromDay last = DaysInMonth (InLeapYear y) m)
  /\ DateFromDay (last + 1) = 1.
Proof.
  intros Hm. cbv zeta.
  pose proof (InLeapYear_cases y) as L.
  pose proof (DaysInMonth_pos (InLeapYear y) m Hm ltac:(lia)) as P.
  split; [apply fields_MakeDay; lia|].
  split; [rewrite MakeDay_day0_next by exact Hm; apply fields_MakeDay; lia|].
  replace (MakeDay y (m + 1) 0 + 1) with (MakeDay y (m + 1) 1)
    by (unfold MakeDay; lia).
  destruct (Z.eq_dec m 11) as [-> | N].
  - change (11 + 1) with 12. rewrite MakeDay_month12.
    apply (fields_MakeDay (y + 1) 0 1); cbn [DaysInMonth]; lia.
  - pose proof (DaysInMonth_pos (InLeapYear y) (m + 1) ltac:(lia) ltac:(lia)).
    apply (fields_MakeDay y (m + 1) 1); lia.
Qed.

(** C7. ["this_month"] gives the start of day 1 of the month of [now] and
    the end of day 0 of the next month, which is the last day of the month
    of [now]; on 2024-02-10 (day 19763 of the epoch) the range is
    2024-02-01 00:00:00 to 2024-02-29 23:59:59.  The fields are those of the
    month of [now] for every year that [new Date(year, month, day)] takes as
    written, that is outside 0..99. *)
Theorem computeQuickRange_this_month now :
  let y := getFullYear now in
  let m := getMonth now in
  let from := fst (computeQuickRange now (Some (str "this_month"))) in
  let to := snd (computeQuickRange now (Some (str "this_month"))) in
  from = setHours (newDateYMD y m 1) 0 0 0 0
  /\ to = setHours (newDateYMD y (m + 1) 0) 23 59 59 999
  /\ (~ (0 <= y <= 99) ->
      getFullYear from = y /\ getMonth from = m /\ getDate from = 1
      /\ TimeWithinDay from = 0
      /\ getFullYear to = y /\ getMonth to = m
      /\ getDate to = DaysInMonth (InLeapYear y) m
      /\ TimeWithinDay to = 86399999
      /\ getDate (to + 1) = 1)
  /\ (Day now = 19763 ->
      formatDate now = str "2024-02-10"
      /\ from = 1706745600000 /\ to = 1709251199999
      /\ formatDateTime from = str "2024-02-01 00:00:00"
      /\ formatDateTime to = str "2024-02-29 23:59:59").
Proof.
  cbv zeta. rewrite quick_this_month. cbn [fst snd].
  split; [reflexivity|]. split; [reflexivity|]. split.
  - intros Hy.
    set (y := getFullYear now) in *. set (m := getMonth now).
    assert (Hm : 0 <= m <= 11) by apply MonthFromDay_range.
    rewrite setHours_start, setHours_end, !Day_newDateYMD.
    replace ((0 <=? y) && (y <=? 99)) with false
      by (symmetry; apply andb_false_iff; rewrite Z.leb_gt, Z.leb_gt; lia).
    destruct (month_ends y m Hm) as ((F1 & F2 & F3) & (T1 & T2 & T3) & N).
    set (first := MakeDay y m 1) in *.
    set (last := MakeDay y (m + 1) 0) in *.
    assert (D1 : Day (first * msPerDay) = first)
      by (unfold Day, msPerDay; apply Z.div_mul; lia).
    assert (D2 : Day (last * msPerDay + 86399999) = last)
      by (unfold Day, msPerDay; Z.div_mod_to_equations; lia).
    assert (D3 : Day (last * msPerDay + 86399999 + 1) = last + 1)
      by (unfold Day, msPerDay; Z.div_mod_to_equations; lia).
    unfold getFullYear, getMonth, getDate. rewrite D1, D2, D3.
    repeat split; try assumption.
    + unfold TimeWithinDay, msPerDay. apply Z.mod_mul. lia.
    + unfold TimeWithinDay, msPerDay. Z.div_mod_to_equations. lia.
  - intros HD.
    assert (Y : getFullYear now = 2024)
      by (unfold getFullYear; rewrite HD; reflexivity).
    assert (M : getMonth now = 1) by (unfold getMonth; rewrite HD; reflexivity).
    assert (D : getDate now = 10) by (unfold getDate; rewrite HD; reflexivity).
    unfold formatDate. rewrite Y, M, D.
    repeat split; vm_compute; reflexivity.
Qed.

Lemma computeQuickRange_this_month_witness :
  let now := 1707568496000 in
  let from := fst (computeQuickRange now (Some (str "this_month"))) in
  let to := snd (computeQuickRange now (Some (str "this_month"))) in
  ~ (0 <= getFullYear now <= 99) /\ Day now = 19763
  /\ getDate from = 1 /\ getDate (to + 1) = 1
  /\ formatDateTime from = str "2024-02-01 00:00:00"
  /\ formatDateTime to = str "2024-02-29 23:59:59".
Proof.
  cbv zeta.
  assert (Y : ~ (0 <= getFullYear 1707568496000 <= 99))
    by (vm_compute; intros [_ H]; apply H; reflexivity).
  assert (D : Day 1707568496000 = 19763) by reflexivity.
  split; [exact Y|]. split; [exact D|].
  pose proof (computeQuickRange_this_month 1707568496000) as T.
  cbv zeta in T. destruct T as (_ & _ & F & G).
  split; [apply (F Y)|]. split; [apply (F Y)|].
  split; apply (G D).
Defined.

(** * The controller of the range picker *)

Section ControllerFacts.

Variable newDateString : jsstring -> option Z.
Variable litepickerLoaded : bool.
Variable hasRequestSubmit : bool.

Lemma isEmpty_true (s : jsstring) : isEmpty s = true <-> s = [].
Proof. destruct s; cbn; split; congruence. Qed.

Lemma hidden_alert msg s :
  hiddenFrom (alert msg s) = hiddenFrom s
  /\ hiddenTo (alert msg s) = hiddenTo s.
Proof. split; reflexivity. Qed.

Lemma hidden_initFromHidden s :
  hiddenFrom (initFromHidden newDateString s) = hiddenFrom s
  /\ hiddenTo (initFromHidden newDateString s) = hiddenTo s.
Proof.
  unfold initFromHidden.
  set (s1 := if isEmpty (hiddenFrom s) then s else set_currentFrom _ s).
  assert (H1 : hiddenFrom s1 = hiddenFrom s /\ hiddenTo s1 = hiddenTo s)
    by (unfold s1; destruct (isEmpty (hiddenFrom s)); split; reflexivity).
  clearbody s1.
  set (s2 := if isEmpty (hiddenTo s1) then s1 else set_currentTo _ s1).
  assert (H2 : hiddenFrom s2 = hiddenFrom s1 /\ hiddenTo s2 = hiddenTo s1)
    by (unfold s2; destruct (isEmpty (hiddenTo s1)); split; reflexivity).
  clearbody s2.
  destruct (currentFrom s2), (currentTo s2); cbn; intuition congruence.
Qed.

Lemma hidden_openPanel g s :
  hiddenFrom (openPanel litepickerLoaded g s) = hiddenFrom s
  /\ hiddenTo (openPanel litepickerLoaded g s) = hiddenTo s.
Proof.
  unfold openPanel, positionPanel, setDateRange. cbn.
  destruct (picker s) eqn:P, litepickerLoaded, (currentFrom s) eqn:F,
    (currentTo s) eqn:T; cbn; rewrite ?P, ?F, ?T; cbn; split; reflexivity.
Qed.

Lemma hidden_closePanel s :
  hiddenFrom (closePanel s) = hiddenFrom s
  /\ hiddenTo (closePanel s) = hiddenTo s.
Proof. split; reflexivity. Qed.

Lemma hidden_quickRangeClick key now s :
  hiddenFrom (quickRangeClick key now s) = hiddenFrom s
  /\ hiddenTo (quickRangeClick key now s) = hiddenTo s.
Proof.
  unfold quickRangeClick. destruct (computeQuickRange now key) as [from to].
  cbn. destruct (picker s); split; reflexivity.
Qed.

Lemma hidden_onSelected d1 d2 s :
  hiddenFrom (onSelected d1 d2 s) = hiddenFrom s
  /\ hiddenTo (onSelected d1 d2 s) = hiddenTo s.
Proof. destruct d1, d2; split; reflexivity. Qed.

(** C2. When one of the two inputs is empty, or does not parse, or the
    parsed [from] is after the parsed [to], the apply handler shows one alert
    and changes nothing else: the hidden fields, the label, the stored range,
    the panel and the list of submissions stay as they were. *)
Theorem applyClick_rejects s :
  let from := newDateString (replaceFirst 32 84 (fromInput s)) in
  let to := newDateString (replaceFirst 32 84 (toInput s)) in
  let s' := applyClick newDateString hasRequestSubmit s in
  fromInput s = [] \/ toInput s = [] \/ from = None \/ to = None
  \/ (exists f t, from = Some f /\ to = Some t /\ t < f) ->
  (exists msg, s' = alert msg s /\ alerts s' = alerts s ++ [msg])
  /\ hiddenFrom s' = hiddenFrom s /\ hiddenTo s' = hiddenTo s
  /\ summaryLabel s' = summaryLabel s
  /\ currentFrom s' = currentFrom s /\ currentTo s' = currentTo s
  /\ panelHidden s' = panelHidden s /\ overlayHidden s' = overlayHidden s
  /\ submitted s' = submitted s.
Proof.
  cbv zeta. intros H.
  assert (A : exists msg,
            applyClick newDateString hasRequestSubmit s = alert msg s).
  { unfold applyClick.
    destruct (isEmpty (fromInput s)) eqn:EF; [eexists; reflexivity|].
    destruct (isEmpty (toInput s)) eqn:ET; [eexists; reflexivity|].
    cbn [orb].
    destruct (newDateString (replaceFirst 32 84 (fromInput s))) as [f|] eqn:PF;
      [|eexists; reflexivity].
    destruct (newDateString (replaceFirst 32 84 (toInput s))) as [t|] eqn:PT;
      [|eexists; reflexivity].
    destruct (Z.ltb_spec t f); [eexists; reflexivity|].
    exfalso. destruct H as [H | [H | [H | [H | (f' & t' & H1 & H2 & H3)]]]].
    - apply isEmpty_true in H. congruence.
    - apply isEmpty_true in H. congruence.
    - discriminate.
    - discriminate.
    - injection H1 as <-. injection H2 as <-. lia. }
  destruct A as [msg ->].
  split; [exists msg; split; reflexivity|]. repeat split.
Qed.

(** C4. With two inputs that are not empty, parse, and are in order, the
    apply handler writes [formatDateTime from] and [formatDateTime to] in the
    hidden fields, sets the label to the two joined by [" → "], hides the
    panel and the overlay, and submits the form once. *)
Theorem applyClick_commits s from to :
  fromInput s <> [] -> toInput s <> [] ->
  newDateString (replaceFirst 32 84 (fromInput s)) = Some from ->
  newDateString (replaceFirst 32 84 (toInput s)) = Some to ->
  from <= to ->
  let s' := applyClick newDateString hasRequestSubmit s in
  hiddenFrom s' = formatDateTime from
  /\ hiddenTo s' = formatDateTime to
  /\ summaryLabel s' = formatDateTime from ++ arrow ++ formatDateTime to
  /\ panelHidden s' = true /\ overlayHidden s' = true
  /\ submitted s'
     = submitted s ++ [if hasRequestSubmit then RequestSubmit else Submit]
  /\ alerts s' = alerts s
  /\ currentFrom s' = Some from /\ currentTo s' = Some to.
Proof.
  intros NF NT PF PT Le. cbv zeta. unfold applyClick.
  destruct (isEmpty (fromInput s)) eqn:EF;
    [apply isEmpty_true in EF; contradiction|].
  destruct (isEmpty (toInput s)) eqn:ET;
    [apply isEmpty_true in ET; contradiction|].
  cbn [orb]. rewrite PF, PT.
  destruct (Z.ltb_spec to from); [lia|].
  destruct hasRequestSubmit; cbn; repeat split.
Qed.

(** C10. No event but a click on apply that passes the checks changes a
    hidden field; [initFromHidden] does not either.  A click on a quick
    range and a completed selection in the calendar leave them as they are
    while they overwrite the stored range and the two visible inputs: with
    the quick range itself as long as the calendar is not built, and with the
    whole days of its two ends once it is, since [setDateRange] runs the
    handler of [selected]; with the whole days of the selection. *)
Theorem hidden_fields_frame s :
  (forall e,
     (e = ApplyClick /\ applyAccepts newDateString s)
     \/ (hiddenFrom (step newDateString litepickerLoaded hasRequestSubmit s e)
           = hiddenFrom s
         /\ hiddenTo (step newDateString litepickerLoaded hasRequestSubmit s e)
            = hiddenTo s))
  /\ (hiddenFrom (initFromHidden newDateString s) = hiddenFrom s
      /\ hiddenTo (initFromHidden newDateString s) = hiddenTo s)
  /\ (forall key now,
        let s' := quickRangeClick key now s in
        let r := computeQuickRange now key in
        let stored :=
          match picker s with
          | None => r
          | Some _ =>
              (setHours (fst r) 0 0 0 0, setHours (snd r) 23 59 59 999)
          end in
        hiddenFrom s' = hiddenFrom s /\ hiddenTo s' = hiddenTo s
        /\ currentFrom s' = Some (fst stored)
        /\ currentTo s' = Some (snd stored)
        /\ fromInput s' = formatDateTime (fst stored)
        /\ toInput s' = formatDateTime (snd stored))
  /\ (forall d1 d2,
        let s' := onSelected (Some d1) (Some d2) s in
        hiddenFrom s' = hiddenFrom s /\ hiddenTo s' = hiddenTo s
        /\ currentFrom s' = Some (setHours d1 0 0 0 0)
        /\ currentTo s' = Some (setHours d2 23 59 59 999)
        /\ fromInput s' = formatDateTime (setHours d1 0 0 0 0)
        /\ toInput s' = formatDateTime (setHours d2 23 59 59 999)).
Proof.
  split; [|split; [apply hidden_initFromHidden|split]].
  - intros e. destruct e as [g | | | key now | d1 d2 |]; cbn [step].
    + right. apply hidden_openPanel.
    + right. apply hidden_closePanel.
    + right. apply hidden_closePanel.
    + right. apply hidden_quickRangeClick.
    + right. destruct (picker s); [apply hidden_onSelected | split; reflexivity].
    + destruct (isEmpty (fromInput s)) eqn:EF.
      { right. unfold applyClick. rewrite EF. split; reflexivity. }
      destruct (isEmpty (toInput s)) eqn:ET.
      { right. unfold applyClick. rewrite EF, ET. split; reflexivity. }
      destruct (newDateString (replaceFirst 32 84 (fromInput s))) as [f|] eqn:PF.
      2:{ right. unfold applyClick. rewrite EF, ET, PF. split; reflexivity. }
      destruct (newDateString (replaceFirst 32 84 (toInput s))) as [t|] eqn:PT.
      2:{ right. unfold applyClick. rewrite EF, ET, PF, PT. split; reflexivity. }
      destruct (Z.ltb_spec t f).
      { right. unfold applyClick. rewrite EF, ET, PF, PT. cbn [orb].
        destruct (Z.ltb_spec t f); [split; reflexivity | lia]. }
      left. split; [reflexivity|]. unfold applyAccepts.
      split; [intros E; apply isEmpty_true in E; congruence|].
      split; [intros E; apply isEmpty_true in E; congruence|].
      exists f, t. auto.
  - intros key now. cbv zeta. unfold quickRangeClick.
    destruct (computeQuickRange now key) as [from to]. cbn [fst snd].
    destruct s as [cf ct pk fi ti hf ht lb ph pb oh pl pt al sb].
    destruct pk as [p|]; cbn; repeat split.
  - intros d1 d2. cbv zeta. cbn. repeat split.
Qed.

End ControllerFacts.

Lemma applyClick_rejects_witness :
  let s := examplePicker (str "2024-05-10 10:00:00")
             (str "2024-05-09 10:00:00") in
  let s' := applyClick isoDateString true s in
  (exists f t,
     isoDateString (replaceFirst 32 84 (fromInput s)) = Some f
     /\ isoDateString (replaceFirst 32 84 (toInput s)) = Some t /\ t < f)
  /\ hiddenFrom s' = str "2024-05-01 00:00:00"
  /\ hiddenTo s' = str "2024-05-02 00:00:00"
  /\ submitted s' = [].
Proof.
  cbv zeta.
  assert (H : exists f t,
            isoDateString
              (replaceFirst 32 84
                 (fromInput (examplePicker (str "2024-05-10 10:00:00")
                               (str "2024-05-09 10:00:00")))) = Some f
            /\ isoDateString
                 (replaceFirst 32 84
                    (toInput (examplePicker (str "2024-05-10 10:00:00")
                                (str "2024-05-09 10:00:00")))) = Some t
            /\ t < f)
    by (exists 1715335200000, 1715248800000; repeat split; reflexivity).
  split; [exact H|].
  pose proof (applyClick_rejects isoDateString true
                (examplePicker (str "2024-05-10 10:00:00")
                   (str "2024-05-09 10:00:00"))
                (or_intror (or_intror (or_intror (or_intror H))))) as R.
  cbv zeta in R. destruct R as (_ & R1 & R2 & _ & _ & _ & _ & _ & R3).
  split; [exact R1|]. split; [exact R2 | exact R3].
Defined.

Lemma applyClick_commits_witness :
  let s := examplePicker (str "2024-05-09 10:00:00")
             (str "2024-05-10 10:00:00") in
  let s' := applyClick isoDateString true s in
  fromInput s <> [] /\ toInput s <> []
  /\ isoDateString (replaceFirst 32 84 (fromInput s)) = Some 1715248800000
  /\ isoDateString (replaceFirst 32 84 (toInput s)) = Some 1715335200000
  /\ 1715248800000 <= 1715335200000
  /\ hiddenFrom s' = formatDateTime 1715248800000
  /\ hiddenTo s' = formatDateTime 1715335200000
  /\ submitted s' = [RequestSubmit].
Proof.
  cbv zeta.
  assert (NF : fromInput (examplePicker (str "2024-05-09 10:00:00")
                            (str "2024-05-10 10:00:00")) <> [])
    by discriminate.
  assert (NT : toInput (examplePicker (str "2024-05-09 10:00:00")
                          (str "2024-05-10 10:00:00")) <> [])
    by discriminate.
  assert (Le : 1715248800000 <= 1715335200000) by lia.
  split; [exact NF|]. split; [exact NT|].
  split; [reflexivity|]. split; [reflexivity|]. split; [exact Le|].
  pose proof (applyClick_commits isoDateString true
                (examplePicker (str "2024-05-09 10:00:00")
                   (str "2024-05-10 10:00:00"))
                1715248800000 1715335200000 NF NT eq_refl eq_refl Le) as R.
  cbv zeta in R. destruct R as (R1 & R2 & _ & _ & _ & R3 & _).
  split; [exact R1|]. split; [exact R2 | exact R3].
Defined.

(** * Facts about the host JSON *)

(** ** Decimal digits *)

Ltac N_bools :=
  repeat match goal with
  | H : _ && _ = true |- _ => apply andb_true_iff in H; destruct H
  | H : _ || _ = false |- _ => apply orb_false_iff in H; destruct H
  | H : negb _ = true |- _ => apply negb_true_iff in H
  | H : negb _ = false |- _ => apply negb_false_iff in H
  | H : (_ <=? _)%N = true |- _ => apply N.leb_le in H
  | H : (_ <=? _)%N = false |- _ => apply N.leb_gt in H
  | H : (_ <? _)%N = true |- _ => apply N.ltb_lt in H
  | H : (_ <? _)%N = false |- _ => apply N.ltb_ge in H
  | H : (_ =? _)%N = true |- _ => apply N.eqb_eq in H
  | H : (_ =? _)%N = false |- _ => apply N.eqb_neq in H
  end.

Ltac N_decide :=
  repeat match goal with
  | |- context [(?a <=? ?b)%N] => destruct (N.leb_spec a b)
  | |- context [(?a <? ?b)%N] => destruct (N.ltb_spec a b)
  | |- context [(?a =? ?b)%N] => destruct (N.eqb_spec a b)
  end; cbn [andb orb negb]; try reflexivity; try lia; try discriminate.

Lemma isDigit_spec c : JSON.isDigit c = true <-> (48 <= c <= 57)%N.
Proof.
  unfold JSON.isDigit. rewrite andb_true_iff, !N.leb_le. tauto.
Qed.

Lemma isDigit_isNumChar c : JSON.isDigit c = true -> JSON.isNumChar c = true.
Proof. intros H. unfold JSON.isNumChar. rewrite H. reflexivity. Qed.

Lemma digitsAux_S f n acc :
  digitsAux (S f) n acc
  = if (n <? 10)%N then (48 + n)%N :: acc
    else digitsAux f (n / 10)%N ((48 + n mod 10)%N :: acc).
Proof. reflexivity. Qed.

Lemma digitsAux_spec fuel : forall n acc,
  (n < 2 ^ N.of_nat (S fuel))%N ->
  exists d ds,
    digitsAux (S fuel) n acc = (d :: ds) ++ acc
    /\ forallb JSON.isDigit (d :: ds) = true
    /\ (n <> 0%N -> d <> 48%N).
Proof.
  induction fuel as [|fuel IH]; intros n acc Hn.
  - change (2 ^ N.of_nat 1)%N with 2%N in Hn.
    rewrite digitsAux_S. destruct (N.ltb_spec n 10); [|lia].
    exists (48 + n)%N, []. split; [reflexivity|]. split.
    + cbn [forallb]. rewrite andb_true_r. apply isDigit_spec. lia.
    + lia.
  - rewrite digitsAux_S.
    destruct (N.ltb_spec n 10).
    + exists (48 + n)%N, []. split; [reflexivity|]. split.
      * cbn [forallb]. rewrite andb_true_r. apply isDigit_spec. lia.
      * lia.
    + assert (Hq : (n / 10 < 2 ^ N.of_nat (S fuel))%N).
      { rewrite Nat2N.inj_succ, N.pow_succ_r' in Hn.
        apply N.Div0.div_lt_upper_bound. lia. }
      destruct (IH (n / 10)%N ((48 + n mod 10)%N :: acc) Hq)
        as (d & ds & E & D & Hz).
      exists d, (ds ++ [(48 + n mod 10)%N]). split.
      * rewrite E. cbn [app]. rewrite <- app_assoc. reflexivity.
      * split.
        -- change (forallb JSON.isDigit ((d :: ds) ++ [(48 + n mod 10)%N]) = true).
           rewrite forallb_app, D. cbn [forallb andb]. rewrite andb_true_r.
           apply isDigit_spec. assert (n mod 10 < 10)%N by (apply N.mod_upper_bound; discriminate).
           generalize dependent (n mod 10)%N. intros. lia.
        -- intros _. apply Hz.
           intros E0. apply N.div_small_iff in E0; lia.
Qed.

Lemma digitsOfN_spec n :
  exists d ds,
    digitsOfN n = d :: ds
    /\ forallb JSON.isDigit (d :: ds) = true
    /\ (n <> 0%N -> d <> 48%N).
Proof.
  unfold digitsOfN.
  destruct (digitsAux_spec (N.to_nat (N.log2 n)) n []) as (d & ds & E & H).
  - rewrite Nat2N.inj_succ, N2Nat.id.
    destruct (N.eq_dec n 0) as [-> | Hn]; [reflexivity|].
    apply N.log2_spec. lia.
  - exists d, ds. rewrite E, app_nil_r. auto.
Qed.

(** ** Number tokens *)

Lemma spanDigits_app ds r :
  forallb JSON.isDigit ds = true -> JSON.endsDigits r = true ->
  JSON.spanDigits (ds ++ r) = (ds, r).
Proof.
  intros D R. induction ds as [|c ds IH]; cbn [app].
  - destruct r as [|c r]; [reflexivity|]. cbn in R |- *.
    apply negb_true_iff in R. rewrite R. reflexivity.
  - cbn [forallb] in D. apply andb_true_iff in D. destruct D as [Dc D].
    cbn [JSON.spanDigits]. rewrite Dc, (IH D). reflexivity.
Qed.

Lemma spanDigits_all ds :
  forallb JSON.isDigit ds = true -> JSON.spanDigits ds = (ds, []).
Proof.
  intros D. rewrite <- (app_nil_r ds) at 1. apply spanDigits_app; auto.
Qed.

Lemma spanNum_app tok r :
  forallb JSON.isNumChar tok = true -> JSON.delimited r = true ->
  JSON.spanNum (tok ++ r) = (tok, r).
Proof.
  intros D R. induction tok as [|c tok IH]; cbn [app].
  - destruct r as [|c r]; [reflexivity|]. cbn in R |- *.
    apply negb_true_iff in R. rewrite R. reflexivity.
  - cbn [forallb] in D. apply andb_true_iff in D. destruct D as [Dc D].
    cbn [JSON.spanNum]. rewrite Dc, (IH D). reflexivity.
Qed.

Lemma forallb_digits_numchars ds :
  forallb JSON.isDigit ds = true -> forallb JSON.isNumChar ds = true.
Proof.
  induction ds as [|c ds IH]; [reflexivity|]. cbn [forallb].
  rewrite !andb_true_iff. intros [H1 H2]. split; auto using isDigit_isNumChar.
Qed.

Lemma forallb_repeat_zero j : forallb JSON.isDigit (repeat 48%N j) = true.
Proof. induction j; [reflexivity|]. cbn [repeat forallb]. rewrite IHj. reflexivity. Qed.

Lemma exponentPart_signed (b : bool) m :
  exists e,
    JSON.exponentPart (101%N :: (if b then str "-" else str "+") ++ digitsOfN m)
    = Some e.
Proof.
  destruct (digitsOfN_spec m) as (d & ds & E & D & _). rewrite E.
  unfold JSON.exponentPart. change ((101 =? 101)%N || (101 =? 69)%N) with true.
  cbv iota.
  destruct b;
    [change (str "-") with [45%N] | change (str "+") with [43%N]];
    cbn [app];
    [change ((45 =? 45)%N) with true
    | change ((43 =? 45)%N) with false; change ((43 =? 43)%N) with true];
    cbv beta iota zeta; rewrite (spanDigits_all _ D);
    eexists; reflexivity.
Qed.

Lemma unsigned_integer neg d ds :
  forallb JSON.isDigit (d :: ds) = true -> d <> 48%N ->
  exists n, JSON.unsignedNumber neg (d :: ds) = Some n.
Proof.
  intros D Hd. unfold JSON.unsignedNumber. rewrite (spanDigits_all _ D).
  apply N.eqb_neq in Hd. rewrite Hd. cbn [andb]. eexists; reflexivity.
Qed.

Lemma unsigned_fraction neg d ip fp :
  forallb JSON.isDigit (d :: ip) = true -> (d <> 48%N \/ ip = []) ->
  forallb JSON.isDigit fp = true -> fp <> [] ->
  exists n, JSON.unsignedNumber neg ((d :: ip) ++ 46%N :: fp) = Some n.
Proof.
  intros D Hd F NF. unfold JSON.unsignedNumber.
  rewrite (spanDigits_app _ _ D) by reflexivity.
  assert (G : (d =? 48)%N && negb (isEmpty ip) = false).
  { destruct Hd as [Hd | ->]; [apply N.eqb_neq in Hd; rewrite Hd; reflexivity|].
    cbn. apply andb_false_r. }
  rewrite G. change ((46 =? 46)%N) with true. cbv iota.
  rewrite (spanDigits_all _ F). destruct fp as [|c fp]; [congruence|].
  cbn [JSON.exponentPart]. eexists; reflexivity.
Qed.

Lemma unsigned_exponent neg d fp (b : bool) m :
  JSON.isDigit d = true ->
  forallb JSON.isDigit fp = true ->
  exists n,
    JSON.unsignedNumber neg
      (d :: (match fp with [] => [] | _ => 46%N :: fp end)
         ++ 101%N :: (if b then str "-" else str "+") ++ digitsOfN m)
    = Some n.
Proof.
  intros D F. destruct (exponentPart_signed b m) as [e He].
  unfold JSON.unsignedNumber.
  destruct fp as [|c fp].
  - cbn [app]. change (d :: 101%N :: ?r) with ([d] ++ 101%N :: r).
    rewrite spanDigits_app; [| cbn; rewrite D; reflexivity | reflexivity].
    cbn [isEmpty negb andb]. rewrite andb_false_r.
    change ((101 =? 46)%N) with false. cbv iota. rewrite He.
    eexists; reflexivity.
  - change (d :: (46%N :: c :: fp) ++ ?r) with ([d] ++ 46%N :: (c :: fp) ++ r).
    rewrite spanDigits_app; [| cbn; rewrite D; reflexivity | reflexivity].
    cbn [isEmpty negb andb]. rewrite andb_false_r.
    change ((46 =? 46)%N) with true. cbv iota.
    rewrite (spanDigits_app _ _ F) by reflexivity. rewrite He.
    eexists; reflexivity.
Qed.

Lemma placeDigits_token d ds n :
  forallb JSON.isDigit (d :: ds) = true -> d <> 48%N ->
  exists c r,
    JSON.placeDigits (d :: ds) n = c :: r
    /\ JSON.isDigit c = true
    /\ forallb JSON.isNumChar (c :: r) = true
    /\ forall neg, exists x, JSON.unsignedNumber neg (c :: r) = Some x.
Proof.
  intros D Hd. unfold JSON.placeDigits.
  assert (Dd : JSON.isDigit d = true /\ forallb JSON.isDigit ds = true)
    by (cbn [forallb] in D; apply andb_true_iff in D; exact D).
  destruct Dd as [Dd Ds].
  set (k := Z.of_nat (List.length (d :: ds))).
  destruct ((k <=? n) && (n <=? 21)) eqn:Ca.
  { (* digits, then zeros *)
    exists d, (ds ++ repeat 48%N (Z.to_nat (n - k))).
    assert (A : forallb JSON.isDigit (d :: ds ++ repeat 48%N (Z.to_nat (n - k)))
                = true).
    { cbn [forallb]. rewrite Dd, forallb_app, Ds, forallb_repeat_zero.
      reflexivity. }
    repeat split; auto using forallb_digits_numchars.
    intros neg. apply unsigned_integer; assumption. }
  destruct ((0 <? n) && (n <=? 21)) eqn:Cb.
  { (* the point inside the digits *)
    apply andb_true_iff in Cb. destruct Cb as [Cb1 Cb2].
    apply Z.ltb_lt in Cb1. apply Z.leb_le in Cb2.
    assert (Hn : n < k).
    { apply andb_false_iff in Ca. rewrite Z.leb_gt, Z.leb_gt in Ca. lia. }
    destruct (Z.to_nat n) as [|p] eqn:Ep; [lia|].
    assert (Hp : (p < List.length ds)%nat).
    { unfold k in Hn. cbn [List.length] in Hn. lia. }
    cbn [firstn skipn app]. change (str ".") with [46%N]. cbn [app].
    exists d, (firstn p ds ++ 46%N :: skipn p ds).
    assert (F : forallb JSON.isDigit (firstn p ds) = true).
    { rewrite <- (firstn_skipn p ds), forallb_app in Ds.
      apply andb_true_iff in Ds. tauto. }
    assert (S : forallb JSON.isDigit (skipn p ds) = true).
    { rewrite <- (firstn_skipn p ds), forallb_app in Ds.
      apply andb_true_iff in Ds. tauto. }
    split; [reflexivity|]. split; [assumption|]. split.
    - cbn [forallb]. rewrite (isDigit_isNumChar _ Dd), forallb_app.
      rewrite (forallb_digits_numchars _ F). cbn [forallb].
      rewrite (forallb_digits_numchars _ S). reflexivity.
    - intros neg.
      apply (unsigned_fraction neg d (firstn p ds) (skipn p ds)); auto.
      + cbn [forallb]. rewrite Dd, F. reflexivity.
      + intros E0. apply (f_equal (@List.length N)) in E0.
        rewrite length_skipn in E0. cbn in E0. lia. }
  destruct ((-6 <? n) && (n <=? 0)) eqn:Cc.
  { (* zero, the point, zeros, then the digits *)
    change (str "0.") with [48%N; 46%N]. cbn [app].
    exists 48%N, (46%N :: repeat 48%N (Z.to_nat (- n)) ++ d :: ds).
    assert (F : forallb JSON.isDigit (repeat 48%N (Z.to_nat (- n)) ++ d :: ds)
                = true).
    { rewrite forallb_app, forallb_repeat_zero. exact D. }
    split; [reflexivity|]. split; [reflexivity|]. split.
    - cbn [forallb]. rewrite (forallb_digits_numchars _ F). reflexivity.
    - intros neg.
      apply (unsigned_fraction neg 48%N [] _); auto.
      intros E0. apply (f_equal (@List.length N)) in E0.
      rewrite length_app in E0. cbn in E0. lia. }
  (* one digit, the others after the point, and the exponent *)
  set (b := n - 1 <? 0). set (m := Z.abs_N (n - 1)).
  change (str "e") with [101%N]. change (str ".") with [46%N].
  exists d, ((match ds with [] => [] | _ => 46%N :: ds end)
             ++ 101%N :: (if b then str "-" else str "+") ++ digitsOfN m).
  split; [destruct ds; reflexivity|]. split; [assumption|]. split.
  - destruct (digitsOfN_spec m) as (e0 & es & E & De & _). rewrite E.
    cbn [forallb]. rewrite (isDigit_isNumChar _ Dd), forallb_app.
    assert (X : forallb JSON.isNumChar
                  (101%N :: (if b then str "-" else str "+") ++ e0 :: es) = true).
    { cbn [forallb]. rewrite forallb_app, (forallb_digits_numchars _ De).
      destruct b; reflexivity. }
    rewrite X, andb_true_r. cbn [andb].
    destruct ds as [|c ds']; [reflexivity|].
    pose proof (forallb_digits_numchars _ Ds) as Hs.
    cbn [forallb] in Hs |- *. rewrite Hs. reflexivity.
  - intros neg. apply unsigned_exponent; assumption.
Qed.

Lemma NumberToString_token x :
  exists c r n,
    JSON.NumberToString x = c :: r
    /\ (JSON.isDigit c = true \/ c = 45%N)
    /\ forallb JSON.isNumChar (c :: r) = true
    /\ JSON.numberOfToken (c :: r) = Some n.
Proof.
  unfold JSON.NumberToString.
  destruct (N.eqb_spec (mantissa x) 0) as [E0 | N0].
  { exists 48%N, []. eexists. split; [reflexivity|].
    split; [left; reflexivity|]. split; reflexivity. }
  destruct (digitsOfN_spec (mantissa x)) as (d & ds & E & D & Hd).
  rewrite E. cbv zeta.
  destruct (placeDigits_token d ds (Z.of_nat (List.length (d :: ds)) + exponent x)
              D (Hd N0)) as (c & r & P & Dc & NC & U).
  rewrite P. destruct (negative x).
  - destruct (U true) as [n Hn]. exists 45%N, (c :: r), n.
    change (str "-" ++ c :: r) with (45%N :: c :: r).
    split; [reflexivity|]. split; [right; reflexivity|]. split.
    + change (forallb JSON.isNumChar (45%N :: c :: r))
        with (true && forallb JSON.isNumChar (c :: r)).
      rewrite NC. reflexivity.
    + exact Hn.
  - destruct (U false) as [n Hn]. exists c, r, n. cbn [app].
    split; [reflexivity|]. split; [left; exact Dc|]. split; [exact NC|].
    unfold JSON.numberOfToken.
    destruct (N.eqb_spec c 45) as [-> | _]; [discriminate Dc | exact Hn].
Qed.

(** ** String tokens *)

Lemma hexVal_hexDigit n : (n < 16)%N -> JSON.hexVal (JSON.hexDigit n) = Some n.
Proof.
  intros H. unfold JSON.hexDigit, JSON.hexVal.
  destruct (N.ltb_spec n 10).
  - destruct (N.leb_spec 48 (48 + n)); [|lia].
    destruct (N.leb_spec (48 + n) 57); [|lia].
    cbn [andb]. f_equal. lia.
  - destruct (N.leb_spec 48 (87 + n)); [|lia].
    destruct (N.leb_spec (87 + n) 57); [lia|].
    destruct (N.leb_spec 97 (87 + n)); [|lia].
    destruct (N.leb_spec (87 + n) 102); [|lia].
    cbn [andb]. f_equal. lia.
Qed.

Lemma hex4Val_hex4 c :
  (c < 65536)%N ->
  match JSON.hex4 c with
  | [a; b; c'; d] => JSON.hex4Val a b c' d = Some c
  | _ => False
  end.
Proof.
  intros H. unfold JSON.hex4, JSON.hex4Val.
  rewrite !hexVal_hexDigit by (apply N.mod_upper_bound; discriminate).
  f_equal.
  change 4096%N with (16 * 16 * 16)%N. change 256%N with (16 * 16)%N.
  rewrite <- !N.Div0.div_div.
  pose proof (N.div_mod c 16 ltac:(discriminate)) as E0.
  pose proof (N.div_mod (c / 16) 16 ltac:(discriminate)) as E1.
  pose proof (N.div_mod (c / 16 / 16) 16 ltac:(discriminate)) as E2.
  assert (E3 : (c / 16 / 16 / 16 < 16)%N).
  { rewrite !N.Div0.div_div. apply N.Div0.div_lt_upper_bound. exact H. }
  rewrite (N.mod_small (c / 16 / 16 / 16) 16 E3).
  generalize dependent (c mod 16)%N. generalize dependent (c / 16 mod 16)%N.
  generalize dependent (c / 16 / 16 mod 16)%N.
  generalize dependent (c / 16 / 16 / 16)%N.
  generalize dependent (c / 16 / 16)%N. generalize dependent (c / 16)%N.
  intros. lia.
Qed.

Lemma parseChars_literal c X :
  (32 <= c)%N -> c <> 34%N -> c <> 92%N ->
  JSON.parseChars (c :: X) = JSON.consChar c (JSON.parseChars X).
Proof.
  intros H1 H2 H3. cbn [JSON.parseChars].
  apply N.eqb_neq in H2, H3. rewrite H2, H3.
  destruct (N.ltb_spec c 32); [lia|]. reflexivity.
Qed.

Lemma parseChars_escapeU c X :
  (c < 65536)%N ->
  JSON.parseChars (JSON.escapeU c ++ X) = JSON.consChar c (JSON.parseChars X).
Proof.
  intros H. pose proof (hex4Val_hex4 c H) as E. unfold JSON.escapeU.
  destruct (JSON.hex4 c) as [|a [|b [|c' [|d [|? ?]]]]]; try contradiction.
  cbn [app JSON.parseChars].
  change ((92 =? 34)%N) with false. change ((92 =? 92)%N) with true.
  change ((117 =? 117)%N) with true. cbv iota. rewrite E. reflexivity.
Qed.

Lemma parseChars_quoteUnit c X :
  JSON.parseChars (JSON.quoteUnit c ++ X) = JSON.consChar c (JSON.parseChars X).
Proof.
  unfold JSON.quoteUnit.
  destruct (N.eqb_spec c 8) as [-> | ?]; [reflexivity|].
  destruct (N.eqb_spec c 9) as [-> | ?]; [reflexivity|].
  destruct (N.eqb_spec c 10) as [-> | ?]; [reflexivity|].
  destruct (N.eqb_spec c 12) as [-> | ?]; [reflexivity|].
  destruct (N.eqb_spec c 13) as [-> | ?]; [reflexivity|].
  destruct (N.eqb_spec c 34) as [-> | ?]; [reflexivity|].
  destruct (N.eqb_spec c 92) as [-> | ?]; [reflexivity|].
  destruct (N.ltb_spec c 32); [apply parseChars_escapeU; lia|].
  destruct (JSON.isHighSurrogate c || JSON.isLowSurrogate c) eqn:S.
  - apply parseChars_escapeU.
    unfold JSON.isHighSurrogate, JSON.isLowSurrogate in S.
    apply orb_true_iff in S. destruct S as [S | S]; N_bools; lia.
  - cbn [app]. apply parseChars_literal; assumption.
Qed.

Lemma parseChars_quoteChars s : forall rest,
  JSON.parseChars (JSON.quoteChars s ++ 34%N :: rest) = Some (s, rest).
Proof.
  assert (G : forall s,
            (forall rest,
               JSON.parseChars (JSON.quoteChars s ++ 34%N :: rest)
               = Some (s, rest))
            /\ (forall c rest,
                  JSON.parseChars (JSON.quoteChars (c :: s) ++ 34%N :: rest)
                  = Some (c :: s, rest))).
  { clear s. intros s. induction s as [|d s [IH1 IH2]].
    - split; [reflexivity|]. intros c rest. cbn [JSON.quoteChars].
      destruct (JSON.isHighSurrogate c);
        [|rewrite app_nil_r]; rewrite parseChars_quoteUnit; reflexivity.
    - split; [exact (IH2 d)|]. intros c rest.
      change (JSON.quoteChars (c :: d :: s))
        with (if JSON.isHighSurrogate c
              then if JSON.isLowSurrogate d
                   then c :: d :: JSON.quoteChars s
                   else JSON.quoteUnit c ++ JSON.quoteChars (d :: s)
              else JSON.quoteUnit c ++ JSON.quoteChars (d :: s)).
      destruct (JSON.isHighSurrogate c) eqn:Hc.
      + destruct (JSON.isLowSurrogate d) eqn:Hd.
        * unfold JSON.isHighSurrogate in Hc. unfold JSON.isLowSurrogate in Hd.
          N_bools. cbn [app].
          rewrite parseChars_literal by lia.
          rewrite parseChars_literal by lia.
          rewrite IH1. reflexivity.
        * rewrite <- app_assoc, parseChars_quoteUnit, IH2. reflexivity.
      + rewrite <- app_assoc, parseChars_quoteUnit, IH2. reflexivity. }
  intros rest. apply G.
Qed.

(** ** Values *)

Lemma value_ind (P : value -> Prop) :
  P JNull -> (forall b, P (JBool b)) -> (forall n, P (JNumber n)) ->
  (forall s, P (JString s)) ->
  (forall l, Forall P l -> P (JArray l)) ->
  (forall ps, Forall (fun p => P (snd p)) ps -> P (JObject ps)) ->
  forall v, P v.
Proof.
  intros HN HB HNum HS HA HO.
  fix IH 1. intros [| b | n | s | l | ps].
  - exact HN.
  - apply HB.
  - apply HNum.
  - apply HS.
  - apply HA. induction l as [|x l IHl]; constructor; [apply IH | exact IHl].
  - apply HO. induction ps as [|p ps IHps]; constructor;
      [apply IH | exact IHps].
Qed.

Lemma startsValue_facts c :
  JSON.startsValue c = true ->
  JSON.isJsonWs c = false /\ (c =? 93)%N = false /\ (c =? 125)%N = false.
Proof.
  unfold JSON.startsValue, JSON.isDigit, JSON.isJsonWs. intros H.
  repeat (apply orb_true_iff in H; destruct H as [H | H]);
    N_bools; subst; repeat split; N_decide.
Qed.

Lemma stringify_starts v :
  exists c r, JSON.stringify v = c :: r /\ JSON.startsValue c = true.
Proof.
  destruct v as [| [|] | n | s | l | ps]; cbn [JSON.stringify];
    try (eexists _, _; split; reflexivity).
  destruct (NumberToString_token n) as (c & r & x & E & [D | ->] & _).
  - exists c, r. split; [exact E|]. unfold JSON.startsValue. rewrite D. reflexivity.
  - exists 45%N, r. split; [exact E|]. reflexivity.
Qed.

Lemma readsBack_number n : JSON.readsBack (JNumber n).
Proof.
  intros fuel rest Hf Hr. cbn [JSON.stringify].
  destruct fuel as [|f]; [cbn in Hf; lia|].
  destruct (NumberToString_token n) as (c & r & x & E & D & NC & T).
  rewrite E. exists (JNumber x). split; [|reflexivity].
  assert (W : JSON.isJsonWs c = false /\ (c =? 123)%N = false
              /\ (c =? 91)%N = false /\ (c =? 34)%N = false
              /\ (c =? 110)%N = false /\ (c =? 116)%N = false
              /\ (c =? 102)%N = false).
  { unfold JSON.isJsonWs. destruct D as [D | ->].
    - apply isDigit_spec in D. repeat split; N_decide.
    - repeat split; reflexivity. }
  destruct W as (W0 & W1 & W2 & W3 & W4 & W5 & W6).
  cbn [JSON.parseJsonValue app JSON.skipWs]. rewrite W0, W1, W2, W3, W4, W5, W6.
  change (c :: r ++ rest) with ((c :: r) ++ rest).
  rewrite (spanNum_app _ _ NC Hr), T. reflexivity.
Qed.

Lemma readsBack_string s : JSON.readsBack (JString s).
Proof.
  intros fuel rest Hf Hr. destruct fuel as [|f]; [cbn in Hf; lia|].
  exists (JString s). split; [|reflexivity].
  cbn [JSON.stringify]. unfold JSON.quote.
  cbn [app JSON.parseJsonValue JSON.skipWs].
  change (JSON.isJsonWs 34) with false. cbv iota.
  change ((34 =? 123)%N) with false. change ((34 =? 91)%N) with false.
  change ((34 =? 34)%N) with true. cbv iota.
  rewrite <- app_assoc. cbn [app].
  rewrite parseChars_quoteChars. reflexivity.
Qed.

Lemma joinComma_cons x y l :
  JSON.joinComma (x :: y :: l) = x ++ 44%N :: JSON.joinComma (y :: l).
Proof. reflexivity. Qed.

Lemma skipWs_starts v X :
  JSON.skipWs (JSON.stringify v ++ X) = JSON.stringify v ++ X.
Proof.
  destruct (stringify_starts v) as (c & r & E & S). rewrite E.
  destruct (startsValue_facts c S) as (W & _). cbn [app JSON.skipWs].
  rewrite W. reflexivity.
Qed.

Lemma reads_elements l : forall fuel acc rest,
  l <> [] -> Forall JSON.readsBack l -> (JSON.needElems l <= fuel)%nat ->
  exists v',
    JSON.parseElements fuel
      (JSON.joinComma (map JSON.stringify l) ++ 93%N :: rest) acc
    = Some (v', rest)
    /\ JSON.isObject v' = false.
Proof.
  induction l as [|x l IH]; intros fuel acc rest NE F Hf; [congruence|].
  inversion F as [|? ? Fx Fl]; subst.
  destruct fuel as [|f]; [cbn in Hf; lia|].
  cbn [JSON.needElems fold_right] in Hf. fold (JSON.needElems l) in Hf.
  destruct l as [|y l].
  - cbn [map JSON.joinComma JSON.parseElements].
    destruct (Fx f (93%N :: rest) ltac:(lia) eq_refl) as (v' & E & _).
    rewrite E. cbn [JSON.skipWs]. change (JSON.isJsonWs 93) with false.
    cbv iota. change ((93 =? 44)%N) with false. change ((93 =? 93)%N) with true.
    cbv iota. eexists. split; reflexivity.
  - cbn [map]. rewrite joinComma_cons, <- app_assoc. cbn [app].
    cbn [JSON.parseElements].
    destruct (Fx f (44%N :: JSON.joinComma (JSON.stringify y :: map JSON.stringify l)
                      ++ 93%N :: rest) ltac:(lia) eq_refl) as (v' & E & _).
    rewrite E. cbn [JSON.skipWs]. change (JSON.isJsonWs 44) with false.
    cbv iota. change ((44 =? 44)%N) with true. cbv iota.
    apply (IH f (v' :: acc) rest); [discriminate | exact Fl | lia].
Qed.

Lemma reads_members ps : forall fuel acc rest,
  ps <> [] -> Forall (fun p => JSON.readsBack (snd p)) ps ->
  (JSON.needMembers ps <= fuel)%nat ->
  exists v',
    JSON.parseMembers fuel
      (JSON.joinComma (map JSON.memberText ps) ++ 125%N :: rest) acc
    = Some (v', rest)
    /\ JSON.isObject v' = true.
Proof.
  induction ps as [|[k x] ps IH]; intros fuel acc rest NE F Hf; [congruence|].
  inversion F as [|? ? Fx Fl]; subst. cbn [snd] in Fx.
  destruct fuel as [|f]; [cbn in Hf; lia|].
  cbn [JSON.needMembers fold_right snd] in Hf. fold (JSON.needMembers ps) in Hf.
  assert (Step : forall X,
            JSON.delimited X = true ->
            exists v',
              JSON.parseMembers (S f) (JSON.memberText (k, x) ++ X) acc
              = match JSON.skipWs X with
                | [] => None
                | c3 :: r4 =>
                    if (c3 =? 44)%N
                    then JSON.parseMembers f r4 (JSON.defineProp k v' acc)
                    else if (c3 =? 125)%N
                    then Some (JObject (JSON.defineProp k v' acc), r4)
                    else None
                end).
  { intros X HX. destruct (Fx f X ltac:(lia) HX) as (v' & E & _).
    exists v'. unfold JSON.memberText, JSON.quote. cbn [fst snd].
    rewrite <- !app_assoc. cbn [app JSON.parseMembers JSON.skipWs].
    change (JSON.isJsonWs 34) with false. cbv iota.
    change ((34 =? 34)%N) with true. cbv iota.
    rewrite <- app_assoc. cbn [app]. rewrite parseChars_quoteChars.
    cbn [JSON.skipWs]. change (JSON.isJsonWs 58) with false. cbv iota.
    change ((58 =? 58)%N) with true. cbv iota. rewrite E. reflexivity. }
  destruct ps as [|q ps].
  - cbn [map JSON.joinComma].
    destruct (Step (125%N :: rest) eq_refl) as (v' & E). rewrite E.
    cbn [JSON.skipWs]. change (JSON.isJsonWs 125) with false. cbv iota.
    change ((125 =? 44)%N) with false. change ((125 =? 125)%N) with true.
    cbv iota. eexists. split; reflexivity.
  - cbn [map]. rewrite joinComma_cons, <- app_assoc. cbn [app].
    destruct (Step (44%N :: JSON.joinComma (JSON.memberText q :: map JSON.memberText ps)
                      ++ 125%N :: rest) eq_refl) as (v' & E).
    rewrite E. cbn [JSON.skipWs]. change (JSON.isJsonWs 44) with false.
    cbv iota. change ((44 =? 44)%N) with true. cbv iota.
    apply (IH f (JSON.defineProp k v' acc) rest); [discriminate | exact Fl | lia].
Qed.

Lemma stringify_object ps :
  JSON.stringify (JObject ps)
  = 123%N :: JSON.joinComma (map JSON.memberText ps) ++ [125%N].
Proof. reflexivity. Qed.

Lemma stringify_array l :
  JSON.stringify (JArray l)
  = 91%N :: JSON.joinComma (map JSON.stringify l) ++ [93%N].
Proof. reflexivity. Qed.

Theorem stringify_readsBack v : JSON.readsBack v.
Proof.
  induction v as [| b | n | s | l IH | ps IH] using value_ind.
  - intros [|f] rest Hf Hr; [cbn in Hf; lia|]. exists JNull. split; reflexivity.
  - intros [|f] rest Hf Hr; [cbn in Hf; lia|]. exists (JBool b).
    destruct b; split; reflexivity.
  - apply readsBack_number.
  - apply readsBack_string.
  - intros [|f] rest Hf Hr; [cbn in Hf; lia|].
    cbn [JSON.need] in Hf. fold (JSON.needElems l) in Hf.
    rewrite stringify_array, <- app_comm_cons, <- app_assoc.
    cbn [app JSON.parseJsonValue JSON.skipWs].
    change (JSON.isJsonWs 91) with false. cbv iota.
    change ((91 =? 123)%N) with false. change ((91 =? 91)%N) with true.
    cbv iota.
    destruct l as [|x l].
    + cbn [map JSON.joinComma app JSON.skipWs].
      change (JSON.isJsonWs 93) with false. cbv iota.
      change ((93 =? 93)%N) with true. cbv iota.
      eexists. split; reflexivity.
    + destruct (reads_elements (x :: l) f [] rest ltac:(discriminate) IH
                  ltac:(lia)) as (v' & E & O).
      assert (Hd : exists c r,
                 JSON.joinComma (map JSON.stringify (x :: l)) ++ 93%N :: rest
                 = c :: r /\ JSON.startsValue c = true).
      { destruct (stringify_starts x) as (c & r & Ex & Sx).
        destruct l; cbn [map]; [cbn [JSON.joinComma]|rewrite joinComma_cons];
          rewrite Ex; eexists _, _; split; try reflexivity; exact Sx. }
      destruct Hd as (c & r & Ec & Sc). rewrite Ec in E |- *.
      destruct (startsValue_facts c Sc) as (W & W93 & _).
      cbn [JSON.skipWs]. rewrite W, W93, E. exists v'. split; [reflexivity|].
      rewrite O. reflexivity.
  - intros [|f] rest Hf Hr; [cbn in Hf; lia|].
    cbn [JSON.need] in Hf. fold (JSON.needMembers ps) in Hf.
    rewrite stringify_object, <- app_comm_cons, <- app_assoc.
    cbn [app JSON.parseJsonValue JSON.skipWs].
    change (JSON.isJsonWs 123) with false. cbv iota.
    change ((123 =? 123)%N) with true. cbv iota.
    destruct ps as [|p ps].
    + cbn [map JSON.joinComma app JSON.skipWs].
      change (JSON.isJsonWs 125) with false. cbv iota.
      change ((125 =? 125)%N) with true. cbv iota.
      eexists. split; reflexivity.
    + destruct (reads_members (p :: ps) f [] rest ltac:(discriminate) IH
                  ltac:(lia)) as (v' & E & O).
      assert (Hd : exists r,
                 JSON.joinComma (map JSON.memberText (p :: ps)) ++ 125%N :: rest
                 = 34%N :: r).
      { destruct ps; cbn [map]; [cbn [JSON.joinComma]|rewrite joinComma_cons];
          unfold JSON.memberText at 1, JSON.quote; eexists; reflexivity. }
      destruct Hd as (r & Ec). rewrite Ec in E |- *.
      cbn [JSON.skipWs]. change (JSON.isJsonWs 34) with false. cbv iota.
      change ((34 =? 125)%N) with false. cbv iota.
      rewrite E. exists v'. split; [reflexivity|]. rewrite O. reflexivity.
Qed.

Lemma stringify_nonempty v : (1 <= List.length (JSON.stringify v))%nat.
Proof.
  destruct (stringify_starts v) as (c & r & E & _). rewrite E. cbn. lia.
Qed.

Lemma need_le_length v : (JSON.need v <= List.length (JSON.stringify v))%nat.
Proof.
  induction v as [| b | n | s | l IH | ps IH] using value_ind;
    try (apply (stringify_nonempty JNull));
    try (apply (stringify_nonempty (JBool b)));
    try (apply (stringify_nonempty (JNumber n)));
    try (apply (stringify_nonempty (JString s))).
  - rewrite stringify_array. cbn [JSON.need List.length]. fold (JSON.needElems l).
    rewrite length_app. cbn [List.length].
    assert (G : (JSON.needElems l
                 <= S (List.length (JSON.joinComma (map JSON.stringify l))))%nat).
    { induction l as [|x l IHl]; [cbn; lia|].
      inversion IH as [|? ? Hx Hl]; subst. specialize (IHl Hl).
      cbn [JSON.needElems fold_right]. fold (JSON.needElems l).
      destruct l as [|y l].
      - cbn [map JSON.joinComma JSON.needElems fold_right]. lia.
      - cbn [map]. rewrite joinComma_cons, length_app. cbn [List.length].
        cbn [map] in IHl. lia. }
    lia.
  - rewrite stringify_object. cbn [JSON.need List.length]. fold (JSON.needMembers ps).
    rewrite length_app. cbn [List.length].
    assert (G : (JSON.needMembers ps
                 <= S (List.length (JSON.joinComma (map JSON.memberText ps))))%nat).
    { induction ps as [|p ps IHl]; [cbn; lia|].
      inversion IH as [|? ? Hx Hl]; subst. specialize (IHl Hl).
      cbn [JSON.needMembers fold_right]. fold (JSON.needMembers ps).
      assert (Hp : (JSON.need (snd p) <= List.length (JSON.memberText p))%nat).
      { unfold JSON.memberText. rewrite length_app. cbn [List.length]. lia. }
      destruct ps as [|q ps].
      - cbn [map JSON.joinComma JSON.needMembers fold_right]. lia.
      - cbn [map]. rewrite joinComma_cons, length_app. cbn [List.length].
        cbn [map] in IHl. lia. }
    lia.
Qed.

Theorem parse_stringify v :
  exists v',
    JSON.parse (JSON.stringify v) = Some v'
    /\ JSON.isObject v' = JSON.isObject v.
Proof.
  unfold JSON.parse.
  destruct (stringify_readsBack v (S (List.length (JSON.stringify v))) []
              ltac:(pose proof (need_le_length v); lia) eq_refl)
    as (v' & E & O).
  rewrite app_nil_r in E. rewrite E. exists v'. split; [reflexivity | exact O].
Qed.

(** ** The key-value editor *)

Lemma syncHidden_hidden w :
  (exists ps, syncHidden w = Done (set_hidden (JSON.stringify (JObject ps)) w))
  \/ syncHidden w = TypeError w.
Proof.
  unfold syncHidden. destruct (forEachRow (rows w) _) as [data|].
  - left. exists (own data). reflexivity.
  - right. reflexivity.
Qed.

Lemma holdsObject_stringify ps rs l :
  holdsObject (mkWidget (JSON.stringify (JObject ps)) rs l).
Proof.
  destruct (parse_stringify (JObject ps)) as (v' & E & O).
  destruct v'; try discriminate O. eexists. exact E.
Qed.

Lemma holdsObject_syncHidden w w' :
  hidden w' = hidden w -> holdsObject w -> holdsObject (stateOf (syncHidden w')).
Proof.
  intros Eh H. destruct (syncHidden_hidden w') as [[ps ->] | ->]; cbn [stateOf].
  - apply holdsObject_stringify.
  - unfold holdsObject in *. rewrite Eh. exact H.
Qed.

Lemma holdsObject_handle w e :
  holdsObject w -> holdsObject (stateOf (handle w e)).
Proof.
  intros H. destruct e as [i f text | i | |]; cbn [handle].
  - cbn [listening set_rows]. destruct (listening w).
    + apply (holdsObject_syncHidden w); [reflexivity | exact H].
    + exact H.
  - destruct (listening w && (i <? List.length (rows w))%nat).
    + apply (holdsObject_syncHidden w); [reflexivity | exact H].
    + exact H.
  - destruct (listening w).
    + apply (holdsObject_syncHidden w); [reflexivity | exact H].
    + exact H.
  - apply (holdsObject_syncHidden w); [reflexivity | exact H].
Qed.

Lemma holdsObject_run es : forall w,
  holdsObject w -> holdsObject (run w es).
Proof.
  induction es as [|e es IH]; intros w H; [exact H|].
  apply IH. apply holdsObject_handle. exact H.
Qed.

Lemma indexed_nil l : indexed l = [] -> l = [].
Proof. destruct l; [reflexivity | discriminate]. Qed.

Lemma init_blank h rs0 :
  entries (match JSON.parse (if isEmpty h then str "{}" else h) with
           | Some v => v
           | None => JObject []
           end) = Some [] ->
  init (mkWidget h rs0 false)
  = Done (mkWidget (str "{}") [mkRow [] []] true).
Proof.
  intros E. unfold init, loadInitial. cbn [hidden]. rewrite E. reflexivity.
Qed.

Lemma holdsObject_init h rs0 :
  startsWell h -> holdsObject (stateOf (init (mkWidget h rs0 false))).
Proof.
  unfold startsWell. intros SW.
  destruct (entries (match JSON.parse (if isEmpty h then str "{}" else h) with
                     | Some v => v
                     | None => JObject []
                     end)) as [[|e es]|] eqn:E.
  - rewrite (init_blank h rs0 E). exists []. reflexivity.
  - unfold init, loadInitial. cbn [hidden]. rewrite E.
    cbn [set_rows map rows hidden stateOf].
    destruct (JSON.parse (if isEmpty h then str "{}" else h))
      as [[| b | n | s | l | ps]|] eqn:P; try contradiction;
      cbn [entries] in E; try discriminate E.
    + destruct s; [discriminate E | contradiction].
    + destruct l; [discriminate E | contradiction].
    + destruct h as [|c h]; [vm_compute in P; injection P as <-; discriminate E|].
      exists ps. exact P.
  - destruct (JSON.parse (if isEmpty h then str "{}" else h))
      as [[| b | n | s | l | ps]|]; try contradiction; discriminate E.
Qed.

(** C9, amended.  When the initial text of the hidden input is not the
    text of [null], of an array with elements or of a string with characters,
    the hidden input holds the text of a JSON object after [init] and after
    any sequence of events; with an empty or unparseable initial text [init]
    leaves one blank row and the text [{}]. *)
Theorem hidden_holdsObject h rs0 es :
  startsWell h ->
  let w := stateOf (init (mkWidget h rs0 false)) in
  holdsObject w
  /\ holdsObject (run w es)
  /\ (h = [] \/ JSON.parse h = None ->
      init (mkWidget h rs0 false)
      = Done (mkWidget (str "{}") [mkRow [] []] true)).
Proof.
  intros SW. cbv zeta.
  split; [apply holdsObject_init; exact SW|].
  split; [apply holdsObject_run, holdsObject_init; exact SW|].
  intros [-> | P]; apply init_blank.
  - reflexivity.
  - destruct h as [|c h]; [reflexivity|]. cbn [isEmpty]. rewrite P. reflexivity.
Qed.

Lemma hidden_holdsObject_witness :
  startsWell (str "{ }")
  /\ holdsObject
       (run (stateOf (init (mkWidget (str "{ }") [] false)))
          [InputEvent 0 KeyField (str "k"); AddClick; RemoveClick 0])
  /\ startsWell (str "oops") /\ JSON.parse (str "oops") = None
  /\ init (mkWidget (str "oops") [] false)
     = Done (mkWidget (str "{}") [mkRow [] []] true).
Proof.
  split; [exact I|]. split.
  - apply (hidden_holdsObject (str "{ }") []
             [InputEvent 0 KeyField (str "k"); AddClick; RemoveClick 0]).
    exact I.
  - split; [exact I|]. split; [reflexivity|].
    apply (hidden_holdsObject (str "oops") [] [] I).
    right. reflexivity.
Defined.


(** C9 as stated fails: with the initial text [[1]], [init] builds one row
    and leaves the hidden input as it was, which is the text of an array. *)
Lemma init_keeps_array_text :
  let w := stateOf (init (mkWidget (str "[1]") [] false)) in
  hidden w = str "[1]"
  /\ rows w = [mkRow (str "0") (str "1")]
  /\ ~ holdsObject w.
Proof.
  cbv zeta. split; [reflexivity|]. split; [reflexivity|].
  intros [ps H]. vm_compute in H. discriminate H.
Qed.

(** C5. Loading the text of [{"a":1,"b":"x"}] gives the rows
    [("a","1")] and [("b","x")], whatever rows the table had; resync of these
    rows writes that same text, whatever text the hidden input held before,
    and the text parses to the same document, keys in the same order. *)
Theorem load_resync_docAB :
  let text := str "{" ++ quoted "a" ++ str ":1," ++ quoted "b" ++ str ":"
              ++ quoted "x" ++ str "}" in
  let rowsAB := [mkRow (str "a") (str "1"); mkRow (str "b") (str "x")] in
  JSON.parse text = Some docAB
  /\ JSON.stringify docAB = text
  /\ (forall rs l,
        loadInitial (mkWidget text rs l) = Done (mkWidget text rowsAB l))
  /\ (forall h l,
        syncHidden (mkWidget h rowsAB l) = Done (mkWidget text rowsAB l))
  /\ forEachRow rowsAB (mkData [] ObjectPrototype)
     = Some (mkData [(str "a", JNumber (mkNumber false 1 0));
                     (str "b", JString (str "x"))] ObjectPrototype)
  /\ (forall h l,
        JSON.parse (hidden (stateOf (syncHidden (mkWidget h rowsAB l))))
        = Some docAB).
Proof. cbv zeta. repeat split; intros; vm_compute; reflexivity. Qed.

(** C1. On the rows [("a","1"), ("a","2")] resync writes [{"a":1}].  On
    the rows [("hasOwnProperty","1"), ("a","2")] the fold of the
    specification has two entries, but [syncHidden] throws at the second row
    and writes nothing; on the row [("__proto__","1")] the fold has one entry
    and [syncHidden] writes [{}]. *)
Theorem syncHidden_prototype_names :
  let one := JNumber (mkNumber false 1 0) in
  let two := JNumber (mkNumber false 2 0) in
  let rowsA := [mkRow (str "a") (str "1"); mkRow (str "a") (str "2")] in
  let rowsH := [mkRow (str "hasOwnProperty") (str "1"); mkRow (str "a") (str "2")] in
  let rowsP := [mkRow (str "__proto__") (str "1")] in
  (forall h l,
     syncHidden (mkWidget h rowsA l)
     = Done (mkWidget (str "{" ++ quoted "a" ++ str ":1}") rowsA l))
  /\ resyncSpec rowsH = [(str "hasOwnProperty", one); (str "a", two)]
  /\ (forall h l,
        syncHidden (mkWidget h rowsH l) = TypeError (mkWidget h rowsH l))
  /\ resyncSpec rowsP = [(str "__proto__", one)]
  /\ (forall h l,
        syncHidden (mkWidget h rowsP l) = Done (mkWidget (str "{}") rowsP l)).
Proof.
  cbv zeta. repeat split; intros; vm_compute; reflexivity.
Qed.

(** ** Where resync is the fold of the specification *)

Lemma eqb_str_eq a : forall b, eqb_str a b = true <-> a = b.
Proof.
  induction a as [|x a IH]; intros [|y b]; cbn [eqb_str];
    try (split; [discriminate | congruence]); [tauto|].
  rewrite andb_true_iff, N.eqb_eq, IH. split; [intros [-> ->] | intros [= -> ->]]; auto.
Qed.

Lemma eqb_str_refl a : eqb_str a a = true.
Proof. apply eqb_str_eq. reflexivity. Qed.

Lemma eqb_str_neq a b : eqb_str a b = false <-> a <> b.
Proof.
  rewrite <- (eqb_str_eq a b). destruct (eqb_str a b); split; congruence.
Qed.

Lemma hasProp_getProp k ps :
  JSON.hasProp k ps = match JSON.getProp k ps with Some _ => true | None => false end.
Proof.
  induction ps as [|[k' v] ps IH]; [reflexivity|].
  cbn [JSON.hasProp existsb JSON.getProp fst].
  destruct (eqb_str k k'); [reflexivity | exact IH].
Qed.

Lemma getProp_app k ps qs :
  JSON.getProp k (ps ++ qs)
  = match JSON.getProp k ps with
    | Some v => Some v
    | None => JSON.getProp k qs
    end.
Proof.
  induction ps as [|[k' v] ps IH]; [reflexivity|].
  cbn [app JSON.getProp]. destruct (eqb_str k k'); [reflexivity | exact IH].
Qed.

Lemma getProp_insertIndexed i key v k ps :
  JSON.hasProp key ps = false ->
  JSON.getProp k (JSON.insertIndexed i key v ps)
  = if eqb_str k key then Some v else JSON.getProp k ps.
Proof.
  induction ps as [|[k' v'] ps IH]; intros H.
  - cbn. destruct (eqb_str k key); reflexivity.
  - cbn [JSON.hasProp existsb fst] in H. apply orb_false_iff in H.
    destruct H as [H1 H2]. fold (JSON.hasProp key ps) in H2.
    cbn [JSON.insertIndexed].
    assert (G : JSON.getProp k ((key, v) :: (k', v') :: ps)
                = if eqb_str k key then Some v
                  else JSON.getProp k ((k', v') :: ps)) by reflexivity.
    destruct (JSON.arrayIndex k') as [j|]; [|exact G].
    destruct (j <? i)%N; [|exact G].
    cbn [JSON.getProp]. rewrite (IH H2).
    destruct (eqb_str k k') eqn:E; [|reflexivity].
    apply eqb_str_eq in E. subst k'.
    assert (E : eqb_str k key = false)
      by (apply eqb_str_neq; apply eqb_str_neq in H1; congruence).
    rewrite E. reflexivity.
Qed.

Lemma getProp_defineProp key v k ps :
  JSON.hasProp key ps = false ->
  JSON.getProp k (JSON.defineProp key v ps)
  = if eqb_str k key then Some v else JSON.getProp k ps.
Proof.
  intros H. unfold JSON.defineProp. rewrite H.
  destruct (JSON.arrayIndex key) as [i|].
  - apply getProp_insertIndexed. exact H.
  - rewrite getProp_app. cbn [JSON.getProp].
    destruct (JSON.getProp k ps) eqn:G; [|destruct (eqb_str k key); reflexivity].
    destruct (eqb_str k key) eqn:E; [|reflexivity].
    apply eqb_str_eq in E. subst k. rewrite hasProp_getProp, G in H. discriminate.
Qed.

Lemma forEachRow_resync rs : forall ownps doc,
  (forall k, JSON.getProp k ownps = JSON.getProp k doc) ->
  forallb plainKey rs = true ->
  JSON.hasProp (str "hasOwnProperty") ownps = false ->
  exists ownps',
    forEachRow rs (mkData ownps ObjectPrototype)
    = Some (mkData ownps' ObjectPrototype)
    /\ forall k, JSON.getProp k ownps' = JSON.getProp k (fold_left resyncStep rs doc).
Proof.
  induction rs as [|r rs IH]; intros ownps doc Eq Pl Ho.
  - exists ownps. split; [reflexivity | exact Eq].
  - cbn [forallb] in Pl. apply andb_true_iff in Pl. destruct Pl as [Pr Pl].
    unfold plainKey in Pr. apply andb_true_iff in Pr. destruct Pr as [P1 P2].
    apply negb_true_iff in P1, P2.
    cbn [forEachRow fold_left]. unfold resyncStep at 2. cbv zeta.
    destruct (isEmpty (trim (keyInput r))); [apply (IH ownps doc Eq Pl Ho)|].
    unfold hasOwnProperty. cbn [own proto inheritedBefore]. rewrite Ho.
    cbn [orb].
    assert (Hh : JSON.hasProp (trim (keyInput r)) ownps
                 = JSON.hasProp (trim (keyInput r)) doc)
      by (rewrite !hasProp_getProp, Eq; reflexivity).
    rewrite Hh.
    destruct (JSON.hasProp (trim (keyInput r)) doc) eqn:Hd;
      [apply (IH ownps doc Eq Pl Ho)|].
    unfold setProperty. cbn [own proto inheritedBefore]. rewrite Hh, P2.
    cbn [orb].
    apply IH; [|exact Pl|].
    + intros k. rewrite getProp_defineProp by exact Hh.
      rewrite getProp_app, <- Eq. cbn [JSON.getProp].
      destruct (JSON.getProp k ownps) eqn:G; [|destruct (eqb_str _ _); reflexivity].
      destruct (eqb_str k (trim (keyInput r))) eqn:E; [|reflexivity].
      apply eqb_str_eq in E. subst k. rewrite hasProp_getProp, G in Hh.
      discriminate.
    + rewrite hasProp_getProp, getProp_defineProp by exact Hh.
      assert (E : eqb_str (str "hasOwnProperty") (trim (keyInput r)) = false).
      { apply eqb_str_neq. apply eqb_str_neq in P1. congruence. }
      rewrite E, <- hasProp_getProp. exact Ho.
Qed.

(** X15. When no row has the key [hasOwnProperty] or [__proto__], resync
    returns and writes an object that maps each key to what the fold of the
    specification maps it to: the first row with that key, its value
    decoded. *)
Theorem syncHidden_plain_keys w :
  forallb plainKey (rows w) = true ->
  exists ps,
    syncHidden w = Done (set_hidden (JSON.stringify (JObject ps)) w)
    /\ forall k, JSON.getProp k ps = JSON.getProp k (resyncSpec (rows w)).
Proof.
  intros Pl.
  destruct (forEachRow_resync (rows w) [] [] (fun _ => eq_refl) Pl eq_refl)
    as (ps & E & G).
  exists ps. unfold syncHidden. rewrite E. split; [reflexivity | exact G].
Qed.

(** With keys that are no array indices either, the text that resync writes
    is the text of the fold itself, entries in the order of the rows. *)
Lemma forEachRow_resync_ordered rs : forall doc,
  forallb plainKey rs = true ->
  forallb (fun r => match JSON.arrayIndex (trim (keyInput r)) with
                    | Some _ => false
                    | None => true
                    end) rs = true ->
  JSON.hasProp (str "hasOwnProperty") doc = false ->
  forEachRow rs (mkData doc ObjectPrototype)
  = Some (mkData (fold_left resyncStep rs doc) ObjectPrototype).
Proof.
  induction rs as [|r rs IH]; intros doc Pl Ix Ho; [reflexivity|].
  cbn [forallb] in Pl, Ix.
  apply andb_true_iff in Pl. destruct Pl as [Pr Pl].
  apply andb_true_iff in Ix. destruct Ix as [Ir Ix].
  unfold plainKey in Pr. apply andb_true_iff in Pr. destruct Pr as [P1 P2].
  apply negb_true_iff in P1, P2.
  cbn [forEachRow fold_left]. unfold resyncStep at 2. cbv zeta.
  destruct (isEmpty (trim (keyInput r))); [apply (IH doc Pl Ix Ho)|].
  unfold hasOwnProperty. cbn [own proto inheritedBefore]. rewrite Ho.
  cbn [orb].
  destruct (JSON.hasProp (trim (keyInput r)) doc) eqn:Hd;
    [apply (IH doc Pl Ix Ho)|].
  unfold setProperty. cbn [own proto inheritedBefore]. rewrite Hd, P2.
  cbn [orb]. unfold JSON.defineProp. rewrite Hd.
  destruct (JSON.arrayIndex (trim (keyInput r))); [discriminate Ir|].
  apply IH; [exact Pl | exact Ix |].
  unfold JSON.hasProp. rewrite existsb_app.
  fold (JSON.hasProp (str "hasOwnProperty") doc).
  rewrite Ho. cbn [existsb fst orb].
  rewrite orb_false_r. apply eqb_str_neq. apply eqb_str_neq in P1. congruence.
Qed.

(** X16. When moreover no key is an array index, the text that resync
    writes is the text of the fold itself: the accepted rows in the order of
    the table. *)
Theorem syncHidden_named_keys w :
  forallb plainKey (rows w) = true ->
  forallb (fun r => match JSON.arrayIndex (trim (keyInput r)) with
                    | Some _ => false
                    | None => true
                    end) (rows w) = true ->
  syncHidden w
  = Done (set_hidden (JSON.stringify (JObject (resyncSpec (rows w)))) w).
Proof.
  intros Pl Ix. unfold syncHidden, resyncSpec.
  rewrite (forEachRow_resync_ordered (rows w) [] Pl Ix eq_refl). reflexivity.
Qed.

(** A row with an empty key is left out of the document. *)
Example syncHidden_empty_key h l :
  syncHidden (mkWidget h [mkRow (str "  ") (str "anything")] l)
  = Done (mkWidget (str "{}") [mkRow (str "  ") (str "anything")] l).
Proof. reflexivity. Qed.

Lemma syncHidden_plain_keys_witness :
  let w := mkWidget [] [mkRow (str "b") (str "x"); mkRow (str "0") (str "1");
                        mkRow (str " b") (str "2")] true in
  forallb plainKey (rows w) = true
  /\ exists ps,
       syncHidden w = Done (set_hidden (JSON.stringify (JObject ps)) w)
       /\ JSON.getProp (str "b") ps = Some (JString (str "x")).
Proof.
  cbv zeta.
  assert (Pl : forallb plainKey
                 (rows (mkWidget []
                          [mkRow (str "b") (str "x"); mkRow (str "0") (str "1");
                           mkRow (str " b") (str "2")] true)) = true)
    by reflexivity.
  split; [exact Pl|].
  destruct (syncHidden_plain_keys _ Pl) as (ps & E & G).
  exists ps. split; [exact E|]. rewrite G. reflexivity.
Defined.

Lemma syncHidden_named_keys_witness :
  let w := mkWidget [] [mkRow (str "b") (str "x"); mkRow (str "a") (str "1");
                        mkRow (str " b") (str "2")] true in
  forallb plainKey (rows w) = true
  /\ syncHidden w
     = Done (set_hidden (str "{" ++ quoted "b" ++ str ":" ++ quoted "x"
                         ++ str "," ++ quoted "a" ++ str ":1}") w).
Proof.
  cbv zeta.
  assert (Pl : forallb plainKey
                 (rows (mkWidget []
                          [mkRow (str "b") (str "x"); mkRow (str "a") (str "1");
                           mkRow (str " b") (str "2")] true)) = true)
    by reflexivity.
  split; [exact Pl|].
  rewrite (syncHidden_named_keys _ Pl eq_refl). reflexivity.
Defined.

(** * The range picker and the editor, handler by handler *)

(** * More on the quick ranges *)

(** ** The key: trimming and lower case *)

Lemma isWhiteSpace_lowerUnit c : isWhiteSpace (lowerUnit c) = isWhiteSpace c.
Proof.
  unfold lowerUnit.
  destruct (N.leb_spec 65 c); destruct (N.leb_spec c 90); cbn [andb];
    try destruct (N.eqb_spec c 8490); try reflexivity;
    unfold isWhiteSpace;
    repeat match goal with
    | |- context [(?a <=? ?b)%N] => destruct (N.leb_spec a b); try lia
    | |- context [(?a =? ?b)%N] => destruct (N.eqb_spec a b); try lia
    end; reflexivity.
Qed.

Lemma lowerUnit_idem c : lowerUnit (lowerUnit c) = lowerUnit c.
Proof.
  unfold lowerUnit.
  destruct (N.leb_spec 65 c); destruct (N.leb_spec c 90); cbn [andb];
    try destruct (N.eqb_spec c 8490);
    repeat match goal with
    | |- context [(?a <=? ?b)%N] => destruct (N.leb_spec a b); try lia
    | |- context [(?a =? ?b)%N] => destruct (N.eqb_spec a b); try lia
    end; cbn [andb]; try reflexivity; try lia.
Qed.

Lemma toLowerCase_idem s : toLowerCase (toLowerCase s) = toLowerCase s.
Proof.
  unfold toLowerCase. rewrite map_map. apply map_ext. apply lowerUnit_idem.
Qed.

Lemma trimStart_toLowerCase s :
  trimStart (toLowerCase s) = toLowerCase (trimStart s).
Proof.
  induction s as [|c s IH]; [reflexivity|].
  cbn [toLowerCase map trimStart]. rewrite isWhiteSpace_lowerUnit.
  destruct (isWhiteSpace c); [exact IH | reflexivity].
Qed.

Lemma trimEnd_toLowerCase s : trimEnd (toLowerCase s) = toLowerCase (trimEnd s).
Proof.
  unfold trimEnd. unfold toLowerCase at 1. rewrite <- map_rev.
  fold (toLowerCase (rev s)). rewrite trimStart_toLowerCase.
  unfold toLowerCase. rewrite map_rev. reflexivity.
Qed.

Lemma trim_toLowerCase s : trim (toLowerCase s) = toLowerCase (trim s).
Proof.
  unfold trim. rewrite trimStart_toLowerCase, trimEnd_toLowerCase. reflexivity.
Qed.

Lemma trimStart_app_ws pre s :
  forallb isWhiteSpace pre = true -> trimStart (pre ++ s) = trimStart s.
Proof.
  induction pre as [|c pre IH]; intros H; [reflexivity|].
  cbn [forallb] in H. apply andb_true_iff in H. destruct H as [Hc H].
  cbn [app trimStart]. rewrite Hc. exact (IH H).
Qed.

Lemma trimStart_idem s : trimStart (trimStart s) = trimStart s.
Proof.
  induction s as [|c s IH]; [reflexivity|]. cbn [trimStart].
  destruct (isWhiteSpace c) eqn:E; [exact IH|]. cbn [trimStart].
  rewrite E. reflexivity.
Qed.

Lemma startsClean_trimStart s : startsClean (trimStart s) = true.
Proof.
  induction s as [|c s IH]; [reflexivity|]. cbn [trimStart].
  destruct (isWhiteSpace c) eqn:E; [exact IH|]. cbn. rewrite E. reflexivity.
Qed.

Lemma trimStart_clean s : startsClean s = true -> trimStart s = s.
Proof.
  destruct s as [|c s]; [reflexivity|]. cbn. intros H.
  apply negb_true_iff in H. rewrite H. reflexivity.
Qed.

Lemma trimStart_app_clean s post :
  startsClean s = true -> s <> [] -> trimStart (s ++ post) = s ++ post.
Proof.
  destruct s as [|c s]; [congruence|]. cbn. intros H _.
  apply negb_true_iff in H. rewrite H. reflexivity.
Qed.

Lemma forallb_rev' (f : N -> bool) l : forallb f (rev l) = forallb f l.
Proof.
  induction l as [|c l IH]; [reflexivity|]. cbn [rev forallb].
  rewrite forallb_app, IH. cbn [forallb]. rewrite andb_true_r.
  apply andb_comm.
Qed.

Lemma trimEnd_app_ws s post :
  forallb isWhiteSpace post = true -> trimEnd (s ++ post) = trimEnd s.
Proof.
  intros H. unfold trimEnd. rewrite rev_app_distr, trimStart_app_ws; [reflexivity|].
  rewrite forallb_rev'. exact H.
Qed.

Lemma trimStart_all_ws s : forallb isWhiteSpace s = true -> trimStart s = [].
Proof.
  intros H. rewrite <- (app_nil_r s). rewrite trimStart_app_ws; auto.
Qed.

Lemma trimStart_suffix s :
  exists pre, s = pre ++ trimStart s /\ forallb isWhiteSpace pre = true.
Proof.
  induction s as [|c s (pre & E & W)]; [exists []; split; reflexivity|].
  cbn [trimStart]. destruct (isWhiteSpace c) eqn:Ec.
  - exists (c :: pre). cbn [app forallb]. rewrite Ec, W.
    split; [congruence | reflexivity].
  - exists []. split; reflexivity.
Qed.

(** Trimming the end keeps a clean start. *)
Lemma startsClean_trimEnd s :
  startsClean s = true -> startsClean (trimEnd s) = true.
Proof.
  intros H. unfold trimEnd.
  destruct (trimStart_suffix (rev s)) as (pre & E & W).
  apply (f_equal (@rev N)) in E. rewrite rev_involutive, rev_app_distr in E.
  destruct (rev (trimStart (rev s))) as [|c r] eqn:R; [reflexivity|].
  rewrite E in H. cbn in H |- *. exact H.
Qed.

Lemma trim_idem s : trim (trim s) = trim s.
Proof.
  unfold trim.
  rewrite (trimStart_clean (trimEnd (trimStart s)))
    by (apply startsClean_trimEnd, startsClean_trimStart).
  unfold trimEnd. rewrite rev_involutive, trimStart_idem. reflexivity.
Qed.

Lemma trim_padded pre s post :
  forallb isWhiteSpace pre = true -> forallb isWhiteSpace post = true ->
  trim (pre ++ s ++ post) = trim s.
Proof.
  intros Hpre Hpost. unfold trim. rewrite trimStart_app_ws by exact Hpre.
  destruct (trimStart_suffix s) as (p & E & W).
  destruct (trimStart s) as [|c r] eqn:T.
  - rewrite app_nil_r in E. subst p.
    rewrite trimStart_all_ws; [reflexivity|].
    rewrite forallb_app, W, Hpost. reflexivity.
  - rewrite E at 1. rewrite <- app_assoc, trimStart_app_ws by exact W.
    rewrite trimStart_app_clean;
      [| rewrite <- T; apply startsClean_trimStart | discriminate].
    apply trimEnd_app_ws. exact Hpost.
Qed.

Lemma computeQuickRange_normalKey now k1 k2 :
  normalKey k1 = normalKey k2 ->
  computeQuickRange now k1 = computeQuickRange now k2.
Proof.
  intros E. unfold computeQuickRange. fold (normalKey k1). fold (normalKey k2).
  rewrite E. reflexivity.
Qed.

(** C6. The key is trimmed and put in lower case before it is compared:
    white space around a key and the case of its letters do not change the
    range.  Every key that, so normalised, is none of the labels of the
    [switch] gives the range of the default case, from the start to the end
    of the day of [now], which is also the range of ["today"]; no case
    signals an error.  So ["TODAY  "], ["today"], ["unknown-key"], the empty
    string and a missing attribute all give that range, while
    [" Last_12_Hours "] gives the twelve hours before [now]. *)
Theorem computeQuickRange_default now :
  let today := (Day now * msPerDay, Day now * msPerDay + 86399999) in
  (forall key,
     existsb (eqb_str (normalKey key)) quickRangeLabels = false ->
     computeQuickRange now key = today)
  /\ (forall key,
        normalKey key = str "today" -> computeQuickRange now key = today)
  /\ (forall pre k post,
        forallb isWhiteSpace pre = true -> forallb isWhiteSpace post = true ->
        computeQuickRange now (Some (pre ++ k ++ post))
        = computeQuickRange now (Some (toLowerCase k)))
  /\ computeQuickRange now (Some (str "TODAY  ")) = today
  /\ computeQuickRange now (Some (str "today")) = today
  /\ computeQuickRange now (Some (str "unknown-key")) = today
  /\ computeQuickRange now (Some (str "")) = today
  /\ computeQuickRange now None = today
  /\ computeQuickRange now (Some (str " Last_12_Hours "))
     = (now - 12 * msPerHour, now).
Proof.
  cbv zeta.
  split; [|split; [|split]].
  - intros key H. unfold computeQuickRange. fold (normalKey key).
    cbn [quickRangeLabels existsb] in H.
    repeat match type of H with
    | _ || _ = false =>
        apply orb_false_iff in H;
        let E := fresh "E" in destruct H as [E H]; rewrite ?E
    end.
    cbn [orb]. cbv zeta. rewrite setHours_start, setHours_end. reflexivity.
  - intros key H. unfold computeQuickRange. fold (normalKey key). rewrite H.
    eval_keys. cbv zeta. rewrite setHours_start, setHours_end. reflexivity.
  - intros pre k post Hpre Hpost. apply computeQuickRange_normalKey.
    unfold normalKey. rewrite trim_padded by assumption.
    rewrite trim_toLowerCase, toLowerCase_idem. reflexivity.
  - repeat split; unfold computeQuickRange; eval_keys;
      rewrite ?setHours_start, ?setHours_end; reflexivity.
Qed.

(** X1. White space around the key and the case of its ASCII letters never
    change the range; a missing attribute is the empty key; the two labels
    written with a space are the labels written with an underscore. *)
Theorem computeQuickRange_key_insensitive now :
  (forall pre k post,
     forallb isWhiteSpace pre = true -> forallb isWhiteSpace post = true ->
     computeQuickRange now (Some (pre ++ k ++ post))
     = computeQuickRange now (Some k))
  /\ (forall k1 k2,
        toLowerCase k1 = toLowerCase k2 ->
        computeQuickRange now (Some k1) = computeQuickRange now (Some k2))
  /\ (forall k,
        computeQuickRange now (Some (toLowerCase (trim k)))
        = computeQuickRange now (Some k))
  /\ computeQuickRange now None = computeQuickRange now (Some [])
  /\ computeQuickRange now (Some (str "this week"))
     = computeQuickRange now (Some (str "this_week"))
  /\ computeQuickRange now (Some (str "this month"))
     = computeQuickRange now (Some (str "this_month")).
Proof.
  split; [|split; [|split; [|split; [|split]]]].
  - intros pre k post Hpre Hpost. apply computeQuickRange_normalKey.
    unfold normalKey. rewrite trim_padded by assumption. reflexivity.
  - intros k1 k2 E. apply computeQuickRange_normalKey. unfold normalKey.
    rewrite <- !trim_toLowerCase, E. reflexivity.
  - intros k. apply computeQuickRange_normalKey. unfold normalKey.
    rewrite trim_toLowerCase, toLowerCase_idem, trim_idem. reflexivity.
  - reflexivity.
  - unfold computeQuickRange. eval_keys. reflexivity.
  - unfold computeQuickRange. eval_keys. reflexivity.
Qed.

(** ** The ranges, day by day *)

Lemma startOfDaysBack now k :
  setHours (setDate now (getDate now - k)) 0 0 0 0 = (Day now - k) * msPerDay.
Proof. rewrite setDate_back, setHours_start, Day_back. reflexivity. Qed.

Lemma Day_of_start d : Day (d * msPerDay) = d.
Proof. unfold Day, msPerDay. apply Z.div_mul. lia. Qed.

Lemma Day_end d : Day (d * msPerDay + 86399999) = d.
Proof. unfold Day, msPerDay. Z.div_mod_to_equations. lia. Qed.

(** X2. The presets counted in days.  ["yesterday"] is the whole day before
    that of [now]; ["last_2_days"] and ["last_7_days"] start one and six
    days before and end with the day of [now]: two and seven whole days. *)
Theorem computeQuickRange_whole_days now :
  let today := Day now in
  computeQuickRange now (Some (str "yesterday"))
  = ((today - 1) * msPerDay, (today - 1) * msPerDay + 86399999)
  /\ computeQuickRange now (Some (str "last_2_days"))
     = ((today - 1) * msPerDay, today * msPerDay + 86399999)
  /\ computeQuickRange now (Some (str "last_7_days"))
     = ((today - 6) * msPerDay, today * msPerDay + 86399999).
Proof.
  cbv zeta.
  assert (Y : computeQuickRange now (Some (str "yesterday"))
              = ((Day now - 1) * msPerDay, (Day now - 1) * msPerDay + 86399999)).
  { unfold computeQuickRange. eval_keys. cbv zeta.
    rewrite startOfDaysBack, setHours_end, Day_of_start. reflexivity. }
  assert (T : computeQuickRange now (Some (str "last_2_days"))
              = ((Day now - 1) * msPerDay, Day now * msPerDay + 86399999)).
  { unfold computeQuickRange. eval_keys. cbv zeta.
    rewrite startOfDaysBack, setHours_end. reflexivity. }
  assert (S : computeQuickRange now (Some (str "last_7_days"))
              = ((Day now - 6) * msPerDay, Day now * msPerDay + 86399999)).
  { unfold computeQuickRange. eval_keys. cbv zeta.
    rewrite startOfDaysBack, setHours_end. reflexivity. }
  split; [exact Y|]. split; [exact T | exact S].
Qed.

Lemma firstOfMonth_le now :
  ~ (0 <= getFullYear now <= 99) ->
  setHours (newDateYMD (getFullYear now) (getMonth now) 1) 0 0 0 0 <= now
  /\ now <= setHours (newDateYMD (getFullYear now) (getMonth now + 1) 0)
              23 59 59 999.
Proof.
  intros Hy. rewrite setHours_start, setHours_end, !Day_newDateYMD.
  replace ((0 <=? getFullYear now) && (getFullYear now <=? 99)) with false
    by (symmetry; apply andb_false_iff; rewrite Z.leb_gt, Z.leb_gt; lia).
  rewrite MakeDay_day0_next by apply MonthFromDay_range.
  unfold getFullYear, getMonth.
  pose proof (DateFromDay_range (Day now)) as DR.
  pose proof (MakeDay_of_day (Day now) (1 - DateFromDay (Day now))) as M1.
  replace (DateFromDay (Day now) + (1 - DateFromDay (Day now))) with 1 in M1
    by lia.
  pose proof (MakeDay_of_day (Day now)
                (DaysInMonth (InLeapYear (YearFromDay (Day now)))
                   (MonthFromDay (Day now)) - DateFromDay (Day now))) as M2.
  replace (DateFromDay (Day now)
           + (DaysInMonth (InLeapYear (YearFromDay (Day now)))
                (MonthFromDay (Day now)) - DateFromDay (Day now)))
    with (DaysInMonth (InLeapYear (YearFromDay (Day now)))
            (MonthFromDay (Day now))) in M2 by lia.
  rewrite M1, M2. pose proof (Day_bounds now) as B. unfold msPerDay in *. lia.
Qed.

(** X3. Every range but that of ["yesterday"] holds [now]; the range of
    ["yesterday"] ends before the day of [now] starts.  For ["this_month"]
    the year of [now] has to be one that [new Date(year, month, day)] takes
    as written. *)
Theorem computeQuickRange_around_now now key :
  ~ (0 <= getFullYear now <= 99) ->
  let r := computeQuickRange now key in
  if eqb_str (normalKey key) (str "yesterday")
  then snd r < Day now * msPerDay /\ Day now * msPerDay <= now
  else fst r <= now <= snd r.
Proof.
  intros Hy. cbv zeta. unfold computeQuickRange. fold (normalKey key).
  set (k := normalKey key).
  pose proof (Day_bounds now) as B.
  assert (E : setHours now 23 59 59 999 = Day now * msPerDay + 86399999)
    by apply setHours_end.
  destruct (eqb_str k (str "today")) eqn:K1.
  { assert (N : eqb_str k (str "yesterday") = false)
      by (apply eqb_str_eq in K1; rewrite K1; reflexivity).
    rewrite N. cbv zeta. cbn [fst snd]. rewrite E, setHours_start.
    unfold msPerDay in *. lia. }
  destruct (eqb_str k (str "yesterday")) eqn:K2.
  { cbv zeta. cbn [fst snd].
    rewrite startOfDaysBack, setHours_end, Day_of_start.
    unfold msPerDay in *. lia. }
  destruct (eqb_str k (str "this_week") || eqb_str k (str "this week")).
  { cbv zeta. cbn [fst snd]. rewrite E, startOfDaysBack.
    pose proof (WeekDay_range (Day now)) as W. fold (getDay now) in W.
    unfold msPerDay in *. destruct (Z.eqb_spec (getDay now) 0); lia. }
  destruct (eqb_str k (str "this_month") || eqb_str k (str "this month")).
  { cbv zeta. cbn [fst snd]. apply firstOfMonth_le. exact Hy. }
  destruct (eqb_str k (str "last_12_hours")); [cbv zeta; cbn [fst snd]; lia|].
  destruct (eqb_str k (str "last_24_hours")); [cbv zeta; cbn [fst snd]; lia|].
  destruct (eqb_str k (str "last_2_days")).
  { cbv zeta. cbn [fst snd]. rewrite E, startOfDaysBack.
    unfold msPerDay in *. lia. }
  destruct (eqb_str k (str "last_7_days")).
  { cbv zeta. cbn [fst snd]. rewrite E, startOfDaysBack.
    unfold msPerDay in *. lia. }
  cbv zeta. cbn [fst snd]. rewrite E, setHours_start. unfold msPerDay in *. lia.
Qed.

Lemma computeQuickRange_around_now_witness :
  let now := 1707568496000 in
  ~ (0 <= getFullYear now <= 99)
  /\ fst (computeQuickRange now (Some (str "this_month"))) <= now
     <= snd (computeQuickRange now (Some (str "this_month")))
  /\ snd (computeQuickRange now (Some (str "Yesterday "))) < Day now * msPerDay.
Proof.
  cbv zeta.
  assert (Y : ~ (0 <= getFullYear 1707568496000 <= 99))
    by (vm_compute; intros [_ H]; apply H; reflexivity).
  split; [exact Y|]. split.
  - apply (computeQuickRange_around_now 1707568496000
             (Some (str "this_month")) Y).
  - apply (computeQuickRange_around_now 1707568496000
             (Some (str "Yesterday ")) Y).
Defined.

(** X4. The two presets counted in hours end at [now] itself and span twelve
    and twenty-four hours to the millisecond; every other key, recognized or
    not, gives a range from 00:00:00.000 of a day to 23:59:59.999 of a
    day. *)
Theorem computeQuickRange_alignment now key :
  let k := normalKey key in
  let r := computeQuickRange now key in
  if eqb_str k (str "last_12_hours") then r = (now - 12 * msPerHour, now)
  else if eqb_str k (str "last_24_hours") then r = (now - 24 * msPerHour, now)
  else TimeWithinDay (fst r) = 0 /\ TimeWithinDay (snd r) = 86399999.
Proof.
  cbv zeta. unfold computeQuickRange. fold (normalKey key).
  set (k := normalKey key).
  assert (A : forall t, TimeWithinDay (setHours t 0 0 0 0) = 0).
  { intros t. rewrite setHours_start. unfold TimeWithinDay, msPerDay.
    apply Z.mod_mul. lia. }
  assert (Z' : forall t, TimeWithinDay (setHours t 23 59 59 999) = 86399999).
  { intros t. rewrite setHours_end. unfold TimeWithinDay, msPerDay.
    rewrite Z.add_comm, Z.mod_add by lia. reflexivity. }
  clearbody k.
  destruct (eqb_str k (str "today")) eqn:K1.
  { apply eqb_str_eq in K1. subst k. eval_keys. cbv zeta. cbn [fst snd]. auto. }
  destruct (eqb_str k (str "yesterday")) eqn:K2.
  { apply eqb_str_eq in K2. subst k. eval_keys. cbv zeta. cbn [fst snd]. auto. }
  destruct (eqb_str k (str "this_week") || eqb_str k (str "this week")) eqn:K3.
  { apply orb_true_iff in K3.
    destruct K3 as [K3 | K3]; apply eqb_str_eq in K3; subst k; eval_keys;
      cbv zeta; cbn [fst snd]; auto. }
  destruct (eqb_str k (str "this_month") || eqb_str k (str "this month")) eqn:K4.
  { apply orb_true_iff in K4.
    destruct K4 as [K4 | K4]; apply eqb_str_eq in K4; subst k; eval_keys;
      cbv zeta; cbn [fst snd]; auto. }
  destruct (eqb_str k (str "last_12_hours")) eqn:K5; [reflexivity|].
  destruct (eqb_str k (str "last_24_hours")) eqn:K6; [reflexivity|].
  destruct (eqb_str k (str "last_2_days")); [cbv zeta; cbn [fst snd]; auto|].
  destruct (eqb_str k (str "last_7_days")); [cbv zeta; cbn [fst snd]; auto|].
  cbv zeta. cbn [fst snd]. auto.
Qed.

(** ** The text of a date *)

Lemma allFrom_spec n : forall z P,
  allFrom n z P = true -> forall x, z <= x < z + Z.of_nat n -> P x = true.
Proof.
  induction n as [|n IH]; intros z P H x Hx; [lia|].
  cbn [allFrom] in H. apply andb_true_iff in H. destruct H as [Hz H].
  destruct (Z.eq_dec x z) as [-> | N]; [exact Hz|].
  apply (IH (z + 1) P H). lia.
Qed.

Lemma pad2_twoDigits n :
  0 <= n <= 99 -> exists a b, pad2 n = [a; b] /\ twoDigits a b = Some n.
Proof.
  intros H.
  assert (C : allFrom 100 0 padsTwo = true) by (vm_compute; reflexivity).
  pose proof (allFrom_spec 100 0 padsTwo C n ltac:(lia)) as P.
  unfold padsTwo in P.
  destruct (pad2 n) as [|a [|b [|? ?]]]; try discriminate P.
  destruct (twoDigits a b) as [m|] eqn:T; [|discriminate P].
  apply Z.eqb_eq in P. subst m. exists a, b. split; [reflexivity | exact T].
Qed.

Lemma intToString_fourDigits y :
  1000 <= y <= 9999 ->
  exists a b c d, intToString y = [a; b; c; d] /\ fourDigits a b c d = Some y.
Proof.
  intros H.
  assert (C : allFrom (Z.to_nat 9000) 1000 printsFour = true)
    by (vm_compute; reflexivity).
  pose proof (allFrom_spec (Z.to_nat 9000) 1000 printsFour C y
                ltac:(rewrite Z2Nat.id; lia)) as P.
  unfold printsFour in P.
  destruct (intToString y) as [|a [|b [|c [|d [|? ?]]]]]; try discriminate P.
  destruct (fourDigits a b c d) as [m|] eqn:T; [|discriminate P].
  apply Z.eqb_eq in P. subst m. exists a, b, c, d.
  split; [reflexivity | exact T].
Qed.

Lemma digitVal_not_space a v : digitVal a = Some v -> (a =? 32)%N = false.
Proof.
  unfold digitVal. destruct (N.leb_spec 48 a); cbn [andb]; [|discriminate].
  intros _. apply N.eqb_neq. lia.
Qed.

Lemma twoDigits_not_space a b v :
  twoDigits a b = Some v -> (a =? 32)%N = false /\ (b =? 32)%N = false.
Proof.
  unfold twoDigits. destruct (digitVal a) eqn:A; [|discriminate].
  destruct (digitVal b) eqn:B; [|discriminate]. intros _.
  split; eapply digitVal_not_space; eassumption.
Qed.

Lemma fourDigits_not_space a b c d v :
  fourDigits a b c d = Some v ->
  (a =? 32)%N = false /\ (b =? 32)%N = false
  /\ (c =? 32)%N = false /\ (d =? 32)%N = false.
Proof.
  unfold fourDigits. destruct (twoDigits a b) eqn:A; [|discriminate].
  destruct (twoDigits c d) eqn:B; [|discriminate]. intros _.
  apply twoDigits_not_space in A, B. tauto.
Qed.

Lemma time_fields_range t :
  0 <= getHours t <= 23 /\ 0 <= getMinutes t <= 59 /\ 0 <= getSeconds t <= 59.
Proof.
  unfold getHours, getMinutes, getSeconds.
  pose proof (Z.mod_pos_bound (t / msPerHour) 24 ltac:(lia)).
  pose proof (Z.mod_pos_bound (t / msPerMinute) 60 ltac:(lia)).
  pose proof (Z.mod_pos_bound (t / msPerSecond) 60 ltac:(lia)). lia.
Qed.

Lemma MakeDate_fields t :
  MakeDate (Day t) (MakeTime (getHours t) (getMinutes t) (getSeconds t) 0)
  = t - t mod 1000.
Proof.
  unfold MakeDate, MakeTime, Day, getHours, getMinutes, getSeconds,
    msPerDay, msPerHour, msPerMinute, msPerSecond.
  Z.div_mod_to_equations. lia.
Qed.

(** The fields of a Date, as the two-digit and four-digit texts that
    [formatDateTime] joins. *)
Lemma formatDateTime_shape t :
  1000 <= getFullYear t <= 9999 ->
  exists y1 y2 y3 y4 m1 m2 d1 d2 h1 h2 i1 i2 s1 s2,
    formatDateTime t
    = [y1; y2; y3; y4; 45; m1; m2; 45; d1; d2; 32; h1; h2; 58; i1; i2; 58;
       s1; s2]%N
    /\ fourDigits y1 y2 y3 y4 = Some (getFullYear t)
    /\ twoDigits m1 m2 = Some (getMonth t + 1)
    /\ twoDigits d1 d2 = Some (getDate t)
    /\ twoDigits h1 h2 = Some (getHours t)
    /\ twoDigits i1 i2 = Some (getMinutes t)
    /\ twoDigits s1 s2 = Some (getSeconds t).
Proof.
  intros Hy.
  pose proof (MonthFromDay_range (Day t)) as Hm. fold (getMonth t) in Hm.
  pose proof (DateFromDay_range (Day t)) as Hd. fold (getDate t) in Hd.
  pose proof (InLeapYear_cases (YearFromDay (Day t))) as L.
  pose proof (DaysInMonth_pos (InLeapYear (YearFromDay (Day t)))
                (MonthFromDay (Day t)) (MonthFromDay_range _) ltac:(lia)) as Dm.
  pose proof (time_fields_range t) as (Hh & Hi & Hs).
  destruct (intToString_fourDigits _ Hy) as (y1 & y2 & y3 & y4 & Ey & Fy).
  destruct (pad2_twoDigits (getMonth t + 1) ltac:(lia)) as (m1 & m2 & Em & Fm).
  destruct (pad2_twoDigits (getDate t) ltac:(lia)) as (d1 & d2 & Ed & Fd).
  destruct (pad2_twoDigits (getHours t) ltac:(lia)) as (h1 & h2 & Eh & Fh).
  destruct (pad2_twoDigits (getMinutes t) ltac:(lia)) as (i1 & i2 & Ei & Fi).
  destruct (pad2_twoDigits (getSeconds t) ltac:(lia)) as (s1 & s2 & Es & Fs).
  exists y1, y2, y3, y4, m1, m2, d1, d2, h1, h2, i1, i2, s1, s2.
  split; [|tauto].
  unfold formatDateTime, formatDate. rewrite Ey, Em, Ed, Eh, Ei, Es.
  reflexivity.
Qed.

Lemma isoDay_fields t y1 y2 y3 y4 m1 m2 d1 d2 :
  fourDigits y1 y2 y3 y4 = Some (getFullYear t) ->
  twoDigits m1 m2 = Some (getMonth t + 1) ->
  twoDigits d1 d2 = Some (getDate t) ->
  isoDay y1 y2 y3 y4 m1 m2 d1 d2 = Some (Day t).
Proof.
  intros Fy Fm Fd. unfold isoDay. rewrite Fy, Fm, Fd.
  pose proof (MonthFromDay_range (Day t)) as Hm. fold (getMonth t) in Hm.
  pose proof (DateFromDay_range (Day t)) as Hd.
  fold (getDate t) (getMonth t) (getFullYear t) in Hd.
  replace (getMonth t + 1 - 1) with (getMonth t) by lia.
  replace ((1 <=? getMonth t + 1) && (getMonth t + 1 <=? 12)
           && (1 <=? getDate t)
           && (getDate t <=? DaysInMonth (InLeapYear (getFullYear t)) (getMonth t)))
    with true
    by (symmetry; rewrite !andb_true_iff, !Z.leb_le; lia).
  f_equal. unfold getFullYear, getMonth, getDate.
  pose proof (MakeDay_of_day (Day t) 0) as M. rewrite !Z.add_0_r in M. exact M.
Qed.

Lemma isoTime_fields t h1 h2 i1 i2 s1 s2 :
  twoDigits h1 h2 = Some (getHours t) ->
  twoDigits i1 i2 = Some (getMinutes t) ->
  twoDigits s1 s2 = Some (getSeconds t) ->
  isoTime h1 h2 i1 i2 s1 s2
  = Some (MakeTime (getHours t) (getMinutes t) (getSeconds t) 0).
Proof.
  intros Fh Fi Fs. unfold isoTime. rewrite Fh, Fi, Fs.
  pose proof (time_fields_range t) as (Hh & Hi & Hs).
  replace ((getHours t <=? 23) && (getMinutes t <=? 59) && (getSeconds t <=? 59))
    with true
    by (symmetry; rewrite !andb_true_iff, !Z.leb_le; lia).
  reflexivity.
Qed.

Lemma formatDateTime_iso t :
  1000 <= getFullYear t <= 9999 ->
  List.length (formatDateTime t) = 19%nat
  /\ isoDateString (replaceFirst 32 84 (formatDateTime t))
     = Some (t - t mod 1000)
  /\ formatDateTime (t - t mod 1000) = formatDateTime t.
Proof.
  intros Hy.
  assert (R : forall u, 1000 <= getFullYear u <= 9999 ->
            List.length (formatDateTime u) = 19%nat
            /\ isoDateString (replaceFirst 32 84 (formatDateTime u))
               = Some (u - u mod 1000)).
  { intros u Hu.
    destruct (formatDateTime_shape u Hu)
      as (y1 & y2 & y3 & y4 & m1 & m2 & d1 & d2 & h1 & h2 & i1 & i2 & s1 & s2
          & E & Fy & Fm & Fd & Fh & Fi & Fs).
    rewrite E. split; [reflexivity|].
    destruct (fourDigits_not_space _ _ _ _ _ Fy) as (Y1 & Y2 & Y3 & Y4).
    destruct (twoDigits_not_space _ _ _ Fm) as (M1 & M2).
    destruct (twoDigits_not_space _ _ _ Fd) as (D1 & D2).
    cbn [replaceFirst]. rewrite Y1, Y2, Y3, Y4, M1, M2, D1, D2.
    change ((45 =? 32)%N) with false. change ((32 =? 32)%N) with true.
    cbv iota.
    change (isoDateString
              [y1; y2; y3; y4; 45; m1; m2; 45; d1; d2; 84; h1; h2; 58; i1;
               i2; 58; s1; s2]%N)
      with (match isoDay y1 y2 y3 y4 m1 m2 d1 d2,
                  isoTime h1 h2 i1 i2 s1 s2 with
            | Some day, Some time => Some (MakeDate day time)
            | _, _ => None
            end).
    rewrite (isoDay_fields u) by assumption.
    rewrite (isoTime_fields u) by assumption.
    rewrite MakeDate_fields. reflexivity. }
  destruct (R t Hy) as [L P]. split; [exact L|]. split; [exact P|].
  assert (SD : Day (t - t mod 1000) = Day t)
    by (unfold Day, msPerDay; Z.div_mod_to_equations; lia).
  unfold formatDateTime, formatDate, getFullYear, getMonth, getDate.
  rewrite SD.
  replace (getHours (t - t mod 1000)) with (getHours t)
    by (unfold getHours, msPerHour; Z.div_mod_to_equations; lia).
  replace (getMinutes (t - t mod 1000)) with (getMinutes t)
    by (unfold getMinutes, msPerMinute; Z.div_mod_to_equations; lia).
  replace (getSeconds (t - t mod 1000)) with (getSeconds t)
    by (unfold getSeconds, msPerSecond; Z.div_mod_to_equations; lia).
  reflexivity.
Qed.

(** X5. For a Date in the years 1000 to 9999, [formatDateTime] gives the 19
    code units of [YYYY-MM-DD HH:MM:SS]; with the first space replaced by
    [T], as the handlers do before parsing, the text reads back in the
    date-time form of ECMA-262 as the same instant without its milliseconds,
    which the text does not show. *)
Theorem formatDateTime_reads_back t :
  1000 <= getFullYear t <= 9999 ->
  List.length (formatDateTime t) = 19%nat
  /\ isoDateString (replaceFirst 32 84 (formatDateTime t))
     = Some (t - t mod 1000)
  /\ formatDateTime (t - t mod 1000) = formatDateTime t.
Proof. exact (formatDateTime_iso t). Qed.

Lemma formatDateTime_reads_back_witness :
  1000 <= getFullYear 1707568496789 <= 9999
  /\ isoDateString (replaceFirst 32 84 (formatDateTime 1707568496789))
     = Some 1707568496000.
Proof.
  assert (Y : 1000 <= getFullYear 1707568496789 <= 9999)
    by (vm_compute; split; discriminate).
  split; [exact Y|].
  apply (formatDateTime_reads_back 1707568496789 Y).
Defined.

(** X6. The text of [formatDateTime] tells instants apart to the second and
    no further: in the years 1000 to 9999 two instants have the same text
    exactly when they lie in the same second. *)
Theorem formatDateTime_one_second t1 t2 :
  1000 <= getFullYear t1 <= 9999 -> 1000 <= getFullYear t2 <= 9999 ->
  (formatDateTime t1 = formatDateTime t2 <-> t1 / 1000 = t2 / 1000).
Proof.
  intros Y1 Y2.
  destruct (formatDateTime_iso t1 Y1) as (_ & P1 & F1).
  destruct (formatDateTime_iso t2 Y2) as (_ & P2 & F2).
  split.
  - intros E. rewrite E, P2 in P1. injection P1 as P1.
    Z.div_mod_to_equations. lia.
  - intros E. rewrite <- F1, <- F2. f_equal.
    Z.div_mod_to_equations. lia.
Qed.

Lemma formatDateTime_one_second_witness :
  1000 <= getFullYear 1707568496789 <= 9999
  /\ 1000 <= getFullYear 1707568496000 <= 9999
  /\ formatDateTime 1707568496789 = formatDateTime 1707568496000.
Proof.
  assert (Y1 : 1000 <= getFullYear 1707568496789 <= 9999)
    by (vm_compute; split; discriminate).
  assert (Y2 : 1000 <= getFullYear 1707568496000 <= 9999)
    by (vm_compute; split; discriminate).
  split; [exact Y1|]. split; [exact Y2|].
  apply (formatDateTime_one_second 1707568496789 1707568496000 Y1 Y2).
  reflexivity.
Defined.

Ltac picker_fields :=
  cbn [set_currentFrom set_currentTo set_picker set_fromInput set_toInput
       set_hiddenFrom set_hiddenTo set_summaryLabel set_panelHidden
       set_panelBlock set_overlayHidden set_panelLeft set_panelTop set_alerts
       set_submitted currentFrom currentTo picker fromInput toInput hiddenFrom
       hiddenTo summaryLabel panelHidden panelBlock overlayHidden panelLeft
       panelTop alerts submitted].

(** ** The panel *)

(** X7. Where [positionPanel] puts the panel, for measures in whole
    pixels: never above 20px; its right edge at least 10px inside the width
    of the window; under the button when there is room; at least 10px above
    the bottom of the window whenever a top of 20px allows it.  There is no
    bound on the left: a panel wider than the window starts left of it.
    Nothing but the two style properties changes. *)
Theorem positionPanel_clamped g s :
  exists left top,
    panelLeft (positionPanel g s) = Some left
    /\ panelTop (positionPanel g s) = Some top
    /\ 20 <= top
    /\ left + panelWidth g <= innerWidth g - 10
    /\ left <= scrollX g + btnLeft g
    /\ (scrollX g + btnLeft g + panelWidth g <= innerWidth g - 10 ->
        left = scrollX g + btnLeft g)
    /\ (20 <= scrollY g + btnBottom g + 8
        /\ btnBottom g + 8 + panelHeight g <= innerHeight g - 10 ->
        top = scrollY g + btnBottom g + 8)
    /\ (20 + panelHeight g <= scrollY g + innerHeight g - 10 ->
        top + panelHeight g <= scrollY g + innerHeight g - 10)
    /\ (innerWidth g < panelWidth g + 10 -> left < 0)
    /\ positionPanel g s = set_panelTop (Some top) (set_panelLeft (Some left) s).
Proof.
  unfold positionPanel. cbv zeta.
  eexists. eexists.
  split; [reflexivity|]. split; [reflexivity|].
  destruct (Z.ltb_spec (scrollY g + innerHeight g - panelHeight g - 10)
              (scrollY g + btnBottom g + 8));
    repeat match goal with
    | |- context [?a <? ?b] => destruct (Z.ltb_spec a b)
    end; repeat split; try reflexivity; lia.
Qed.

Section PanelFacts.

Variable newDateString : jsstring -> option Z.
Variable litepickerLoaded : bool.
Variable hasRequestSubmit : bool.


(** ** Reading the hidden fields *)

Lemma replaceFirst_absent a b s : ~ In a s -> replaceFirst a b s = s.
Proof.
  induction s as [|c s IH]; intros N; [reflexivity|].
  cbn [replaceFirst]. destruct (N.eqb_spec c a) as [E | E].
  - exfalso. apply N. left. exact E.
  - f_equal. apply IH. intros I. apply N. right. exact I.
Qed.

(** X9. [initFromHidden], as the page runs it: once, with nothing stored.
    It never alerts, submits or touches the panel.  The inputs and the label
    are written when both hidden values parse, and then without a check of
    their order; when a value is empty or does not parse they stay as the page
    has them, the other value being stored alone.  A value without a space is
    read by the first [new Date] or not at all, so that the branch that
    resets the time to 00:00 runs only for values with a space. *)
Theorem initFromHidden_silent s :
  let s' := initFromHidden newDateString s in
  (alerts s' = alerts s /\ submitted s' = submitted s
   /\ picker s' = picker s /\ panelHidden s' = panelHidden s
   /\ overlayHidden s' = overlayHidden s /\ panelBlock s' = panelBlock s
   /\ panelLeft s' = panelLeft s /\ panelTop s' = panelTop s)
  /\ (currentFrom s = None -> currentTo s = None ->
      (exists f t,
         hiddenFrom s <> [] /\ hiddenTo s <> []
         /\ parseDT newDateString (hiddenFrom s) = Some f
         /\ parseDT newDateString (hiddenTo s) = Some t
         /\ currentFrom s' = Some f /\ currentTo s' = Some t
         /\ fromInput s' = formatDateTime f /\ toInput s' = formatDateTime t
         /\ summaryLabel s' = formatDateTime f ++ arrow ++ formatDateTime t)
      \/ ((hiddenFrom s = [] \/ parseDT newDateString (hiddenFrom s) = None
           \/ hiddenTo s = [] \/ parseDT newDateString (hiddenTo s) = None)
          /\ (currentFrom s' = None \/ currentTo s' = None)
          /\ fromInput s' = fromInput s /\ toInput s' = toInput s
          /\ summaryLabel s' = summaryLabel s))
  /\ (forall x, ~ In 32%N x -> parseDT newDateString x = newDateString x)
  /\ (forall x d, newDateString (replaceFirst 32 84 x) = None ->
        newDateString x = Some d ->
        parseDT newDateString x = Some (Day d * msPerDay)).
Proof.
  cbv zeta. split; [|split; [|split]].
  - unfold initFromHidden.
    set (s1 := if isEmpty (hiddenFrom s) then s else set_currentFrom _ s).
    assert (H1 : alerts s1 = alerts s /\ submitted s1 = submitted s
                 /\ picker s1 = picker s /\ panelHidden s1 = panelHidden s
                 /\ overlayHidden s1 = overlayHidden s
                 /\ panelBlock s1 = panelBlock s
                 /\ panelLeft s1 = panelLeft s /\ panelTop s1 = panelTop s)
      by (unfold s1; destruct (isEmpty (hiddenFrom s)); repeat split).
    clearbody s1.
    set (s2 := if isEmpty (hiddenTo s1) then s1 else set_currentTo _ s1).
    assert (H2 : alerts s2 = alerts s1 /\ submitted s2 = submitted s1
                 /\ picker s2 = picker s1 /\ panelHidden s2 = panelHidden s1
                 /\ overlayHidden s2 = overlayHidden s1
                 /\ panelBlock s2 = panelBlock s1
                 /\ panelLeft s2 = panelLeft s1 /\ panelTop s2 = panelTop s1)
      by (unfold s2; destruct (isEmpty (hiddenTo s1)); repeat split).
    clearbody s2.
    destruct (currentFrom s2), (currentTo s2); cbn; intuition congruence.
  - destruct s as [cf ct pk fi ti hf ht lb ph pb oh pl pt al sb].
    cbn [currentFrom currentTo]. intros -> ->.
    unfold initFromHidden. cbn [hiddenFrom hiddenTo].
    destruct hf as [|c hf]; cbn [isEmpty].
    { right. cbn [hiddenTo hiddenFrom currentFrom currentTo].
      destruct (isEmpty ht);
        cbn [set_currentTo currentFrom currentTo];
        repeat split; auto. }
    cbn [set_currentFrom hiddenTo].
    destruct ht as [|c' ht]; cbn [isEmpty].
    { right. cbn [currentFrom currentTo hiddenFrom hiddenTo].
      destruct (parseDT newDateString (c :: hf)); repeat split; auto. }
    cbn [set_currentTo currentFrom currentTo].
    destruct (parseDT newDateString (c :: hf)) as [f|] eqn:F;
      [destruct (parseDT newDateString (c' :: ht)) as [t|] eqn:T|].
    + left. exists f, t. picker_fields.
      repeat split; try reflexivity; discriminate.
    + right. picker_fields. repeat split; auto.
    + right. picker_fields. repeat split; auto.
  - intros x N. unfold parseDT.
    rewrite (replaceFirst_absent _ _ _ N).
    destruct (newDateString x); reflexivity.
  - intros x d E1 E2. unfold parseDT. rewrite E1, E2.
    rewrite setHours_start. reflexivity.
Qed.

(** ** A selection in the calendar *)

Lemma Day_mono a b : a <= b -> Day a <= Day b.
Proof. intros H. unfold Day, msPerDay. apply Z.div_le_mono; lia. Qed.

(** X10. A selection reported by the calendar is stored as whole days: from
    00:00:00.000 of the day of the first endpoint to 23:59:59.999 of the day
    of the second, and the inputs show these two.  The stored range is
    ordered exactly when the days are, so two endpoints on one day give that
    day whatever their times.  A selection with an endpoint missing changes
    nothing. *)
Theorem onSelected_whole_days d1 d2 s :
  let s' := onSelected (Some d1) (Some d2) s in
  let from := Day d1 * msPerDay in
  let to := Day d2 * msPerDay + 86399999 in
  currentFrom s' = Some from /\ currentTo s' = Some to
  /\ fromInput s' = formatDateTime from /\ toInput s' = formatDateTime to
  /\ from <= d1 /\ d2 <= to
  /\ (from <= to <-> Day d1 <= Day d2)
  /\ (d1 <= d2 -> from < to)
  /\ (forall o, onSelected None o s = s /\ onSelected o None s = s).
Proof.
  cbv zeta. unfold onSelected. cbv zeta.
  rewrite setHours_start, setHours_end.
  pose proof (Day_bounds d1) as B1. pose proof (Day_bounds d2) as B2.
  split; [reflexivity|]. split; [reflexivity|].
  split; [reflexivity|]. split; [reflexivity|].
  split; [lia|]. split; [lia|].
  split; [unfold msPerDay; lia|].
  split.
  - intros L. apply Day_mono in L. unfold msPerDay. lia.
  - intros o. split; [reflexivity|]. destruct o; reflexivity.
Qed.

(** ** What the page shows and sends *)

Lemma alert_counts msg s :
  alerts (alert msg s) = alerts s ++ [msg]
  /\ submitted (alert msg s) = submitted s.
Proof. split; reflexivity. Qed.

Lemma step_reports s e :
  exists al sb,
    alerts (step newDateString litepickerLoaded hasRequestSubmit s e)
    = alerts s ++ al
    /\ submitted (step newDateString litepickerLoaded hasRequestSubmit s e)
       = submitted s ++ sb
    /\ (List.length al + List.length sb
        = if isApplyClick e then 1 else 0)%nat.
Proof.
  destruct e as [g | | | key now | d1 d2 |]; cbn [isApplyClick step].
  - exists [], []. rewrite !app_nil_r.
    destruct s as [cf ct pk fi ti hf ht lb ph pb oh pl pt al sb].
    destruct pk as [p|], litepickerLoaded, cf as [f|], ct as [t|];
      repeat split.
  - exists [], []. rewrite !app_nil_r. repeat split.
  - exists [], []. rewrite !app_nil_r. repeat split.
  - exists [], []. rewrite !app_nil_r. unfold quickRangeClick.
    destruct (computeQuickRange now key) as [from to].
    cbn. destruct (picker s); repeat split.
  - exists [], []. rewrite !app_nil_r.
    destruct (picker s); [|repeat split].
    destruct d1, d2; repeat split.
  - unfold applyClick.
    destruct (isEmpty (fromInput s) || isEmpty (toInput s)).
    { eexists [_], []. rewrite app_nil_r. repeat split. }
    destruct (newDateString (replaceFirst 32 84 (fromInput s))) as [from|];
      [|eexists [_], []; rewrite app_nil_r; repeat split].
    destruct (newDateString (replaceFirst 32 84 (toInput s))) as [to|];
      [|eexists [_], []; rewrite app_nil_r; repeat split].
    destruct (to <? from);
      [eexists [_], []; rewrite app_nil_r; repeat split|].
    cbv zeta. destruct hasRequestSubmit;
      (eexists [], [_]; rewrite app_nil_r; repeat split).
Qed.

(** X11. Over any sequence of events, the page answers each click on the
    apply button with exactly one alert or exactly one submission of the
    form, and no other event alerts or submits: what was shown and sent
    before stays, and the alerts and submissions added are as many as the
    apply clicks. *)
Theorem apply_clicks_answered es : forall s,
  exists al sb,
    alerts (fold_left (step newDateString litepickerLoaded hasRequestSubmit)
              es s)
    = alerts s ++ al
    /\ submitted (fold_left
                    (step newDateString litepickerLoaded hasRequestSubmit)
                    es s)
       = submitted s ++ sb
    /\ (List.length al + List.length sb
        = List.length (filter isApplyClick es))%nat.
Proof.
  induction es as [|e es IH]; intros s.
  - exists [], []. rewrite !app_nil_r. repeat split.
  - cbn [fold_left filter].
    destruct (step_reports s e) as (al1 & sb1 & A1 & S1 & L1).
    destruct (IH (step newDateString litepickerLoaded hasRequestSubmit s e))
      as (al2 & sb2 & A2 & S2 & L2).
    exists (al1 ++ al2), (sb1 ++ sb2).
    rewrite A2, S2, A1, S1, <- !app_assoc.
    split; [reflexivity|]. split; [reflexivity|].
    rewrite !length_app.
    destruct (isApplyClick e); cbn [List.length]; lia.
Qed.

End PanelFacts.

(** ** Years of the quick ranges *)

Lemma YearFromDay_mono a b : a <= b -> YearFromDay a <= YearFromDay b.
Proof.
  intros H. pose proof (YearFromDay_spec a) as A.
  pose proof (YearFromDay_spec b) as B.
  destruct (Z.le_gt_cases (YearFromDay a) (YearFromDay b)) as [L | G];
    [exact L|].
  pose proof (DayFromYear_mono (YearFromDay b + 1) (YearFromDay a)
                ltac:(lia)). lia.
Qed.

Lemma YearFromDay_back d k :
  0 <= k <= 365 -> YearFromDay d - 1 <= YearFromDay (d - k) <= YearFromDay d.
Proof.
  intros Hk. split; [|apply YearFromDay_mono; lia].
  pose proof (YearFromDay_spec d) as S.
  pose proof (DayFromYear_step (YearFromDay d - 1)) as St.
  replace (YearFromDay d - 1 + 1) with (YearFromDay d) in St by lia.
  pose proof (DaysInYear_cases (YearFromDay d - 1)) as C.
  assert (E : YearFromDay (DayFromYear (YearFromDay d - 1)) = YearFromDay d - 1).
  { apply YearFromDay_unique. rewrite DayFromYear_step. lia. }
  rewrite <- E. apply YearFromDay_mono. lia.
Qed.

Lemma getFullYear_startOf t : getFullYear (setHours t 0 0 0 0) = getFullYear t.
Proof. unfold getFullYear. rewrite setHours_start, Day_of_start. reflexivity. Qed.

Lemma getFullYear_endOf t :
  getFullYear (setHours t 23 59 59 999) = getFullYear t.
Proof. unfold getFullYear. rewrite setHours_end, Day_end. reflexivity. Qed.

Lemma getFullYear_newDateYMD y m d :
  getFullYear (newDateYMD y m d)
  = YearFromDay (MakeDay (if (0 <=? y) && (y <=? 99) then 1900 + y else y)
                   m d).
Proof. unfold getFullYear. rewrite Day_newDateYMD. reflexivity. Qed.

Lemma computeQuickRange_le now key :
  fst (computeQuickRange now key) <= snd (computeQuickRange now key).
Proof.
  unfold computeQuickRange.
  set (k := toLowerCase _).
  destruct (eqb_str k (str "today"));
    [cbv zeta; cbn [fst snd]; apply sameDay_le|].
  destruct (eqb_str k (str "yesterday"));
    [cbv zeta; cbn [fst snd]; apply endOfDay_ge|].
  destruct (eqb_str k (str "this_week") || eqb_str k (str "this week")).
  { cbv zeta. cbn [fst snd]. apply daysBack_le.
    pose proof (WeekDay_range (Day now)). unfold getDay.
    destruct (Z.eqb_spec (WeekDay (Day now)) 0); lia. }
  destruct (eqb_str k (str "this_month") || eqb_str k (str "this month")).
  { cbv zeta. cbn [fst snd]. apply month_le. apply MonthFromDay_range. }
  destruct (eqb_str k (str "last_12_hours")); [cbv zeta; cbn [fst snd]; lia|].
  destruct (eqb_str k (str "last_24_hours")); [cbv zeta; cbn [fst snd]; lia|].
  destruct (eqb_str k (str "last_2_days"));
    [cbv zeta; cbn [fst snd]; apply daysBack_le; lia|].
  destruct (eqb_str k (str "last_7_days"));
    [cbv zeta; cbn [fst snd]; apply daysBack_le; lia|].
  cbv zeta. cbn [fst snd]. apply sameDay_le.
Qed.

Lemma computeQuickRange_years now key :
  1001 <= getFullYear now <= 9999 ->
  1000 <= getFullYear (fst (computeQuickRange now key)) <= 9999
  /\ 1000 <= getFullYear (snd (computeQuickRange now key)) <= 9999.
Proof.
  intros Hy. unfold computeQuickRange.
  set (k := toLowerCase _). clearbody k.
  pose proof (getFullYear_endOf now) as E.
  pose proof (getFullYear_startOf now) as S0.
  assert (B : forall j, 0 <= j <= 365 ->
            1000 <= getFullYear (setHours (setDate now (getDate now - j))
                                   0 0 0 0) <= 9999).
  { intros j Hj. unfold getFullYear in *.
    rewrite startOfDaysBack, Day_of_start.
    pose proof (YearFromDay_back (Day now) j Hj). lia. }
  assert (H1 : forall h, 0 <= h <= 24 ->
            1000 <= getFullYear (now - h * 60 * 60 * 1000) <= 9999).
  { intros h Hh. unfold getFullYear in *.
    assert (D : exists j, 0 <= j <= 1 /\ Day (now - h * 60 * 60 * 1000)
                                        = Day now - j).
    { destruct (Z.le_gt_cases (Day now * msPerDay) (now - h * 60 * 60 * 1000)).
      - exists 0. split; [lia|]. pose proof (Day_bounds now).
        unfold Day, msPerDay in *. Z.div_mod_to_equations. lia.
      - exists 1. split; [lia|]. pose proof (Day_bounds now).
        unfold Day, msPerDay in *. Z.div_mod_to_equations. lia. }
    destruct D as (j & Hj & ->).
    pose proof (YearFromDay_back (Day now) j ltac:(lia)). lia. }
  destruct (eqb_str k (str "today"));
    [cbv zeta; cbn [fst snd]; rewrite E, S0; lia|].
  destruct (eqb_str k (str "yesterday")).
  { cbv zeta. cbn [fst snd]. rewrite getFullYear_endOf, getFullYear_startOf.
    rewrite <- (getFullYear_startOf (setDate _ _)).
    split; apply B; lia. }
  destruct (eqb_str k (str "this_week") || eqb_str k (str "this week")).
  { cbv zeta. cbn [fst snd]. rewrite E. split; [|lia]. apply B.
    pose proof (WeekDay_range (Day now)). unfold getDay.
    destruct (Z.eqb_spec (WeekDay (Day now)) 0); lia. }
  destruct (eqb_str k (str "this_month") || eqb_str k (str "this month")).
  { cbv zeta. cbn [fst snd].
    pose proof (MonthFromDay_range (Day now)) as Hm. fold (getMonth now) in Hm.
    pose proof (month_ends (getFullYear now) (getMonth now) Hm) as M.
    cbv zeta in M. destruct M as ((Y1 & _) & (Y2 & _) & _).
    rewrite getFullYear_startOf, getFullYear_endOf, !getFullYear_newDateYMD.
    replace ((0 <=? getFullYear now) && (getFullYear now <=? 99)) with false
      by (symmetry; apply andb_false_iff; rewrite Z.leb_gt, Z.leb_gt; lia).
    rewrite Y1, Y2. lia. }
  destruct (eqb_str k (str "last_12_hours")).
  { cbv zeta. cbn [fst snd]. split; [apply (H1 12); lia | lia]. }
  destruct (eqb_str k (str "last_24_hours")).
  { cbv zeta. cbn [fst snd]. split; [apply (H1 24); lia | lia]. }
  destruct (eqb_str k (str "last_2_days"));
    [cbv zeta; cbn [fst snd]; rewrite E; split; [apply B; lia | lia]|].
  destruct (eqb_str k (str "last_7_days"));
    [cbv zeta; cbn [fst snd]; rewrite E; split; [apply B; lia | lia]|].
  cbv zeta. cbn [fst snd]. rewrite E, S0. lia.
Qed.

Lemma computeQuickRange_days now key :
  eqb_str (normalKey key) (str "last_12_hours") = false ->
  eqb_str (normalKey key) (str "last_24_hours") = false ->
  Day (fst (computeQuickRange now key)) * msPerDay
  = fst (computeQuickRange now key)
  /\ Day (snd (computeQuickRange now key)) * msPerDay + 86399999
     = snd (computeQuickRange now key).
Proof.
  intros H12 H24. unfold computeQuickRange. fold (normalKey key).
  rewrite H12, H24.
  assert (A : forall t, Day (setHours t 0 0 0 0) * msPerDay
                        = setHours t 0 0 0 0)
    by (intros t; rewrite setHours_start, Day_of_start; reflexivity).
  assert (B : forall t, Day (setHours t 23 59 59 999) * msPerDay + 86399999
                        = setHours t 23 59 59 999)
    by (intros t; rewrite setHours_end, Day_end; reflexivity).
  destruct (eqb_str (normalKey key) (str "today"));
    [cbv zeta; cbn [fst snd]; auto|].
  destruct (eqb_str (normalKey key) (str "yesterday"));
    [cbv zeta; cbn [fst snd]; auto|].
  destruct (eqb_str (normalKey key) (str "this_week")
            || eqb_str (normalKey key) (str "this week"));
    [cbv zeta; cbn [fst snd]; auto|].
  destruct (eqb_str (normalKey key) (str "this_month")
            || eqb_str (normalKey key) (str "this month"));
    [cbv zeta; cbn [fst snd]; auto|].
  destruct (eqb_str (normalKey key) (str "last_2_days"));
    [cbv zeta; cbn [fst snd]; auto|].
  destruct (eqb_str (normalKey key) (str "last_7_days"));
    [cbv zeta; cbn [fst snd]; auto|].
  cbv zeta. cbn [fst snd]. auto.
Qed.

(** ** From the handlers to the submitted form *)

Lemma length_replaceFirst a b s :
  List.length (replaceFirst a b s) = List.length s.
Proof.
  induction s as [|c s IH]; [reflexivity|].
  cbn [replaceFirst]. destruct (c =? a)%N; cbn [List.length]; congruence.
Qed.

Lemma floor_le f t : f <= t -> f - f mod 1000 <= t - t mod 1000.
Proof. intros H. Z.div_mod_to_equations. lia. Qed.

Lemma formatDateTime_nonempty t :
  1000 <= getFullYear t <= 9999 -> isEmpty (formatDateTime t) = false.
Proof.
  intros Y. destruct (formatDateTime_iso t Y) as (L & _ & _).
  destruct (formatDateTime t); [discriminate L | reflexivity].
Qed.

Section Compositions.

Variable newDateString : jsstring -> option Z.
Variable hasRequestSubmit : bool.
Hypothesis host : readsDateTimes newDateString.

Lemma parses_formatted t :
  1000 <= getFullYear t <= 9999 ->
  newDateString (replaceFirst 32 84 (formatDateTime t))
  = Some (t - t mod 1000).
Proof.
  intros Y. destruct (formatDateTime_iso t Y) as (L & P & _).
  apply host; [rewrite length_replaceFirst; exact L | exact P].
Qed.

Lemma applyClick_formatted s f t :
  1000 <= getFullYear f <= 9999 -> 1000 <= getFullYear t <= 9999 ->
  fromInput s = formatDateTime f -> toInput s = formatDateTime t ->
  applyClick newDateString hasRequestSubmit s
  = if t - t mod 1000 <? f - f mod 1000
    then alert (str "'From' must be before 'To'.") s
    else
      set_submitted
        (submitted s ++ [if hasRequestSubmit then RequestSubmit else Submit])
        (closePanel
           (set_summaryLabel (formatDateTime f ++ arrow ++ formatDateTime t)
              (set_hiddenTo (formatDateTime t)
                 (set_hiddenFrom (formatDateTime f)
                    (set_currentTo (Some (t - t mod 1000))
                       (set_currentFrom (Some (f - f mod 1000)) s)))))).
Proof.
  intros Yf Yt Ff Ft. unfold applyClick.
  rewrite Ff, Ft, !formatDateTime_nonempty by assumption. cbn [orb].
  rewrite !parses_formatted by assumption.
  destruct (t - t mod 1000 <? f - f mod 1000); [reflexivity|].
  cbv zeta. picker_fields.
  destruct (formatDateTime_iso f Yf) as (_ & _ & ->).
  destruct (formatDateTime_iso t Yt) as (_ & _ & ->).
  destruct hasRequestSubmit; reflexivity.
Qed.

(** X12. A click on a quick-range button followed by a click on apply, with
    the clock in the years 1001 to 9999 and a host that reads the date-time
    form.  Whatever the key, the texts that the first click leaves in the
    inputs pass the three checks of the second: there is no alert and the
    form is submitted once.  As long as the calendar is not built, the hidden
    fields hold the two ends of the quick range to the second.  Once it is
    built they hold 00:00:00 of the day of its start and 23:59:59 of the day
    of its end, the whole days that the handler of [selected] has put in the
    inputs after [setDateRange]; these are the ends of the quick range itself
    for every key but ["last_12_hours"] and ["last_24_hours"]. *)
Theorem quickRangeClick_then_apply key now s :
  1001 <= getFullYear now <= 9999 ->
  let r := computeQuickRange now key in
  let days := (Day (fst r) * msPerDay, Day (snd r) * msPerDay + 86399999) in
  let committed := match picker s with None => r | Some _ => days end in
  let s' :=
    applyClick newDateString hasRequestSubmit (quickRangeClick key now s) in
  hiddenFrom s' = formatDateTime (fst committed)
  /\ hiddenTo s' = formatDateTime (snd committed)
  /\ summaryLabel s'
     = formatDateTime (fst committed) ++ arrow
       ++ formatDateTime (snd committed)
  /\ currentFrom s' = Some (fst committed - fst committed mod 1000)
  /\ currentTo s' = Some (snd committed - snd committed mod 1000)
  /\ alerts s' = alerts s
  /\ submitted s'
     = submitted s ++ [if hasRequestSubmit then RequestSubmit else Submit]
  /\ panelHidden s' = true /\ overlayHidden s' = true
  /\ (eqb_str (normalKey key) (str "last_12_hours") = false ->
      eqb_str (normalKey key) (str "last_24_hours") = false ->
      days = r).
Proof.
  intros Hy. cbv zeta.
  pose proof (computeQuickRange_years now key Hy) as [Yf Yt].
  pose proof (computeQuickRange_le now key) as Le.
  pose proof (computeQuickRange_days now key) as Al.
  unfold quickRangeClick.
  destruct (computeQuickRange now key) as [from to]. cbn [fst snd] in *.
  assert (Last : eqb_str (normalKey key) (str "last_12_hours") = false ->
                 eqb_str (normalKey key) (str "last_24_hours") = false ->
                 (Day from * msPerDay, Day to * msPerDay + 86399999)
                 = (from, to)).
  { intros H12 H24. destruct (Al H12 H24) as [-> ->]. reflexivity. }
  clear Al.
  set (c := match picker s with
            | None => (from, to)
            | Some _ => (Day from * msPerDay, Day to * msPerDay + 86399999)
            end).
  set (q := match picker (set_toInput _ _) with
            | Some _ => _
            | None => _
            end).
  assert (Q : fromInput q = formatDateTime (fst c)
              /\ toInput q = formatDateTime (snd c)
              /\ alerts q = alerts s /\ submitted q = submitted s).
  { unfold q, c, setDateRange, onSelected. picker_fields.
    destruct (picker s); cbv zeta; picker_fields;
      rewrite ?setHours_start, ?setHours_end; repeat split. }
  assert (C : 1000 <= getFullYear (fst c) <= 9999
              /\ 1000 <= getFullYear (snd c) <= 9999
              /\ fst c <= snd c).
  { unfold c. destruct (picker s); cbn [fst snd]; [|auto].
    unfold getFullYear in *. rewrite Day_of_start, Day_end.
    split; [exact Yf|]. split; [exact Yt|].
    pose proof (Day_mono from to Le). pose proof (Day_bounds from).
    unfold msPerDay in *. lia. }
  clearbody q c. destruct Q as (Qf & Qt & Qa & Qs).
  destruct C as (Cf & Ct & Cle).
  rewrite (applyClick_formatted q (fst c) (snd c) Cf Ct Qf Qt).
  apply floor_le in Cle.
  destruct (Z.ltb_spec (snd c - snd c mod 1000) (fst c - fst c mod 1000));
    [lia|].
  unfold closePanel. picker_fields. rewrite Qa, Qs.
  repeat split. exact Last.
Qed.

(** X13. A selection in the calendar followed by a click on apply, with both
    endpoints in the years 1000 to 9999.  When the day of the second endpoint
    is before that of the first, the stored selection is refused with the
    alert on the order and nothing is committed.  Otherwise the form is
    submitted once with the hidden fields at 00:00:00 of the first day and
    23:59:59 of the second, and the stored end of the range loses its 999
    milliseconds. *)
Theorem onSelected_then_apply d1 d2 s :
  1000 <= getFullYear d1 <= 9999 -> 1000 <= getFullYear d2 <= 9999 ->
  let from := Day d1 * msPerDay in
  let to := Day d2 * msPerDay + 86399999 in
  let s1 := onSelected (Some d1) (Some d2) s in
  let s' := applyClick newDateString hasRequestSubmit s1 in
  if Day d2 <? Day d1
  then s' = alert (str "'From' must be before 'To'.") s1
  else
    hiddenFrom s' = formatDateTime from /\ hiddenTo s' = formatDateTime to
    /\ currentFrom s' = Some from /\ currentTo s' = Some (to - 999)
    /\ alerts s' = alerts s
    /\ submitted s'
       = submitted s ++ [if hasRequestSubmit then RequestSubmit else Submit].
Proof.
  intros Y1 Y2. cbv zeta. unfold onSelected. cbv zeta.
  rewrite setHours_start, setHours_end.
  assert (Yf : 1000 <= getFullYear (Day d1 * msPerDay) <= 9999)
    by (unfold getFullYear in *; rewrite Day_of_start; exact Y1).
  assert (Yt : 1000 <= getFullYear (Day d2 * msPerDay + 86399999) <= 9999)
    by (unfold getFullYear in *; rewrite Day_end; exact Y2).
  match goal with
  | |- context [applyClick _ _ ?x] =>
      rewrite (applyClick_formatted x _ _ Yf Yt eq_refl eq_refl)
  end.
  assert (Mf : (Day d1 * msPerDay) mod 1000 = 0)
    by (unfold msPerDay; Z.div_mod_to_equations; lia).
  assert (Mt : (Day d2 * msPerDay + 86399999) mod 1000 = 999)
    by (unfold msPerDay; Z.div_mod_to_equations; lia).
  rewrite Mf, Mt, Z.sub_0_r.
  destruct (Z.ltb_spec (Day d2) (Day d1)) as [L | L].
  - replace (Day d2 * msPerDay + 86399999 - 999 <? Day d1 * msPerDay)
      with true by (symmetry; apply Z.ltb_lt; unfold msPerDay; lia).
    reflexivity.
  - replace (Day d2 * msPerDay + 86399999 - 999 <? Day d1 * msPerDay)
      with false by (symmetry; apply Z.ltb_ge; unfold msPerDay; lia).
    unfold closePanel. picker_fields. repeat split.
Qed.

(** X14. What apply has committed comes back when the page is loaded again
    with the submitted values in its hidden fields, for instants in the years
    1000 to 9999: [initFromHidden] stores the committed range to the second,
    the inputs hold the texts of the hidden fields and the label is the one
    apply wrote; a click on apply on that page commits the same two texts
    again. *)
Theorem applyClick_then_reload s from to page :
  fromInput s <> [] -> toInput s <> [] ->
  newDateString (replaceFirst 32 84 (fromInput s)) = Some from ->
  newDateString (replaceFirst 32 84 (toInput s)) = Some to ->
  from <= to ->
  1000 <= getFullYear from <= 9999 -> 1000 <= getFullYear to <= 9999 ->
  let s' := applyClick newDateString hasRequestSubmit s in
  let page' :=
    (initFromHidden newDateString)
      (set_hiddenTo (hiddenTo s') (set_hiddenFrom (hiddenFrom s') page)) in
  currentFrom page' = Some (from - from mod 1000)
  /\ currentTo page' = Some (to - to mod 1000)
  /\ fromInput page' = hiddenFrom s' /\ toInput page' = hiddenTo s'
  /\ summaryLabel page' = summaryLabel s'
  /\ hiddenFrom (applyClick newDateString hasRequestSubmit page') = hiddenFrom s'
  /\ hiddenTo (applyClick newDateString hasRequestSubmit page') = hiddenTo s'
  /\ submitted (applyClick newDateString hasRequestSubmit page')
     = submitted page ++ [if hasRequestSubmit then RequestSubmit else Submit].
Proof.
  intros Nf Nt Pf Pt Le Yf Yt. cbv zeta.
  assert (A : hiddenFrom (applyClick newDateString hasRequestSubmit s)
              = formatDateTime from
              /\ hiddenTo (applyClick newDateString hasRequestSubmit s)
                 = formatDateTime to
              /\ summaryLabel (applyClick newDateString hasRequestSubmit s)
                 = formatDateTime from ++ arrow ++ formatDateTime to).
  { unfold applyClick.
    destruct (fromInput s) as [|c1 r1]; [contradiction|].
    destruct (toInput s) as [|c2 r2]; [contradiction|].
    cbn [isEmpty orb]. rewrite Pf, Pt.
    destruct (Z.ltb_spec to from); [lia|].
    cbv zeta. unfold closePanel. picker_fields.
    destruct hasRequestSubmit; repeat split. }
  destruct A as (-> & -> & ->).
  set (p1 := set_hiddenTo _ _).
  assert (I : initFromHidden newDateString p1
              = set_summaryLabel
                  (formatDateTime from ++ arrow ++ formatDateTime to)
                  (set_toInput (formatDateTime to)
                     (set_fromInput (formatDateTime from)
                        (set_currentTo (Some (to - to mod 1000))
                           (set_currentFrom (Some (from - from mod 1000))
                              p1))))).
  { unfold initFromHidden, p1. picker_fields.
    rewrite (formatDateTime_nonempty from) by assumption. picker_fields.
    rewrite (formatDateTime_nonempty to) by assumption. picker_fields.
    unfold parseDT. rewrite !parses_formatted by assumption.
    picker_fields.
    destruct (formatDateTime_iso from Yf) as (_ & _ & ->).
    destruct (formatDateTime_iso to Yt) as (_ & _ & ->).
    reflexivity. }
  rewrite I. clear I.
  match goal with
  | |- context [applyClick _ _ ?x] =>
      rewrite (applyClick_formatted x from to Yf Yt eq_refl eq_refl)
  end.
  apply floor_le in Le.
  destruct (Z.ltb_spec (to - to mod 1000) (from - from mod 1000)); [lia|].
  unfold closePanel, p1. picker_fields. repeat split.
Qed.

End Compositions.

Lemma isoDateString_readsDateTimes : readsDateTimes isoDateString.
Proof. intros x v _ H. exact H. Qed.

Lemma quickRangeClick_then_apply_witness :
  let now := 1707568496789 in
  let built := set_picker (Some (mkLitepicker None)) (examplePicker [] []) in
  let s' := applyClick isoDateString true
              (quickRangeClick (Some (str "last_12_hours")) now built) in
  readsDateTimes isoDateString
  /\ 1001 <= getFullYear now <= 9999
  /\ formatDateTime (fst (computeQuickRange now (Some (str "last_12_hours"))))
     = str "2024-02-10 00:34:56"
  /\ hiddenFrom s' = str "2024-02-10 00:00:00"
  /\ hiddenTo s' = str "2024-02-10 23:59:59"
  /\ submitted s' = [RequestSubmit].
Proof.
  cbv zeta.
  assert (Y : 1001 <= getFullYear 1707568496789 <= 9999)
    by (vm_compute; split; discriminate).
  split; [exact isoDateString_readsDateTimes|]. split; [exact Y|].
  split; [vm_compute; reflexivity|].
  pose proof (quickRangeClick_then_apply isoDateString true
                isoDateString_readsDateTimes (Some (str "last_12_hours"))
                1707568496789
                (set_picker (Some (mkLitepicker None)) (examplePicker [] []))
                Y) as R.
  cbv zeta in R. destruct R as (R1 & R2 & _ & _ & _ & _ & R3 & _).
  split; [rewrite R1; vm_compute; reflexivity|].
  split; [rewrite R2; vm_compute; reflexivity | exact R3].
Defined.

Lemma onSelected_then_apply_witness :
  let d1 := 1715335200000 in
  let d2 := 1715248800000 in
  let s1 := onSelected (Some d1) (Some d2) (examplePicker [] []) in
  readsDateTimes isoDateString
  /\ 1000 <= getFullYear d1 <= 9999 /\ 1000 <= getFullYear d2 <= 9999
  /\ applyClick isoDateString true s1
     = alert (str "'From' must be before 'To'.") s1.
Proof.
  cbv zeta.
  assert (Y1 : 1000 <= getFullYear 1715335200000 <= 9999)
    by (vm_compute; split; discriminate).
  assert (Y2 : 1000 <= getFullYear 1715248800000 <= 9999)
    by (vm_compute; split; discriminate).
  split; [exact isoDateString_readsDateTimes|].
  split; [exact Y1|]. split; [exact Y2|].
  exact (onSelected_then_apply isoDateString true
           isoDateString_readsDateTimes 1715335200000 1715248800000
           (examplePicker [] []) Y1 Y2).
Defined.

Lemma applyClick_then_reload_witness :
  let s := examplePicker (str "2024-05-09 10:00:00")
             (str "2024-05-10 10:00:00") in
  let s' := applyClick isoDateString true s in
  let page' :=
    initFromHidden isoDateString
      (set_hiddenTo (hiddenTo s')
         (set_hiddenFrom (hiddenFrom s') (examplePicker [] []))) in
  readsDateTimes isoDateString
  /\ fromInput page' = str "2024-05-09 10:00:00"
  /\ toInput page' = str "2024-05-10 10:00:00"
  /\ currentFrom page' = Some 1715248800000.
Proof.
  cbv zeta.
  split; [exact isoDateString_readsDateTimes|].
  assert (Yf : 1000 <= getFullYear 1715248800000 <= 9999)
    by (vm_compute; split; discriminate).
  assert (Yt : 1000 <= getFullYear 1715335200000 <= 9999)
    by (vm_compute; split; discriminate).
  assert (NF : fromInput (examplePicker (str "2024-05-09 10:00:00")
                            (str "2024-05-10 10:00:00")) <> [])
    by discriminate.
  assert (NT : toInput (examplePicker (str "2024-05-09 10:00:00")
                          (str "2024-05-10 10:00:00")) <> [])
    by discriminate.
  assert (Le : 1715248800000 <= 1715335200000) by lia.
  pose proof (applyClick_then_reload isoDateString true
                isoDateString_readsDateTimes
                (examplePicker (str "2024-05-09 10:00:00")
                   (str "2024-05-10 10:00:00"))
                1715248800000 1715335200000 (examplePicker [] [])
                NF NT eq_refl eq_refl Le Yf Yt) as R.
  cbv zeta in R. destruct R as (R1 & _ & R3 & R4 & _).
  split; [rewrite R3; vm_compute; reflexivity|].
  split; [rewrite R4; vm_compute; reflexivity | exact R1].
Defined.

(** ** Rows that resync passes over *)

Lemma forEachRow_filled rs : forall data,
  forEachRow rs data = forEachRow (filter filled rs) data.
Proof.
  induction rs as [|r rs IH]; intros data; [reflexivity|].
  cbn [forEachRow filter]. unfold filled at 1.
  destruct (isEmpty (trim (keyInput r))) eqn:E; cbn [negb]; [apply IH|].
  cbn [forEachRow]. rewrite E.
  destruct (hasOwnProperty data (trim (keyInput r))) as [[|]|];
    [apply IH | apply IH | reflexivity].
Qed.

Lemma forEachRow_entries rs1 : forall rs2 data,
  map entryOf rs1 = map entryOf rs2 ->
  forEachRow rs1 data = forEachRow rs2 data.
Proof.
  induction rs1 as [|r1 rs1 IH]; intros [|r2 rs2] data E;
    try discriminate E; [reflexivity|].
  cbn [map] in E. unfold entryOf at 1 3 in E.
  injection E as K V E2. cbn [forEachRow]. rewrite K, V.
  destruct (isEmpty (trim (keyInput r2))); [apply IH; exact E2|].
  destruct (hasOwnProperty data (trim (keyInput r2))) as [[|]|];
    [apply IH; exact E2 | apply IH; exact E2 | reflexivity].
Qed.

(** X17. Resync reads a row through its trimmed key and its value text only,
    and passes over the rows whose key is blank: two tables that agree on
    these for their rows with a key give the same outcome, the same hidden
    text when resync returns and an error in both when it throws.  So blank
    rows, and white space around a key, never show in the document. *)
Theorem syncHidden_filled_rows w1 w2 :
  map entryOf (filter filled (rows w1)) = map entryOf (filter filled (rows w2)) ->
  match syncHidden w1, syncHidden w2 with
  | Done a, Done b => hidden a = hidden b
  | TypeError a, TypeError b => a = w1 /\ b = w2
  | _, _ => False
  end.
Proof.
  intros E. unfold syncHidden.
  rewrite (forEachRow_filled (rows w1)), (forEachRow_filled (rows w2)).
  rewrite (forEachRow_entries _ _ _ E).
  destruct (forEachRow (filter filled (rows w2)) _); [reflexivity|].
  split; reflexivity.
Qed.

Lemma syncHidden_filled_rows_witness :
  let w1 := mkWidget [] [mkRow (str " a ") (str "1"); mkRow (str "  ") (str "x")]
              true in
  let w2 := mkWidget (str "{}") [mkRow (str "a") (str "1")] true in
  map entryOf (filter filled (rows w1)) = map entryOf (filter filled (rows w2))
  /\ match syncHidden w1, syncHidden w2 with
     | Done a, Done b => hidden a = hidden b
     | TypeError a, TypeError b => a = w1 /\ b = w2
     | _, _ => False
     end.
Proof.
  cbv zeta.
  assert (E : map entryOf
                (filter filled
                   (rows (mkWidget []
                            [mkRow (str " a ") (str "1");
                             mkRow (str "  ") (str "x")] true)))
              = map entryOf
                  (filter filled
                     (rows (mkWidget (str "{}") [mkRow (str "a") (str "1")]
                              true))))
    by reflexivity.
  split; [exact E|].
  exact (syncHidden_filled_rows
           (mkWidget [] [mkRow (str " a ") (str "1");
                         mkRow (str "  ") (str "x")] true)
           (mkWidget (str "{}") [mkRow (str "a") (str "1")] true) E).
Defined.

(** ** The hidden input follows the rows *)

Lemma syncHidden_Done w w' :
  syncHidden w = Done w' ->
  rows w' = rows w /\ listening w' = listening w /\ syncHidden w' = Done w'.
Proof.
  unfold syncHidden. intros H.
  destruct (forEachRow (rows w) _) as [data|] eqn:F; [|discriminate H].
  injection H as <-. cbn [rows set_hidden listening]. rewrite F.
  repeat split.
Qed.

Lemma syncHidden_TypeError w w' :
  syncHidden w = TypeError w' -> w' = w /\ syncHidden w' = TypeError w'.
Proof.
  unfold syncHidden. intros H.
  destruct (forEachRow (rows w) _) as [data|] eqn:F; [discriminate H|].
  injection H as <-. rewrite F. split; reflexivity.
Qed.

(** X18. Every event whose handler runs ends with the hidden input in step
    with the rows: a further resync would write the same text.  When the
    resync throws, the rows have changed but the hidden input keeps the text
    it had, and a further resync throws again.  The one event that changes
    nothing is a click on a remove button that is not there.  The handlers of
    typing and of clicks run once [init] has attached them; the submit
    listener of the form resyncs the editor whether or not [init] has run for
    it. *)
Theorem handle_resyncs w e :
  listening w = true \/ e = FormSubmit ->
  match handle w e with
  | Done w' =>
      syncHidden w' = Done w'
      \/ (exists i, e = RemoveClick i /\ (List.length (rows w) <= i)%nat
                    /\ w' = w)
  | TypeError w' => hidden w' = hidden w /\ syncHidden w' = TypeError w'
  end.
Proof.
  assert (S : forall v, hidden v = hidden w ->
            match syncHidden v with
            | Done w' => syncHidden w' = Done w'
            | TypeError w' =>
                hidden w' = hidden w /\ syncHidden w' = TypeError w'
            end).
  { intros v Hv. destruct (syncHidden v) as [w'|w'] eqn:E.
    - apply (syncHidden_Done v w' E).
    - destruct (syncHidden_TypeError v w' E) as [-> T].
      split; [exact Hv | exact T]. }
  assert (F : match handle w FormSubmit with
              | Done w' =>
                  syncHidden w' = Done w'
                  \/ (exists i, FormSubmit = RemoveClick i
                                /\ (List.length (rows w) <= i)%nat /\ w' = w)
              | TypeError w' =>
                  hidden w' = hidden w /\ syncHidden w' = TypeError w'
              end).
  { cbn [handle]. pose proof (S w eq_refl) as P.
    destruct (syncHidden w); [left; exact P | exact P]. }
  intros [L | ->]; [|exact F].
  destruct e as [i f text | i | |]; [| | |exact F]; cbn [handle].
  - cbn [listening set_rows]. rewrite L.
    pose proof (S (mkWidget (hidden w) (editRow i f text (rows w))
                     (listening w)) eq_refl) as P.
    unfold set_rows.
    destruct (syncHidden _); [left; exact P | exact P].
  - rewrite L. cbn [andb].
    destruct (Nat.ltb_spec i (List.length (rows w))) as [Lt | Ge].
    + pose proof (S (set_rows (removeRow i (rows w)) w) eq_refl) as P.
      destruct (syncHidden _); [left; exact P | exact P].
    + right. exists i. repeat split. exact Ge.
  - rewrite L. unfold addRow.
    pose proof (S (set_rows (rows w ++ [buildRow [] (JString [])]) w)
                  eq_refl) as P.
    destruct (syncHidden _); [left; exact P | exact P].
Qed.

Lemma handle_resyncs_witness :
  let w := mkWidget (str "null") [mkRow (str "a") (str "1")] false in
  (listening w = true \/ FormSubmit = FormSubmit)
  /\ handle w FormSubmit
     = Done (set_hidden (str "{" ++ quoted "a" ++ str ":1}") w)
  /\ match handle w FormSubmit with
     | Done w' =>
         syncHidden w' = Done w'
         \/ (exists i, FormSubmit = RemoveClick i
                       /\ (List.length (rows w) <= i)%nat /\ w' = w)
     | TypeError w' => hidden w' = hidden w /\ syncHidden w' = TypeError w'
     end.
Proof.
  cbv zeta.
  split; [right; reflexivity|]. split; [reflexivity|].
  exact (handle_resyncs
           (mkWidget (str "null") [mkRow (str "a") (str "1")] false)
           FormSubmit (or_intror eq_refl)).
Defined.

(** ** Where the entries of the document come from *)

Lemma hasProp_In k ps : JSON.hasProp k ps = true <-> In k (map fst ps).
Proof.
  unfold JSON.hasProp. rewrite existsb_exists. split.
  - intros (p & I & E). apply eqb_str_eq in E. subst k.
    apply in_map. exact I.
  - intros I. apply in_map_iff in I. destruct I as (p & E & I).
    exists p. split; [exact I|]. subst k. apply eqb_str_refl.
Qed.

Lemma replaceProp_keys k v ps :
  map fst (JSON.replaceProp k v ps) = map fst ps.
Proof.
  induction ps as [|[k' v'] ps IH]; [reflexivity|].
  cbn [JSON.replaceProp]. destruct (eqb_str k k'); cbn [map fst];
    [reflexivity | f_equal; exact IH].
Qed.

Lemma In_replaceProp k v key val ps :
  In (k, v) (JSON.replaceProp key val ps) ->
  (k, v) = (key, val) \/ In (k, v) ps.
Proof.
  induction ps as [|[k' v'] ps IH]; [intros []|].
  cbn [JSON.replaceProp]. destruct (eqb_str key k') eqn:E.
  - apply eqb_str_eq in E. subst k'. intros [I | I].
    + left. symmetry. exact I.
    + right. right. exact I.
  - intros [I | I]; [right; left; exact I|].
    destruct (IH I) as [J | J]; [left; exact J | right; right; exact J].
Qed.

Lemma insertIndexed_perm i key val ps :
  forall p, In p (JSON.insertIndexed i key val ps) <-> p = (key, val) \/ In p ps.
Proof.
  induction ps as [|[k' v'] ps IH]; intros p.
  - cbn. intuition congruence.
  - cbn [JSON.insertIndexed].
    destruct (JSON.arrayIndex k') as [j|]; [destruct (j <? i)%N|].
    + cbn [In]. rewrite IH. intuition congruence.
    + cbn [In]. intuition congruence.
    + cbn [In]. intuition congruence.
Qed.

Lemma insertIndexed_NoDup i key val ps :
  ~ In key (map fst ps) -> NoDup (map fst ps) ->
  NoDup (map fst (JSON.insertIndexed i key val ps)).
Proof.
  induction ps as [|[k' v'] ps IH]; intros N D.
  - cbn. constructor; [intros [] | constructor].
  - cbn [JSON.insertIndexed]. cbn [map fst] in N, D.
    inversion D as [|? ? N' D']. subst.
    assert (G : NoDup (map fst ((key, val) :: (k', v') :: ps)))
      by (cbn [map fst]; constructor; [exact N | exact D]).
    destruct (JSON.arrayIndex k') as [j|]; [destruct (j <? i)%N|];
      [|exact G | exact G].
    cbn [map fst]. constructor.
    + intros I. apply in_map_iff in I. destruct I as ([k2 v2] & E & I).
      cbn [fst] in E. subst k2. apply insertIndexed_perm in I.
      destruct I as [I | I].
      * injection I as -> _. apply N. left. reflexivity.
      * apply N'. apply (in_map fst) in I. exact I.
    + apply IH; [intros I; apply N; right; exact I | exact D'].
Qed.

Lemma defineProp_sound key val ps :
  NoDup (map fst ps) ->
  NoDup (map fst (JSON.defineProp key val ps))
  /\ forall k v, In (k, v) (JSON.defineProp key val ps) ->
       (k, v) = (key, val) \/ In (k, v) ps.
Proof.
  intros D. unfold JSON.defineProp.
  destruct (JSON.hasProp key ps) eqn:H.
  - rewrite replaceProp_keys. split; [exact D|].
    intros k v. apply In_replaceProp.
  - assert (N : ~ In key (map fst ps))
      by (intros I; apply hasProp_In in I; congruence).
    destruct (JSON.arrayIndex key) as [i|].
    + split; [apply insertIndexed_NoDup; assumption|].
      intros k v I. apply insertIndexed_perm in I. exact I.
    + split.
      * rewrite map_app. cbn [map fst]. apply NoDup_app.
        -- exact D.
        -- constructor; [intros [] | constructor].
        -- intros a Ia [<- | []]. exact (N Ia).
      * intros k v I. apply in_app_iff in I.
        destruct I as [I | [I | []]];
          [right; exact I | left; symmetry; exact I].
Qed.

Lemma setProperty_sound data key val :
  NoDup (map fst (own data)) ->
  NoDup (map fst (own (setProperty data key val)))
  /\ forall k v, In (k, v) (own (setProperty data key val)) ->
       (k, v) = (key, val) \/ In (k, v) (own data).
Proof.
  intros D. pose proof (defineProp_sound key val (own data) D) as P.
  unfold setProperty.
  destruct (JSON.hasProp key (own data) || inheritedBefore key (proto data));
    [exact P|].
  destruct (eqb_str key (str "__proto__")); [|exact P].
  destruct (proto data); [| exact P |];
    destruct val; cbn [own]; (split; [exact D | intros k v' I; right; exact I]).
Qed.

Lemma forEachRow_sound (all : list Row) rs : forall data data',
  (forall r, In r rs -> In r all) ->
  NoDup (map fst (own data)) ->
  (forall k v, In (k, v) (own data) ->
     k <> [] /\ exists r, In r all /\ trim (keyInput r) = k
                          /\ parseValue (valInput r) = v) ->
  forEachRow rs data = Some data' ->
  NoDup (map fst (own data'))
  /\ forall k v, In (k, v) (own data') ->
       k <> [] /\ exists r, In r all /\ trim (keyInput r) = k
                            /\ parseValue (valInput r) = v.
Proof.
  induction rs as [|r rs IH]; intros data data' Sub D Q F.
  - injection F as <-. split; assumption.
  - cbn [forEachRow] in F.
    assert (Sub' : forall r0, In r0 rs -> In r0 all)
      by (intros r0 I; apply Sub; right; exact I).
    destruct (isEmpty (trim (keyInput r))) eqn:E;
      [apply (IH data data' Sub' D Q F)|].
    destruct (hasOwnProperty data (trim (keyInput r))) as [[|]|];
      [apply (IH data data' Sub' D Q F) | | discriminate F].
    destruct (setProperty_sound data (trim (keyInput r))
                (parseValue (valInput r)) D) as [D' Q'].
    apply (IH _ data' Sub' D'); [|exact F].
    intros k v I. destruct (Q' k v I) as [J | J]; [|apply Q; exact J].
    injection J as -> ->. split.
    + intros Z0. rewrite Z0 in E. discriminate E.
    + exists r. split; [apply Sub; left; reflexivity|]. split; reflexivity.
Qed.

(** X19. Whatever the keys, a resync that returns writes the text of an
    object that has no two entries with one key and nothing of its own
    making: each entry has a key that is not empty and is the trimmed key of
    a row of the table, with the decoded value text of that row.  The rows and
    the listeners stay as they are. *)
Theorem syncHidden_entries_from_rows w w' :
  syncHidden w = Done w' ->
  exists ps,
    w' = set_hidden (JSON.stringify (JObject ps)) w
    /\ NoDup (map fst ps)
    /\ forall k v, In (k, v) ps ->
         k <> []
         /\ exists r, In r (rows w) /\ trim (keyInput r) = k
                      /\ parseValue (valInput r) = v.
Proof.
  unfold syncHidden. intros H.
  destruct (forEachRow (rows w) (mkData [] ObjectPrototype)) as [data|] eqn:F;
    [|discriminate H].
  injection H as <-. exists (own data). split; [reflexivity|].
  apply (forEachRow_sound (rows w) (rows w) (mkData [] ObjectPrototype) data);
    [auto | constructor | intros k v [] | exact F].
Qed.

Lemma syncHidden_entries_from_rows_witness :
  let w := mkWidget [] [mkRow (str "__proto__") (str "{}");
                        mkRow (str " a") (str "1");
                        mkRow (str "a ") (str "2")] true in
  syncHidden w = Done (set_hidden (str "{" ++ quoted "a" ++ str ":1}") w)
  /\ exists ps,
       set_hidden (str "{" ++ quoted "a" ++ str ":1}") w
       = set_hidden (JSON.stringify (JObject ps)) w
       /\ NoDup (map fst ps).
Proof.
  cbv zeta.
  assert (E : syncHidden
                (mkWidget [] [mkRow (str "__proto__") (str "{}");
                              mkRow (str " a") (str "1");
                              mkRow (str "a ") (str "2")] true)
              = Done (set_hidden (str "{" ++ quoted "a" ++ str ":1}")
                        (mkWidget [] [mkRow (str "__proto__") (str "{}");
                                      mkRow (str " a") (str "1");
                                      mkRow (str "a ") (str "2")] true)))
    by (vm_compute; reflexivity).
  split; [exact E|].
  destruct (syncHidden_entries_from_rows _ _ E) as (ps & Ew & D & _).
  exists ps. split; [exact Ew | exact D].
Defined.

(** ** Integers through [JSON.stringify] and [JSON.parse] *)

Lemma digitsToN_snoc ds c :
  JSON.digitsToN (ds ++ [c]) = (10 * JSON.digitsToN ds + (c - 48))%N.
Proof. unfold JSON.digitsToN. rewrite fold_left_app. reflexivity. Qed.

Lemma digitsToN_zeros ds k :
  JSON.digitsToN (ds ++ repeat 48%N k) = (JSON.digitsToN ds * 10 ^ N.of_nat k)%N.
Proof.
  induction k as [|k IH].
  - cbn [repeat]. rewrite app_nil_r. change (10 ^ N.of_nat 0)%N with 1%N. lia.
  - replace (repeat 48%N (S k)) with (repeat 48%N k ++ [48%N])
      by (symmetry; apply (repeat_cons k 48%N)).
    rewrite app_assoc, digitsToN_snoc, IH.
    rewrite Nat2N.inj_succ, N.pow_succ_r'. lia.
Qed.

Lemma digitsAux_value fuel : forall n acc,
  (n < 2 ^ N.of_nat (S fuel))%N ->
  exists ds,
    digitsAux (S fuel) n acc = ds ++ acc
    /\ JSON.digitsToN ds = n
    /\ (n <> 0%N -> (10 ^ N.of_nat (List.length ds - 1) <= n)%N).
Proof.
  induction fuel as [|fuel IH]; intros n acc Hn.
  - change (2 ^ N.of_nat 1)%N with 2%N in Hn.
    rewrite digitsAux_S. destruct (N.ltb_spec n 10); [|lia].
    exists [(48 + n)%N]. split; [reflexivity|]. split.
    + unfold JSON.digitsToN. cbn [fold_left]. lia.
    + intros Hz. cbn [List.length Nat.sub]. change (10 ^ N.of_nat 0)%N with 1%N.
      lia.
  - rewrite digitsAux_S.
    destruct (N.ltb_spec n 10).
    + exists [(48 + n)%N]. split; [reflexivity|]. split.
      * unfold JSON.digitsToN. cbn [fold_left]. lia.
      * intros Hz. cbn [List.length Nat.sub].
        change (10 ^ N.of_nat 0)%N with 1%N. lia.
    + assert (Hq : (n / 10 < 2 ^ N.of_nat (S fuel))%N).
      { rewrite Nat2N.inj_succ, N.pow_succ_r' in Hn.
        apply N.Div0.div_lt_upper_bound. lia. }
      destruct (IH (n / 10)%N ((48 + n mod 10)%N :: acc) Hq)
        as (ds & E & V & B).
      exists (ds ++ [(48 + n mod 10)%N]). split.
      * rewrite E, <- app_assoc. reflexivity.
      * pose proof (N.div_mod n 10 ltac:(discriminate)) as DM.
        assert (Hq0 : (n / 10 <> 0)%N).
        { intros E0. apply N.div_small_iff in E0; lia. }
        split.
        -- rewrite digitsToN_snoc, V.
           generalize dependent (n mod 10)%N. intros. lia.
        -- intros _. specialize (B Hq0). rewrite length_app.
           cbn [List.length].
           assert (L : (1 <= List.length ds)%nat).
           { destruct ds; [|cbn; lia]. unfold JSON.digitsToN in V. cbn in V.
             congruence. }
           replace (List.length ds + 1 - 1)%nat
             with (S (List.length ds - 1)) by lia.
           rewrite Nat2N.inj_succ, N.pow_succ_r'.
           generalize dependent (n mod 10)%N. intros.
           generalize dependent (10 ^ N.of_nat (List.length ds - 1))%N.
           intros. lia.
Qed.

Lemma digitsOfN_value n :
  JSON.digitsToN (digitsOfN n) = n
  /\ (n <> 0%N -> (10 ^ N.of_nat (List.length (digitsOfN n) - 1) <= n)%N).
Proof.
  unfold digitsOfN.
  destruct (digitsAux_value (N.to_nat (N.log2 n)) n []) as (ds & E & V & B).
  - rewrite Nat2N.inj_succ, N2Nat.id.
    destruct (N.eq_dec n 0) as [-> | Hn]; [reflexivity|].
    apply N.log2_spec. lia.
  - rewrite E, app_nil_r. split; assumption.
Qed.

Lemma stripZeros_pow k : forall fuel m e,
  (m mod 10 <> 0)%N -> (k < fuel)%nat ->
  JSON.stripZeros fuel (m * 10 ^ N.of_nat k)%N e = (m, e + Z.of_nat k).
Proof.
  induction k as [|k IH]; intros fuel m e Hm Hf.
  - destruct fuel as [|f]; [lia|]. change (10 ^ N.of_nat 0)%N with 1%N.
    rewrite N.mul_1_r. cbn [JSON.stripZeros].
    assert (m <> 0)%N by (intros ->; apply Hm; reflexivity).
    destruct (N.eqb_spec m 0); [contradiction|].
    destruct (N.eqb_spec (m mod 10) 0); [contradiction|].
    f_equal. lia.
  - destruct fuel as [|f]; [lia|]. cbn [JSON.stripZeros].
    rewrite Nat2N.inj_succ, N.pow_succ_r'.
    assert (m <> 0)%N by (intros ->; apply Hm; reflexivity).
    assert (P : (10 ^ N.of_nat k <> 0)%N) by (apply N.pow_nonzero; discriminate).
    replace (m * (10 * 10 ^ N.of_nat k))%N
      with ((m * 10 ^ N.of_nat k) * 10)%N by lia.
    destruct (N.eqb_spec (m * 10 ^ N.of_nat k * 10) 0) as [Z0 | _]; [lia|].
    rewrite N.Div0.mod_mul, N.div_mul by discriminate.
    cbn [N.eqb]. rewrite (IH f m (e + 1) Hm ltac:(lia)). f_equal. lia.
Qed.

Lemma parse_token c r x :
  JSON.isDigit c = true \/ c = 45%N ->
  forallb JSON.isNumChar (c :: r) = true ->
  JSON.numberOfToken (c :: r) = Some x ->
  JSON.parse (c :: r) = Some (JNumber x).
Proof.
  intros D NC T. unfold JSON.parse.
  assert (W : JSON.isJsonWs c = false /\ (c =? 123)%N = false
              /\ (c =? 91)%N = false /\ (c =? 34)%N = false
              /\ (c =? 110)%N = false /\ (c =? 116)%N = false
              /\ (c =? 102)%N = false).
  { unfold JSON.isJsonWs. destruct D as [D | ->].
    - apply isDigit_spec in D. repeat split; N_decide.
    - repeat split; reflexivity. }
  destruct W as (W0 & W1 & W2 & W3 & W4 & W5 & W6).
  cbn [JSON.parseJsonValue JSON.skipWs]. rewrite W0, W1, W2, W3, W4, W5, W6.
  pose proof (spanNum_app (c :: r) [] NC eq_refl) as Sp.
  rewrite app_nil_r in Sp. rewrite Sp, T. reflexivity.
Qed.

Lemma log2_pow10 m k :
  (m <> 0)%N -> (k <= N.to_nat (N.log2 (m * 10 ^ N.of_nat k)))%nat.
Proof.
  intros Hm.
  assert (P : (2 ^ N.of_nat k <= m * 10 ^ N.of_nat k)%N).
  { assert (A : (2 ^ N.of_nat k <= 10 ^ N.of_nat k)%N)
      by (apply N.pow_le_mono_l; lia).
    assert (B : (1 * 10 ^ N.of_nat k <= m * 10 ^ N.of_nat k)%N)
      by (apply N.mul_le_mono_r; lia).
    lia. }
  apply N.log2_le_mono in P. rewrite N.log2_pow2 in P by lia. lia.
Qed.

Lemma makeNumber_pow neg m k :
  (m mod 10 <> 0)%N ->
  JSON.makeNumber neg (m * 10 ^ N.of_nat k)%N 0 = mkNumber neg m (Z.of_nat k).
Proof.
  intros Hm. unfold JSON.makeNumber.
  assert (m <> 0)%N by (intros ->; apply Hm; reflexivity).
  rewrite (stripZeros_pow k) by (try exact Hm; pose proof (log2_pow10 m k); lia).
  destruct (N.eqb_spec m 0); [contradiction|].
  cbn [negb]. rewrite andb_true_r. reflexivity.
Qed.

Lemma digits_fit m k :
  (m <> 0)%N -> (m * 10 ^ N.of_nat k < 2 ^ 53)%N ->
  (List.length (digitsOfN m) + k <= 16)%nat.
Proof.
  intros Hm B. destruct (digitsOfN_value m) as [_ L]. specialize (L Hm).
  set (l := List.length (digitsOfN m)) in *.
  destruct (Nat.le_gt_cases (l + k) 16) as [Le | Gt]; [exact Le|]. exfalso.
  assert (A : (10 ^ N.of_nat (l - 1) * 10 ^ N.of_nat k
               <= m * 10 ^ N.of_nat k)%N)
    by (apply N.mul_le_mono_r; exact L).
  rewrite <- N.pow_add_r in A.
  assert (C : (10 ^ 16 <= 10 ^ (N.of_nat (l - 1) + N.of_nat k))%N)
    by (apply N.pow_le_mono_r; lia).
  assert (D : (2 ^ 53 < 10 ^ 16)%N) by reflexivity.
  lia.
Qed.

Lemma NumberToString_integer neg m k :
  (m <> 0)%N -> (m * 10 ^ N.of_nat k < 2 ^ 53)%N ->
  JSON.NumberToString (mkNumber neg m (Z.of_nat k))
  = (if neg then [45%N] else []) ++ digitsOfN m ++ repeat 48%N k.
Proof.
  intros Hm B. unfold JSON.NumberToString. cbn [mantissa negative exponent].
  destruct (N.eqb_spec m 0); [contradiction|]. cbv zeta.
  pose proof (digits_fit m k Hm B) as F.
  unfold JSON.placeDigits. cbv zeta.
  replace ((Z.of_nat (List.length (digitsOfN m))
            <=? Z.of_nat (List.length (digitsOfN m)) + Z.of_nat k)
           && (Z.of_nat (List.length (digitsOfN m)) + Z.of_nat k <=? 21))
    with true by (symmetry; rewrite andb_true_iff, !Z.leb_le; lia).
  replace (Z.to_nat (Z.of_nat (List.length (digitsOfN m)) + Z.of_nat k
                     - Z.of_nat (List.length (digitsOfN m)))) with k by lia.
  destruct neg; reflexivity.
Qed.

Lemma parse_integer neg m k :
  (m mod 10 <> 0)%N -> (m * 10 ^ N.of_nat k < 2 ^ 53)%N ->
  JSON.parse (JSON.NumberToString (mkNumber neg m (Z.of_nat k)))
  = Some (JNumber (mkNumber neg m (Z.of_nat k))).
Proof.
  intros Hm B.
  assert (Hz : (m <> 0)%N) by (intros ->; apply Hm; reflexivity).
  rewrite (NumberToString_integer neg m k Hz B).
  destruct (digitsOfN_spec m) as (d & ds & E & D & Hd). specialize (Hd Hz).
  destruct (digitsOfN_value m) as [V _].
  assert (DZ : forallb JSON.isDigit ((d :: ds) ++ repeat 48%N k) = true)
    by (rewrite forallb_app, D, forallb_repeat_zero; reflexivity).
  assert (U : JSON.unsignedNumber neg ((d :: ds) ++ repeat 48%N k)
              = Some (mkNumber neg m (Z.of_nat k))).
  { unfold JSON.unsignedNumber. rewrite (spanDigits_all _ DZ).
    cbn [app]. apply N.eqb_neq in Hd. rewrite Hd. cbn [andb].
    change (d :: ds ++ repeat 48%N k) with ((d :: ds) ++ repeat 48%N k).
    rewrite digitsToN_zeros, <- E, V, makeNumber_pow by exact Hm.
    reflexivity. }
  rewrite E.
  assert (Dd : JSON.isDigit d = true)
    by (cbn [forallb] in D; apply andb_true_iff in D; apply D).
  destruct neg; cbn [app].
  - apply parse_token.
    + right. reflexivity.
    + pose proof (forallb_digits_numchars _ DZ) as NC.
      cbn [app forallb] in NC |- *.
      change (JSON.isNumChar 45) with true. exact NC.
    + cbn [JSON.numberOfToken]. change ((45 =? 45)%N) with true. cbv iota.
      exact U.
  - change (d :: ds ++ repeat 48%N k) with ((d :: ds) ++ repeat 48%N k).
    apply parse_token.
    + left. exact Dd.
    + cbn [app]. change (d :: ds ++ repeat 48%N k)
        with ((d :: ds) ++ repeat 48%N k).
      apply forallb_digits_numchars. exact DZ.
    + cbn [app JSON.numberOfToken].
      destruct (N.eqb_spec d 45) as [-> | _]; [discriminate Dd|].
      exact U.
Qed.

Lemma parse_safeInteger n :
  safeInteger n = true ->
  JSON.parse (JSON.NumberToString n) = Some (JNumber n).
Proof.
  destruct n as [neg m e]. unfold safeInteger. cbn [mantissa negative exponent].
  destruct (N.eqb_spec m 0) as [-> | Hz].
  - rewrite andb_true_iff, negb_true_iff, Z.eqb_eq. intros [-> ->].
    reflexivity.
  - rewrite !andb_true_iff, negb_true_iff, N.eqb_neq, Z.leb_le, N.ltb_lt.
    intros [[Hm He] B].
    replace e with (Z.of_nat (Z.to_nat e)) by lia.
    replace (Z.to_N e) with (N.of_nat (Z.to_nat e)) in B by lia.
    apply parse_integer; assumption.
Qed.

(** ** What a value becomes when it is shown and read back *)

Lemma inputValue_plain s :
  forallb (fun c => negb ((c =? 34) || (c =? 10) || (c =? 13))%N) s = true ->
  inputValue s = s.
Proof.
  unfold inputValue. induction s as [|c s IH]; [reflexivity|].
  cbn [forallb attrText]. intros H. apply andb_true_iff in H.
  destruct H as [Hc Hs].
  destruct (N.eqb_spec c 34) as [-> | _]; [discriminate Hc|].
  cbn [filter]. cbn [orb] in Hc.
  rewrite Hc. f_equal. apply IH. exact Hs.
Qed.

Lemma inputValue_plainText s : plainText s = true -> inputValue s = s.
Proof.
  intros P. apply inputValue_plain. unfold plainText in P.
  rewrite forallb_forall in P |- *. intros c I. specialize (P c I).
  destruct (N.eqb_spec c 34) as [E | _]; [rewrite E in P; discriminate P|].
  destruct (N.eqb_spec c 10) as [E | _]; [rewrite E in P; discriminate P|].
  destruct (N.eqb_spec c 13) as [E | _]; [rewrite E in P; discriminate P|].
  reflexivity.
Qed.

Lemma plainText_no_quote s : plainText s = true -> ~ In 34%N s.
Proof.
  unfold plainText. rewrite forallb_forall. intros P I.
  specialize (P _ I). discriminate P.
Qed.

Lemma isNumChar_plain c :
  JSON.isNumChar c = true -> negb ((c =? 34) || (c =? 10) || (c =? 13))%N = true.
Proof.
  destruct (N.eqb_spec c 34) as [-> | _]; [discriminate|].
  destruct (N.eqb_spec c 10) as [-> | _]; [discriminate|].
  destruct (N.eqb_spec c 13) as [-> | _]; [discriminate|].
  reflexivity.
Qed.

Lemma stringify_member_object p ps :
  exists r, JSON.stringify (JObject (p :: ps)) = 123%N :: 34%N :: r.
Proof.
  cbn [JSON.stringify map]. unfold JSON.quote.
  destruct (map _ ps); cbn [JSON.joinComma app]; eexists; reflexivity.
Qed.

Lemma stringify_string_array s l :
  exists r, JSON.stringify (JArray (JString s :: l)) = 91%N :: 34%N :: r.
Proof.
  cbn [JSON.stringify map]. unfold JSON.quote.
  destruct (map _ l); cbn [JSON.joinComma app]; eexists; reflexivity.
Qed.

(** A text that parses to a string starts, after white space, with a double
    quote. *)
Lemma skipWs_In s c r : JSON.skipWs s = c :: r -> In c s.
Proof.
  induction s as [|a s IH]; [discriminate|].
  cbn [JSON.skipWs]. destruct (JSON.isJsonWs a).
  - intros E. right. apply IH. exact E.
  - intros [= -> _]. left. reflexivity.
Qed.

Lemma parseElements_array f : forall s acc v r,
  JSON.parseElements f s acc = Some (v, r) -> exists l, v = JArray l.
Proof.
  induction f as [|f IH]; intros s acc v r; [discriminate|].
  cbn [JSON.parseElements].
  destruct (JSON.parseJsonValue f s) as [[x r1]|]; [|discriminate].
  destruct (JSON.skipWs r1) as [|c r2]; [discriminate|].
  destruct (c =? 44)%N; [apply IH|].
  destruct (c =? 93)%N; [|discriminate].
  intros [= <- _]. eexists. reflexivity.
Qed.

Lemma parseMembers_object f : forall s acc v r,
  JSON.parseMembers f s acc = Some (v, r) -> exists ps, v = JObject ps.
Proof.
  induction f as [|f IH]; intros s acc v r; [discriminate|].
  cbn [JSON.parseMembers].
  destruct (JSON.skipWs s) as [|q r0]; [discriminate|].
  destruct (q =? 34)%N; [|discriminate].
  destruct (JSON.parseChars r0) as [[k r1]|]; [|discriminate].
  destruct (JSON.skipWs r1) as [|c1 r2]; [discriminate|].
  destruct (c1 =? 58)%N; [|discriminate].
  destruct (JSON.parseJsonValue f r2) as [[x r3]|]; [|discriminate].
  destruct (JSON.skipWs r3) as [|c3 r4]; [discriminate|].
  destruct (c3 =? 44)%N; [apply IH|].
  destruct (c3 =? 125)%N; [|discriminate].
  intros [= <- _]. eexists. reflexivity.
Qed.

Lemma parse_string_quote s t : JSON.parse s = Some (JString t) -> In 34%N s.
Proof.
  unfold JSON.parse.
  destruct (JSON.parseJsonValue _ s) as [[v rest]|] eqn:P; [|discriminate].
  destruct (isEmpty (JSON.skipWs rest)); [|discriminate].
  intros [= ->]. cbn [JSON.parseJsonValue] in P.
  destruct (JSON.skipWs s) as [|c r] eqn:W; [discriminate P|].
  apply skipWs_In in W.
  destruct (N.eqb_spec c 123) as [-> | _].
  { destruct (JSON.skipWs r) as [|c' r']; [discriminate P|].
    destruct (c' =? 125)%N; [discriminate P|].
    apply parseMembers_object in P. destruct P as [ps P]. discriminate P. }
  destruct (N.eqb_spec c 91) as [-> | _].
  { destruct (JSON.skipWs r) as [|c' r']; [discriminate P|].
    destruct (c' =? 93)%N; [discriminate P|].
    apply parseElements_array in P. destruct P as [l P]. discriminate P. }
  destruct (N.eqb_spec c 34) as [-> | _]; [exact W|].
  unfold JSON.literal in P.
  destruct (c =? 110)%N; [destruct (eqb_str _ _); discriminate P|].
  destruct (c =? 116)%N; [destruct (eqb_str _ _); discriminate P|].
  destruct (c =? 102)%N; [destruct (eqb_str _ _); discriminate P|].
  destruct (JSON.spanNum (c :: r)) as [tok rest'].
  destruct (JSON.numberOfToken tok); discriminate P.
Qed.

Lemma reloaded_string s :
  plainText s = true ->
  (reloaded (JString s) = JString s <-> s = [] \/ JSON.parse s = None).
Proof.
  intros P. unfold reloaded, buildRow. cbn [valInput toDisplay].
  rewrite (inputValue_plainText s P). unfold parseValue.
  destruct s as [|c s]; [cbn [isEmpty]; split; auto|]. cbn [isEmpty].
  destruct (JSON.parse (c :: s)) as [v|] eqn:E.
  - split.
    + intros ->. apply parse_string_quote in E.
      exfalso. exact (plainText_no_quote _ P E).
    + intros [H | H]; discriminate H.
  - split; auto.
Qed.

Lemma reloaded_safeInteger n :
  safeInteger n = true -> reloaded (JNumber n) = JNumber n.
Proof.
  intros S. unfold reloaded, buildRow. cbn [valInput toDisplay JSON.stringify].
  destruct (NumberToString_token n) as (c & r & x & E & D & NC & T).
  rewrite inputValue_plain.
  - unfold parseValue. rewrite (parse_safeInteger n S), E. reflexivity.
  - rewrite E. rewrite forallb_forall in NC |- *.
    intros a I. apply isNumChar_plain. apply NC. exact I.
Qed.

(** X20. What a value of the document becomes when [buildRow] shows it and
    resync reads it back.  An object with members comes back as the string
    ["{"], and an array that starts with a string as ["["]: their text is
    cut at its first double quote by the attribute it is written into.  A
    string of plain text comes back as the same string exactly when it is
    empty or is no JSON text; so the strings ["1"], ["true"] and ["null"]
    come back as a number, a boolean and null.  Booleans, null, the empty
    array, the empty object and the safe integers come back as they were. *)
Theorem reloaded_values :
  (forall p ps,
     plainMarkup (JSON.stringify (JObject (p :: ps))) = true ->
     reloaded (JObject (p :: ps)) = JString (str "{"))
  /\ (forall s l,
        plainMarkup (JSON.stringify (JArray (JString s :: l))) = true ->
        reloaded (JArray (JString s :: l)) = JString (str "["))
  /\ (forall s,
        plainText s = true ->
        (reloaded (JString s) = JString s <-> s = [] \/ JSON.parse s = None))
  /\ reloaded (JString (str "1")) = JNumber (mkNumber false 1 0)
  /\ reloaded (JString (str "true")) = JBool true
  /\ reloaded (JString (str "null")) = JNull
  /\ (forall b, reloaded (JBool b) = JBool b)
  /\ reloaded JNull = JNull
  /\ reloaded (JArray []) = JArray []
  /\ reloaded (JObject []) = JObject []
  /\ (forall n, safeInteger n = true -> reloaded (JNumber n) = JNumber n).
Proof.
  split; [|split; [|split; [|split; [|split; [|split; [|split; [|split;
    [|split; [|split]]]]]]]]].
  - intros p ps _. unfold reloaded, buildRow. cbn [valInput]. unfold toDisplay.
    destruct (stringify_member_object p ps) as [r ->]. reflexivity.
  - intros s l _. unfold reloaded, buildRow. cbn [valInput]. unfold toDisplay.
    destruct (stringify_string_array s l) as [r ->]. reflexivity.
  - exact reloaded_string.
  - vm_compute. reflexivity.
  - vm_compute. reflexivity.
  - vm_compute. reflexivity.
  - intros [|]; vm_compute; reflexivity.
  - vm_compute. reflexivity.
  - vm_compute. reflexivity.
  - vm_compute. reflexivity.
  - exact reloaded_safeInteger.
Qed.

(** ** Load, then resync *)

Lemma cleanKey_facts k :
  cleanKey k = true ->
  isEmpty k = false /\ trim k = k /\ inputValue k = k
  /\ eqb_str k (str "hasOwnProperty") = false
  /\ eqb_str k (str "__proto__") = false
  /\ JSON.arrayIndex k = None.
Proof.
  unfold cleanKey. rewrite !andb_true_iff, !negb_true_iff.
  intros (((((E & T) & I) & H) & P) & A).
  apply eqb_str_eq in T. apply inputValue_plainText in I.
  destruct (JSON.arrayIndex k); [discriminate A|]. repeat split; assumption.
Qed.

Lemma hasProp_app k ps qs :
  JSON.hasProp k (ps ++ qs) = JSON.hasProp k ps || JSON.hasProp k qs.
Proof. unfold JSON.hasProp. apply existsb_app. Qed.

Lemma resync_loaded ps : forall doc,
  forallb cleanKey (map fst ps) = true ->
  NoDup (map fst ps) ->
  (forall k, In k (map fst ps) -> JSON.hasProp k doc = false) ->
  fold_left resyncStep (map (fun e => buildRow (fst e) (snd e)) ps) doc
  = doc ++ map (fun e => (fst e, reloaded (snd e))) ps.
Proof.
  induction ps as [|[k v] ps IH]; intros doc C D F.
  - cbn. rewrite app_nil_r. reflexivity.
  - cbn [map fst forallb] in C, D, F. apply andb_true_iff in C.
    destruct C as [Ck C]. inversion D as [|? ? N D']. subst.
    destruct (cleanKey_facts k Ck) as (E & T & I & _).
    cbn [map fold_left fst snd].
    assert (S1 : resyncStep doc (buildRow k v) = doc ++ [(k, reloaded v)]).
    { unfold resyncStep, buildRow. cbn [keyInput valInput]. cbv zeta.
      rewrite I, T, E, (F k (or_introl eq_refl)). reflexivity. }
    rewrite S1, IH; [rewrite <- app_assoc; reflexivity | exact C | exact D' |].
    intros k' I'. rewrite hasProp_app, (F k' (or_intror I')).
    cbn [JSON.hasProp existsb fst orb]. rewrite orb_false_r.
    apply eqb_str_neq. intros ->. exact (N I').
Qed.

Lemma loaded_rows_plain ps :
  forallb cleanKey (map fst ps) = true ->
  forallb plainKey (map (fun e => buildRow (fst e) (snd e)) ps) = true
  /\ forallb (fun r => match JSON.arrayIndex (trim (keyInput r)) with
                       | Some _ => false
                       | None => true
                       end) (map (fun e => buildRow (fst e) (snd e)) ps)
     = true.
Proof.
  induction ps as [|[k v] ps IH]; intros C; [split; reflexivity|].
  cbn [map fst forallb] in C |- *. apply andb_true_iff in C.
  destruct C as [Ck C]. destruct (IH C) as [P A]. rewrite P, A.
  destruct (cleanKey_facts k Ck) as (E & T & I & H & Pr & Ix).
  unfold plainKey, buildRow. cbn [keyInput fst snd].
  rewrite I, T, H, Pr, Ix. split; reflexivity.
Qed.

(** X21. Loading a document and resyncing, in general.  When the hidden
    input holds the text of an object whose keys are clean and differ from
    each other and whose values are plain, [loadInitial] makes one row for
    each entry, in order, and the resync of these rows writes the object with
    the same keys in the same order, each value replaced by what it becomes
    when it is shown and read back.  So the document comes back as it was
    when each of its values does, as the safe integers, the booleans, null
    and the plain strings that are no JSON text do. *)
Theorem load_resync_document w ps :
  JSON.parse (hidden w) = Some (JObject ps) ->
  forallb cleanKey (map fst ps) = true ->
  NoDup (map fst ps) ->
  forallb plainValue (map snd ps) = true ->
  exists w1,
    loadInitial w = Done w1
    /\ rows w1 = map (fun e => buildRow (fst e) (snd e)) ps
    /\ syncHidden w1
       = Done (set_hidden
                 (JSON.stringify
                    (JObject (map (fun e => (fst e, reloaded (snd e))) ps)))
                 w1)
    /\ (Forall (fun e => reloaded (snd e) = snd e) ps ->
        syncHidden w1 = Done (set_hidden (JSON.stringify (JObject ps)) w1))
    /\ (Forall (fun e =>
                  match snd e with
                  | JNull | JBool _ | JNumber _ => True
                  | JString s => plainText s = true /\ JSON.parse s = None
                  | _ => False
                  end) ps ->
        syncHidden w1 = Done (set_hidden (JSON.stringify (JObject ps)) w1)).
Proof.
  intros P C D V.
  assert (Ne : isEmpty (hidden w) = false).
  { destruct (hidden w); [discriminate P | reflexivity]. }
  assert (S : syncHidden
                (set_rows (map (fun e => buildRow (fst e) (snd e)) ps)
                   (set_rows [] w))
              = Done (set_hidden
                        (JSON.stringify
                           (JObject
                              (map (fun e => (fst e, reloaded (snd e))) ps)))
                        (set_rows (map (fun e => buildRow (fst e) (snd e)) ps)
                           (set_rows [] w)))).
  { unfold syncHidden. cbn [rows set_rows].
    destruct (loaded_rows_plain ps C) as [Pl Ix].
    rewrite (forEachRow_resync_ordered _ [] Pl Ix eq_refl).
    rewrite (resync_loaded ps [] C D (fun _ _ => eq_refl)). reflexivity. }
  assert (R : Forall (fun e => reloaded (snd e) = snd e) ps ->
              map (fun e => (fst e, reloaded (snd e))) ps = ps).
  { clear. intros R. induction R as [|[k v] l Hv _ IH]; [reflexivity|].
    cbn [map fst snd] in *. rewrite Hv, IH. reflexivity. }
  eexists. split; [|split; [|split; [|split]]].
  - unfold loadInitial. rewrite Ne, P. cbn [entries]. reflexivity.
  - reflexivity.
  - exact S.
  - intros F. rewrite S, (R F). reflexivity.
  - intros F. rewrite S, R; [reflexivity|].
    rewrite forallb_forall in V. rewrite Forall_forall in F |- *.
    intros [k v] I. specialize (F _ I). cbn [snd] in *.
    specialize (V v (in_map snd _ _ I)).
    destruct v as [| b | n | s | l | qs]; try contradiction.
    + reflexivity.
    + destruct b; reflexivity.
    + apply reloaded_safeInteger. unfold plainValue in V.
      rewrite !andb_true_iff in V. apply V.
    + destruct F as [Ps Pn]. apply reloaded_string; [exact Ps|].
      right. exact Pn.
Qed.

Lemma load_resync_document_witness :
  let text := str "{" ++ quoted "a" ++ str ":{" ++ quoted "b" ++ str ":1},"
              ++ quoted "c" ++ str ":" ++ quoted "1" ++ str ","
              ++ quoted "d" ++ str ":12}" in
  let ps := [(str "a", JObject [(str "b", JNumber (mkNumber false 1 0))]);
             (str "c", JString (str "1"));
             (str "d", JNumber (mkNumber false 12 0))] in
  let w := mkWidget text [] false in
  JSON.parse (hidden w) = Some (JObject ps)
  /\ forallb cleanKey (map fst ps) = true
  /\ NoDup (map fst ps)
  /\ forallb plainValue (map snd ps) = true
  /\ exists w1,
       loadInitial w = Done w1
       /\ syncHidden w1
          = Done (set_hidden (str "{" ++ quoted "a" ++ str ":" ++ quoted "{"
                              ++ str "," ++ quoted "c" ++ str ":1,"
                              ++ quoted "d" ++ str ":12}") w1).
Proof.
  cbv zeta.
  set (text := str "{" ++ quoted "a" ++ str ":{" ++ quoted "b" ++ str ":1},"
               ++ quoted "c" ++ str ":" ++ quoted "1" ++ str ","
               ++ quoted "d" ++ str ":12}").
  set (ps := [(str "a", JObject [(str "b", JNumber (mkNumber false 1 0))]);
              (str "c", JString (str "1"));
              (str "d", JNumber (mkNumber false 12 0))]).
  assert (P : JSON.parse (hidden (mkWidget text [] false))
              = Some (JObject ps)) by (vm_compute; reflexivity).
  assert (C : forallb cleanKey (map fst ps) = true)
    by (vm_compute; reflexivity).
  assert (D : NoDup (map fst ps)).
  { unfold ps. cbn [map fst]. repeat constructor; cbn [In];
      intuition discriminate. }
  assert (V : forallb plainValue (map snd ps) = true)
    by (vm_compute; reflexivity).
  split; [exact P|]. split; [exact C|]. split; [exact D|]. split; [exact V|].
  destruct (load_resync_document _ _ P C D V) as (w1 & L & _ & S & _).
  exists w1. split; [exact L|]. rewrite S. reflexivity.
Defined.


(** ** How [init] ends *)

(** X22. How [init] ends.  When it returns, the listeners are attached and
    the table has at least one row.  It throws only when the hidden input
    holds the text of [null]: then the table is empty and [init] attaches no
    listener; the hidden input keeps that text until the submit listener of
    the form, if another editor has bound one, reaches the editor and writes
    the text of the empty object. *)
Theorem init_outcomes w :
  match init w with
  | Done w' => listening w' = true /\ rows w' <> []
  | TypeError w' =>
      JSON.parse (hidden w) = Some JNull /\ w' = set_rows [] w
      /\ hidden w' = hidden w
      /\ handle w' FormSubmit = Done (set_hidden (str "{}") w')
  end.
Proof.
  unfold init, loadInitial.
  destruct (isEmpty (hidden w)) eqn:E.
  { change (JSON.parse (str "{}")) with (Some (JObject [])).
    cbn. split; [reflexivity | discriminate]. }
  destruct (JSON.parse (hidden w)) as [[| b | n | s | l | ps]|];
    cbn [entries].
  - repeat split.
  - cbn. split; [reflexivity | discriminate].
  - cbn. split; [reflexivity | discriminate].
  - destruct s as [|c s]; cbn; split; try reflexivity; discriminate.
  - destruct l as [|x l]; cbn; split; try reflexivity; discriminate.
  - destruct ps as [|p ps]; cbn; split; try reflexivity; discriminate.
  - cbn. split; [reflexivity | discriminate].
Qed.
